(** * qbit-smart-web: the precision average-speed limit engine

    A shallow embedding of [speed_limiting_engine.py] and of the control
    parts of [precision_limit_engine.py], followed by the properties of
    the specification that concern them.

    Conventions of the embedding.
    - Python [int] is [Z]; Python [float] is idealised as an exact
      rational [Q] (no rounding error, no NaN, no infinities); decimal
      constants of the source denote the rational they spell. The one
      place where rounding is kept is the sum of a duration and the
      wall clock in [should_reannounce] ([Py.fadd]): at the size of a
      clock reading a summand below half an ulp is absorbed, and a
      branch of the decision is taken only then.
    - [str] is [string]; a [dict] is a [gmap]; a [deque] is a [list] with
      the oldest element first.
    - Objects mutated in place become records threaded through the
      functions: a method returns the new object next to its result.
    - A raised exception is [None] at the place where the source lets it
      escape. *)

From Stdlib Require Import ZArith QArith Qabs Qround Lqa Lia Bool String List DecimalString.
From stdpp Require Import gmap strings list fin_maps.
Import ListNotations.

Local Open Scope Z_scope.
Local Open Scope Q_scope.

(** ** Python numerics *)

Module Py.

Definition ltb (a b : Q) : bool := negb (Qle_bool b a).
Definition leb (a b : Q) : bool := Qle_bool a b.
Definition eqb (a b : Q) : bool := Qeq_bool a b.

(** [max(a, b)] and [min(a, b)] return their first argument on a tie. *)
Definition max (a b : Q) : Q := if ltb a b then b else a.
Definition min (a b : Q) : Q := if ltb b a then b else a.

(** [int(x)] of a float truncates towards zero. *)
Definition int (x : Q) : Z := Z.quot (Qnum x) (Zpos (Qden x)).

(** [float(n)] of an int. *)
Definition float (n : Z) : Q := inject_Z n.

(** [round(x)] to an integer, ties to even: what the format [:.0f]
    prints. *)
Definition round_half_even (x : Q) : Z :=
  let fl := Qfloor x in
  let r := x - inject_Z fl in
  if ltb r (1 # 2) then fl
  else if ltb (1 # 2) r then (fl + 1)%Z
  else if Z.even fl then fl else (fl + 1)%Z.

Definition str_int (n : Z) : string := NilZero.string_of_int (Z.to_int n).

(** [f"{x:.0f}"] *)
Definition fmt0 (x : Q) : string := str_int (round_half_even x).

(** [deque(maxlen=n).append(x)]: a full deque drops its oldest element. *)
Definition deque_append {A} (maxlen : nat) (d : list A) (x : A) : list A :=
  if (maxlen <=? length d)%nat then tail d ++ [x] else d ++ [x].

Definition sum (l : list Q) : Q := fold_left Qplus l 0.
Definition len {A} (l : list A) : Q := inject_Z (Z.of_nat (length l)).

(** [2 ** e] as a rational. *)
Definition pow2 (e : Z) : Q :=
  if (0 <=? e)%Z then inject_Z (2 ^ e) else 1 / inject_Z (2 ^ (- e)).

(** The binary64 number nearest to [x], ties to even, in the normal
    range (neither overflow nor subnormals): with [2 ** e <= |x| <
    2 ** (e + 1)] the result is a multiple of [2 ** (e - 52)]. *)
Definition binary64 (x : Q) : Q :=
  if eqb x 0 then 0
  else
    let a := Qabs x in
    let e0 := (Z.log2 (Qnum a) - Z.log2 (Zpos (Qden a)))%Z in
    let e := if ltb a (pow2 e0) then (e0 - 1)%Z else e0 in
    let ulp := pow2 (e - 52) in
    let m := round_half_even (a / ulp) in
    (if ltb x 0 then - 1 else 1) * (inject_Z m * ulp).

(** [a + b] on floats. *)
Definition fadd (a b : Q) : Q := binary64 (a + b).

End Py.

(** ** speed_limiting_engine.py *)

Definition EPS : Q := 1 # 10000000000.

Definition safe_div (a b default : Q) : Q :=
  if Py.eqb b 0 || Py.ltb (Qabs b) EPS then default else a / b.

Definition clamp (value min_val max_val : Q) : Q :=
  Py.max min_val (Py.min max_val value).

(** [clamp] on ints, as the quantiser calls it. *)
Definition clampZ (value min_val max_val : Z) : Z :=
  Z.max min_val (Z.min max_val value).

Record PidParams := {
  pp_kp : Q;
  pp_ki : Q;
  pp_kd : Q;
  pp_headroom : option Q
}.

Record EngineTuning := {
  pid_params : gmap string PidParams;
  min_limit : Z;
  quant_steps : gmap string Z;
  kalman_q_speed : Q;
  kalman_q_accel : Q;
  kalman_r : Q
}.

Module PIDController.

Record t := {
  kp : Q;
  ki : Q;
  kd : Q;
  _integral : Q;
  _last_error : Q;
  _last_time : Q;
  _last_output : Q;
  _initialized : bool;
  _integral_limit : Q;
  _derivative_filter : Q
}.

Definition __init__ : t := {|
  kp := 0.6; ki := 0.15; kd := 0.08;
  _integral := 0; _last_error := 0; _last_time := 0; _last_output := 1;
  _initialized := false; _integral_limit := 0.3; _derivative_filter := 0
|}.

(** [pid_params.get(phase, pid_params['steady'])]: the default is
    evaluated first, so a table without ['steady'] raises [KeyError]. *)
Definition set_phase (self : t) (phase : string)
    (params : gmap string PidParams) : option t :=
  match params !! "steady"%string with
  | None => None
  | Some dflt =>
      let p := default dflt (params !! phase) in
      Some {| kp := pp_kp p; ki := pp_ki p; kd := pp_kd p;
              _integral := _integral self;
              _last_error := _last_error self;
              _last_time := _last_time self;
              _last_output := _last_output self;
              _initialized := _initialized self;
              _integral_limit := _integral_limit self;
              _derivative_filter := _derivative_filter self |}
  end.

Definition update (self : t) (target actual now : Q) : t * Q :=
  let error := safe_div (target - actual) (Py.max target 1) 0 in
  if negb (_initialized self) then
    ({| kp := kp self; ki := ki self; kd := kd self;
        _integral := _integral self;
        _last_error := error;
        _last_time := now;
        _last_output := _last_output self;
        _initialized := true;
        _integral_limit := _integral_limit self;
        _derivative_filter := _derivative_filter self |}, 1)
  else
    let dt := now - _last_time self in
    if Py.leb dt 0.01 then (self, _last_output self)
    else
      let p_term := kp self * error in
      let integral := clamp (_integral self + error * dt)
                            (- _integral_limit self) (_integral_limit self) in
      let i_term := ki self * integral in
      let raw_derivative := (error - _last_error self) / dt in
      let derivative_filter :=
        0.3 * raw_derivative + 0.7 * _derivative_filter self in
      let d_term := kd self * derivative_filter in
      let output := clamp (1 + p_term + i_term + d_term) 0.5 2 in
      ({| kp := kp self; ki := ki self; kd := kd self;
          _integral := integral;
          _last_error := error;
          _last_time := now;
          _last_output := output;
          _initialized := true;
          _integral_limit := _integral_limit self;
          _derivative_filter := derivative_filter |}, output).

Definition reset (self : t) : t := {|
  kp := kp self; ki := ki self; kd := kd self;
  _integral := 0; _last_error := 0; _last_time := 0; _last_output := 1;
  _initialized := false;
  _integral_limit := _integral_limit self;
  _derivative_filter := 0
|}.

End PIDController.

Module ExtendedKalman.

Record t := {
  speed : Q;
  accel : Q;
  p00 : Q;
  p01 : Q;
  p10 : Q;
  p11 : Q;
  _last_time : Q;
  _initialized : bool;
  q_speed : Q;
  q_accel : Q;
  r : Q
}.

Definition __init__ (q_speed q_accel r : Q) : t := {|
  speed := 0; accel := 0;
  p00 := 1000; p01 := 0; p10 := 0; p11 := 1000;
  _last_time := 0; _initialized := false;
  q_speed := q_speed; q_accel := q_accel; r := r
|}.

Definition update (self : t) (measurement now : Q) : t * (Q * Q) :=
  if negb (_initialized self) then
    ({| speed := measurement; accel := accel self;
        p00 := p00 self; p01 := p01 self; p10 := p10 self; p11 := p11 self;
        _last_time := now; _initialized := true;
        q_speed := q_speed self; q_accel := q_accel self; r := r self |},
     (measurement, 0))
  else
    let dt := now - _last_time self in
    if Py.leb dt 0.01 then (self, (speed self, accel self))
    else
      let pred_speed := speed self + accel self * dt in
      let p00_pred := p00 self + dt * (p10 self + p01 self)
                      + dt * dt * p11 self + q_speed self in
      let p01_pred := p01 self + dt * p11 self in
      let p10_pred := p10 self + dt * p11 self in
      let p11_pred := p11 self + q_accel self in
      let s := p00_pred + r self in
      if Py.ltb (Qabs s) EPS then
        (** [_last_time] was already advanced when the source returns
            here. *)
        ({| speed := speed self; accel := accel self;
            p00 := p00 self; p01 := p01 self; p10 := p10 self;
            p11 := p11 self;
            _last_time := now; _initialized := true;
            q_speed := q_speed self; q_accel := q_accel self;
            r := r self |},
         (speed self, accel self))
      else
        let k0 := p00_pred / s in
        let k1 := p10_pred / s in
        let innovation := measurement - pred_speed in
        let speed' := pred_speed + k0 * innovation in
        let accel' := accel self + k1 * innovation in
        ({| speed := speed'; accel := accel';
            p00 := (1 - k0) * p00_pred;
            p01 := (1 - k0) * p01_pred;
            p10 := - k1 * p00_pred + p10_pred;
            p11 := - k1 * p01_pred + p11_pred;
            _last_time := now; _initialized := true;
            q_speed := q_speed self; q_accel := q_accel self;
            r := r self |},
         (speed', accel')).

Definition predict_upload (self : t) (time_left : Q) : Q :=
  Py.max 0 (speed self * time_left
            + 0.5 * accel self * time_left * time_left).

Definition reset (self : t) : t := {|
  speed := 0; accel := 0;
  p00 := 1000; p01 := 0; p10 := 0; p11 := 1000;
  _last_time := 0; _initialized := false;
  q_speed := q_speed self; q_accel := q_accel self; r := r self
|}.

End ExtendedKalman.


Module MultiWindowSpeedTracker.

(** [_samples] holds [(now, speed)] pairs, oldest first. *)
Record t := { _samples : list (Q * Q) }.

Definition __init__ : t := {| _samples := [] |}.

Definition record (self : t) (now speed : Q) : t :=
  {| _samples := Py.deque_append 1200 (_samples self) (now, speed) |}.

Definition mk_weights (w5 w15 w30 w60 : Q) : gmap Z Q :=
  <[5%Z := w5]> (<[15%Z := w15]> (<[30%Z := w30]> (<[60%Z := w60]> ∅))).

Definition weights_table : gmap string (gmap Z Q) :=
  <["warmup"%string := mk_weights 0.1 0.2 0.3 0.4]>
  (<["catch"%string := mk_weights 0.2 0.3 0.3 0.2]>
  (<["steady"%string := mk_weights 0.3 0.3 0.2 0.2]>
  (<["finish"%string := mk_weights 0.5 0.3 0.15 0.05]> ∅))).

Definition get_weighted_avg (self : t) (now : Q) (phase : string) : Q :=
  let weights :=
    default (mk_weights 0.3 0.3 0.2 0.2) (weights_table !! phase) in
  let samples := _samples self in
  let '(total_weight, weighted_sum) :=
    fold_left
      (fun (acc : Q * Q) (window : Z) =>
         let '(total_weight, weighted_sum) := acc in
         let win_samples :=
           map snd (filter (fun ts : Q * Q =>
                              Py.leb (now - fst ts) (inject_Z window) = true)
                           samples) in
         match win_samples with
         | [] => acc
         | _ =>
             let avg := Py.sum win_samples / Py.len win_samples in
             let weight := default 0.25 (weights !! window) in
             (total_weight + weight, weighted_sum + avg * weight)
         end)
      [5%Z; 15%Z; 30%Z; 60%Z] (0, 0) in
  if Py.ltb 0 total_weight then weighted_sum / total_weight else 0.

Definition get_recent_trend (self : t) (now : Q) (window : Z) : Q :=
  let samples :=
    filter (fun ts : Q * Q => Py.leb (now - fst ts) (inject_Z window) = true)
           (_samples self) in
  if (length samples <? 5)%nat then 0
  else
    let mid := (length samples / 2)%nat in
    let first := Py.sum (map snd (take mid samples))
                 / inject_Z (Z.of_nat mid) in
    let second := Py.sum (map snd (drop mid samples))
                  / inject_Z (Z.of_nat (length samples - mid)) in
    safe_div (second - first) first 0.

Definition clear (self : t) : t := {| _samples := [] |}.

End MultiWindowSpeedTracker.

Module AdaptiveQuantizer.

Definition quantize (limit : Z) (phase : string) (current_speed target : Q)
    (tuning : EngineTuning) (trend : Q) : Z :=
  if (limit <=? 0)%Z then limit
  else
    let base := default 1024%Z (quant_steps tuning !! phase) in
    let ratio := safe_div current_speed target 1 in
    let step :=
      if String.eqb phase "finish" then 256%Z
      else if Py.ltb 1.2 ratio then (base * 2)%Z
      else if Py.ltb 1.05 ratio then base
      else if Py.ltb 0.8 ratio then (base / 2)%Z
      else base in
    let step :=
      if Py.ltb 0.1 (Qabs trend) then Z.max 256 (step / 2) else step in
    let step := clampZ step 256 8192 in
    Z.max (min_limit tuning) (((limit + step / 2) / step) * step)%Z.

End AdaptiveQuantizer.

Module PrecisionTracker.

(** [_history] holds [(ratio, phase, now)] triples, oldest first. *)
Record t := {
  _history : list (Q * string * Q);
  _phase_adj : gmap string Q;
  _global_adj : Q
}.

Definition __init__ : t := {|
  _history := [];
  _phase_adj :=
    <["warmup"%string := 1]> (<["catch"%string := 1]>
    (<["steady"%string := 1]> (<["finish"%string := 1]> ∅)));
  _global_adj := 1
|}.

(** [phase_data.setdefault(phase, []).append(ratio)] on a dict that keeps
    its insertion order. *)
Fixpoint setdefault_append (phase_data : list (string * list Q))
    (phase : string) (ratio : Q) : list (string * list Q) :=
  match phase_data with
  | [] => [(phase, [ratio])]
  | (p, rs) :: rest =>
      if String.eqb p phase then (p, rs ++ [ratio]) :: rest
      else (p, rs) :: setdefault_append rest phase ratio
  end.

Definition group_by_phase (history : list (Q * string * Q))
    : list (string * list Q) :=
  fold_left (fun pd (h : Q * string * Q) =>
               setdefault_append pd (snd (fst h)) (fst (fst h)))
            history [].

Definition phase_factor (avg : Q) : Q :=
  if Py.ltb 1.005 avg then 0.998
  else if Py.ltb 1.001 avg then 0.999
  else if Py.ltb avg 0.99 then 1.002
  else if Py.ltb avg 0.995 then 1.001
  else 1.

(** The loop over [phase_data.items()].  [self._phase_adj[phase]] raises
    [KeyError] for a phase that is not a key: the loop stops there, with
    the adjustments made so far kept. The flag is [true] when it raised. *)
Fixpoint update_phases (phase_data : list (string * list Q))
    (phase_adj : gmap string Q) : gmap string Q * bool :=
  match phase_data with
  | [] => (phase_adj, false)
  | (phase, ratios) :: rest =>
      if (length ratios <? 3)%nat then update_phases rest phase_adj
      else
        let avg := Py.sum ratios / Py.len ratios in
        let adj := phase_factor avg in
        match phase_adj !! phase with
        | None => (phase_adj, true)
        | Some cur =>
            update_phases rest
              (<[phase := clamp (cur * adj) 0.92 1.08]> phase_adj)
        end
  end.

Definition _update (self : t) : t * bool :=
  if (length (_history self) <? 5)%nat then (self, false)
  else
    let '(phase_adj, raised) :=
      update_phases (group_by_phase (_history self)) (_phase_adj self) in
    if raised then
      ({| _history := _history self; _phase_adj := phase_adj;
          _global_adj := _global_adj self |}, true)
    else
      let all_ratios := map (fun h : Q * string * Q => fst (fst h))
                            (_history self) in
      let global_avg := Py.sum all_ratios / Py.len all_ratios in
      let global_adj :=
        if Py.ltb 1.002 global_avg then
          clamp (_global_adj self * 0.999) 0.95 1.05
        else if Py.ltb global_avg 0.995 then
          clamp (_global_adj self * 1.001) 0.95 1.05
        else _global_adj self in
      ({| _history := _history self; _phase_adj := phase_adj;
          _global_adj := global_adj |}, false).

Definition record (self : t) (ratio : Q) (phase : string) (now : Q)
    : t * bool :=
  _update {| _history := Py.deque_append 30 (_history self) (ratio, phase, now);
             _phase_adj := _phase_adj self;
             _global_adj := _global_adj self |}.

Definition get_adjustment (self : t) (phase : string) : Q :=
  default 1 (_phase_adj self !! phase) * _global_adj self.

End PrecisionTracker.

(** The [debug] dict of [calculate]: a key that was not set is [None]. *)
Record Debug := {
  predicted_ratio : option Q;
  required_speed : option Q;
  pid_output : option Q;
  final_limit : option Z
}.

Definition Debug_empty : Debug :=
  {| predicted_ratio := None; required_speed := None;
     pid_output := None; final_limit := None |}.

Module PrecisionLimitController.

Record t := {
  tuning : EngineTuning;
  kalman : ExtendedKalman.t;
  speed_tracker : MultiWindowSpeedTracker.t;
  pid : PIDController.t;
  _smooth_limit : Z
}.

Definition __init__ (tuning : EngineTuning) : t := {|
  tuning := tuning;
  kalman := ExtendedKalman.__init__ (kalman_q_speed tuning)
              (kalman_q_accel tuning) (kalman_r tuning);
  speed_tracker := MultiWindowSpeedTracker.__init__;
  pid := PIDController.__init__;
  _smooth_limit := (-1)%Z
|}.

Definition record_speed (self : t) (now speed : Q) : t := {|
  tuning := tuning self;
  kalman := fst (ExtendedKalman.update (kalman self) speed now);
  speed_tracker := MultiWindowSpeedTracker.record (speed_tracker self) now speed;
  pid := pid self;
  _smooth_limit := _smooth_limit self
|}.

Definition _smooth (self : t) (new_limit : Z) (phase : string) : t * Z :=
  let set (v : Z) : t :=
    {| tuning := tuning self; kalman := kalman self;
       speed_tracker := speed_tracker self; pid := pid self;
       _smooth_limit := v |} in
  if (new_limit <=? 0)%Z || (_smooth_limit self <=? 0)%Z
     || String.eqb phase "finish" then
    (set new_limit, new_limit)
  else
    let change := inject_Z (Z.abs (new_limit - _smooth_limit self))
                  / inject_Z (_smooth_limit self) in
    if Py.ltb change 0.2 then (set new_limit, new_limit)
    else
      let factor := if Py.leb 0.5 change then 0.5 else 0.3 in
      let v := Py.int ((1 - factor) * inject_Z (_smooth_limit self)
                       + factor * inject_Z new_limit) in
      (set v, v).

(** [calculate] returns [None] when [set_phase] raises: nothing of the
    controller has been changed at that point. *)
Definition calculate (self : t) (target : Q) (uploaded : Z)
    (time_left elapsed : Q) (phase : string) (now precision_adj : Q)
    : option (t * (Z * string * Debug)) :=
  let adjusted_target := target * precision_adj in
  let kalman_speed := ExtendedKalman.speed (kalman self) in
  let weighted_speed :=
    MultiWindowSpeedTracker.get_weighted_avg (speed_tracker self) now phase in
  let trend :=
    MultiWindowSpeedTracker.get_recent_trend (speed_tracker self) now 10 in
  let current_speed :=
    if String.eqb phase "finish" && Py.ltb 0 weighted_speed
    then weighted_speed
    else if Py.ltb 0 kalman_speed then kalman_speed else weighted_speed in
  let total_time := elapsed + time_left in
  let target_total := adjusted_target * total_time in
  let pred :=
    safe_div (inject_Z uploaded
              + ExtendedKalman.predict_upload (kalman self) time_left)
             target_total 0 in
  let need := Py.max 0 (target_total - inject_Z uploaded) in
  if Py.leb time_left 0 then
    Some (self, ((-1)%Z, "汇报中"%string,
                 {| predicted_ratio := Some pred; required_speed := None;
                    pid_output := None; final_limit := None |}))
  else
    let required_speed := need / time_left in
    match PIDController.set_phase (pid self) phase
            (pid_params (tuning self)) with
    | None => None
    | Some pid1 =>
        let '(pid2, pid_output) :=
          PIDController.update pid1 target_total (inject_Z uploaded) now in
        let headroom :=
          match pid_params (tuning self) !! phase with
          | Some p => default 1.01 (pp_headroom p)
          | None => 1.01
          end in
        let kreason (tag : string) : string :=
          (tag ++ Py.fmt0 (required_speed / 1024) ++ "K")%string in
        let '(limit, reason) :=
          if String.eqb phase "finish" then
            let correction :=
              if Py.ltb 1.002 pred then Py.max 0.8 (1 - (pred - 1) * 3)
              else if Py.ltb pred 0.998 then Py.min 1.2 (1 + (1 - pred) * 3)
              else 1 in
            (Py.int (required_speed * pid_output * correction), kreason "F:")
          else if String.eqb phase "steady" then
            let headroom := if Py.ltb 1.01 pred then 1 else headroom in
            (Py.int (required_speed * headroom * pid_output), kreason "S:")
          else if String.eqb phase "catch" then
            if Py.ltb (adjusted_target * 5) required_speed then
              ((-1)%Z, "C:欠速放开"%string)
            else
              (Py.int (required_speed * headroom * pid_output), kreason "C:")
          else
            let progress := safe_div (inject_Z uploaded) target_total 0 in
            if Py.leb 1 progress then
              (min_limit (tuning self),
               ("W:超" ++ Py.fmt0 ((progress - 1) * 100) ++ "%")%string)
            else if Py.leb 0.8 progress then
              (Py.int (required_speed * 1.01 * pid_output), "W:精控"%string)
            else if Py.leb 0.5 progress then
              (Py.int (required_speed * 1.05), "W:温控"%string)
            else ((-1)%Z, "W:预热"%string) in
        let limit :=
          if (0 <? limit)%Z then
            AdaptiveQuantizer.quantize limit phase current_speed
              adjusted_target (tuning self) trend
          else limit in
        let self1 :=
          {| tuning := tuning self; kalman := kalman self;
             speed_tracker := speed_tracker self; pid := pid2;
             _smooth_limit := _smooth_limit self |} in
        let '(self2, limit) := _smooth self1 limit phase in
        Some (self2, (limit, reason,
                      {| predicted_ratio := Some pred;
                         required_speed := Some required_speed;
                         pid_output := Some pid_output;
                         final_limit := Some limit |}))
    end.

Definition reset (self : t) : t := {|
  tuning := tuning self;
  kalman := ExtendedKalman.reset (kalman self);
  speed_tracker := MultiWindowSpeedTracker.clear (speed_tracker self);
  pid := PIDController.reset (pid self);
  _smooth_limit := (-1)%Z
|}.

End PrecisionLimitController.


(** ** precision_limit_engine.py *)

Module LimitConfig.

Definition PHASE_WARMUP : string := "warmup".
Definition PHASE_CATCH : string := "catch".
Definition PHASE_STEADY : string := "steady".
Definition PHASE_FINISH : string := "finish".

Definition MIN_LIMIT : Z := 4096.
Definition PROGRESS_PROTECT : Q := 0.90.
Definition SPEED_LIMIT : Z := 50 * 1024 * 1024.
Definition MAX_REANNOUNCE : Z := 86400.

Definition ANNOUNCE_INTERVAL_NEW : Z := 1800.
Definition ANNOUNCE_INTERVAL_WEEK : Z := 2700.
Definition ANNOUNCE_INTERVAL_OLD : Z := 3600.

Definition DL_LIMIT_MIN_TIME : Z := 20.
Definition DL_LIMIT_BUFFER : Z := 30.
Definition DL_LIMIT_MIN : Z := 512.
Definition DL_LIMIT_ADJUST_BUFFER : Z := 60.

Definition REANNOUNCE_WAIT_LIMIT : Z := 5120.
Definition REANNOUNCE_MIN_INTERVAL : Z := 900.
Definition REANNOUNCE_SPEED_SAMPLES : Z := 300.

End LimitConfig.

(** [estimate_announce_interval(time_ref, now)]; every caller modelled
    here passes [now]. [not time_ref] holds for [None] and for [0.0]. *)
Definition estimate_announce_interval (time_ref : option Q) (now : Q) : Z :=
  match time_ref with
  | None => LimitConfig.ANNOUNCE_INTERVAL_NEW
  | Some ref =>
      if Py.eqb ref 0 then LimitConfig.ANNOUNCE_INTERVAL_NEW
      else
        let age := Py.max 0 (now - ref) in
        if Py.ltb age (inject_Z (7 * 86400)) then
          LimitConfig.ANNOUNCE_INTERVAL_NEW
        else if Py.ltb age (inject_Z (30 * 86400)) then
          LimitConfig.ANNOUNCE_INTERVAL_WEEK
        else LimitConfig.ANNOUNCE_INTERVAL_OLD
  end.

Module SpeedTracker.

(** [samples] holds [(now, up_speed, dl_speed)] triples, oldest first. *)
Record t := { samples : list (Q * Q * Q) }.

Definition __init__ : t := {| samples := [] |}.

Definition record_speed (self : t) (up_speed dl_speed now : Q) : t :=
  {| samples := Py.deque_append 3600 (samples self) (now, up_speed, dl_speed) |}.

(** [get_avg_speeds] reads the wall clock itself: [clock] is the value
    of [time.time()] at the call. *)
Definition get_avg_speeds (self : t) (window clock : Q) : Q * Q :=
  let relevant :=
    filter (fun tud : Q * Q * Q =>
              Py.leb (clock - fst (fst tud)) window = true) (samples self) in
  match relevant with
  | [] => (0, 0)
  | _ =>
      (Py.sum (map (fun tud : Q * Q * Q => snd (fst tud)) relevant)
         / Py.len relevant,
       Py.sum (map (fun tud : Q * Q * Q => snd tud) relevant)
         / Py.len relevant)
  end.

Definition clear (self : t) : t := {| samples := [] |}.

End SpeedTracker.

Module TorrentLimitState.

Record t := {
  hash : string;
  name : string;
  tracker : string;
  instance_id : option Z;
  cycle_start : Q;
  cycle_uploaded_start : Z;
  cycle_index : Z;
  cycle_synced : bool;
  cycle_interval : Q;
  jump_count : Z;
  last_jump : Q;
  cached_time_left : Q;
  cache_ts : Q;
  prev_time_left : Q;
  last_props : Q;
  reannounce_source : string;
  last_peer_list_check : Q;
  last_announce_time : option Q;
  peer_list_uploaded : option Z;
  site_id : option Z;
  tid : option Z;
  promotion : string;
  publish_time : option Q;
  tid_searched : bool;
  tid_search_time : Q;
  tid_not_found : bool;
  target_speed : Z;
  last_limit : Z;
  last_limit_reason : string;
  last_dl_limit : Z;
  dl_limited_this_cycle : bool;
  last_reannounce : Q;
  waiting_reannounce : bool;
  reannounced_this_cycle : bool;
  session_start_time : Q;
  total_uploaded_start : Z;
  total_size : Z;
  time_added : Q;
  limit_controller : option PrecisionLimitController.t;
  speed_tracker : SpeedTracker.t;
  monitor_notified : bool;
  last_debug : Debug
}.

(** [TorrentLimitState(hash=h)]: the dataclass defaults, and
    [__post_init__] filling in the speed tracker and the debug dict. *)
Definition __init__ (h : string) : t := {|
  hash := h;
  name := ""%string;
  tracker := ""%string;
  instance_id := None;
  cycle_start := 0;
  cycle_uploaded_start := 0%Z;
  cycle_index := 0%Z;
  cycle_synced := false;
  cycle_interval := 0;
  jump_count := 0%Z;
  last_jump := 0;
  cached_time_left := 0;
  cache_ts := 0;
  prev_time_left := 0;
  last_props := 0;
  reannounce_source := ""%string;
  last_peer_list_check := 0;
  last_announce_time := None;
  peer_list_uploaded := None;
  site_id := None;
  tid := None;
  promotion := "未知"%string;
  publish_time := None;
  tid_searched := false;
  tid_search_time := 0;
  tid_not_found := false;
  target_speed := 0%Z;
  last_limit := (-2)%Z;
  last_limit_reason := ""%string;
  last_dl_limit := (-1)%Z;
  dl_limited_this_cycle := false;
  last_reannounce := 0;
  waiting_reannounce := false;
  reannounced_this_cycle := false;
  session_start_time := 0;
  total_uploaded_start := 0%Z;
  total_size := 0%Z;
  time_added := 0;
  limit_controller := None;
  speed_tracker := SpeedTracker.__init__;
  monitor_notified := false;
  last_debug := Debug_empty
|}.

Definition set_waiting_reannounce (self : t) (v : bool) : t := {|
  hash := hash self;
  name := name self;
  tracker := tracker self;
  instance_id := instance_id self;
  cycle_start := cycle_start self;
  cycle_uploaded_start := cycle_uploaded_start self;
  cycle_index := cycle_index self;
  cycle_synced := cycle_synced self;
  cycle_interval := cycle_interval self;
  jump_count := jump_count self;
  last_jump := last_jump self;
  cached_time_left := cached_time_left self;
  cache_ts := cache_ts self;
  prev_time_left := prev_time_left self;
  last_props := last_props self;
  reannounce_source := reannounce_source self;
  last_peer_list_check := last_peer_list_check self;
  last_announce_time := last_announce_time self;
  peer_list_uploaded := peer_list_uploaded self;
  site_id := site_id self;
  tid := tid self;
  promotion := promotion self;
  publish_time := publish_time self;
  tid_searched := tid_searched self;
  tid_search_time := tid_search_time self;
  tid_not_found := tid_not_found self;
  target_speed := target_speed self;
  last_limit := last_limit self;
  last_limit_reason := last_limit_reason self;
  last_dl_limit := last_dl_limit self;
  dl_limited_this_cycle := dl_limited_this_cycle self;
  last_reannounce := last_reannounce self;
  waiting_reannounce := v;
  reannounced_this_cycle := reannounced_this_cycle self;
  session_start_time := session_start_time self;
  total_uploaded_start := total_uploaded_start self;
  total_size := total_size self;
  time_added := time_added self;
  limit_controller := limit_controller self;
  speed_tracker := speed_tracker self;
  monitor_notified := monitor_notified self;
  last_debug := last_debug self
|}.

Definition set_last_reannounce (self : t) (v : Q) : t := {|
  hash := hash self;
  name := name self;
  tracker := tracker self;
  instance_id := instance_id self;
  cycle_start := cycle_start self;
  cycle_uploaded_start := cycle_uploaded_start self;
  cycle_index := cycle_index self;
  cycle_synced := cycle_synced self;
  cycle_interval := cycle_interval self;
  jump_count := jump_count self;
  last_jump := last_jump self;
  cached_time_left := cached_time_left self;
  cache_ts := cache_ts self;
  prev_time_left := prev_time_left self;
  last_props := last_props self;
  reannounce_source := reannounce_source self;
  last_peer_list_check := last_peer_list_check self;
  last_announce_time := last_announce_time self;
  peer_list_uploaded := peer_list_uploaded self;
  site_id := site_id self;
  tid := tid self;
  promotion := promotion self;
  publish_time := publish_time self;
  tid_searched := tid_searched self;
  tid_search_time := tid_search_time self;
  tid_not_found := tid_not_found self;
  target_speed := target_speed self;
  last_limit := last_limit self;
  last_limit_reason := last_limit_reason self;
  last_dl_limit := last_dl_limit self;
  dl_limited_this_cycle := dl_limited_this_cycle self;
  last_reannounce := v;
  waiting_reannounce := waiting_reannounce self;
  reannounced_this_cycle := reannounced_this_cycle self;
  session_start_time := session_start_time self;
  total_uploaded_start := total_uploaded_start self;
  total_size := total_size self;
  time_added := time_added self;
  limit_controller := limit_controller self;
  speed_tracker := speed_tracker self;
  monitor_notified := monitor_notified self;
  last_debug := last_debug self
|}.

Definition set_reannounced_this_cycle (self : t) (v : bool) : t := {|
  hash := hash self;
  name := name self;
  tracker := tracker self;
  instance_id := instance_id self;
  cycle_start := cycle_start self;
  cycle_uploaded_start := cycle_uploaded_start self;
  cycle_index := cycle_index self;
  cycle_synced := cycle_synced self;
  cycle_interval := cycle_interval self;
  jump_count := jump_count self;
  last_jump := last_jump self;
  cached_time_left := cached_time_left self;
  cache_ts := cache_ts self;
  prev_time_left := prev_time_left self;
  last_props := last_props self;
  reannounce_source := reannounce_source self;
  last_peer_list_check := last_peer_list_check self;
  last_announce_time := last_announce_time self;
  peer_list_uploaded := peer_list_uploaded self;
  site_id := site_id self;
  tid := tid self;
  promotion := promotion self;
  publish_time := publish_time self;
  tid_searched := tid_searched self;
  tid_search_time := tid_search_time self;
  tid_not_found := tid_not_found self;
  target_speed := target_speed self;
  last_limit := last_limit self;
  last_limit_reason := last_limit_reason self;
  last_dl_limit := last_dl_limit self;
  dl_limited_this_cycle := dl_limited_this_cycle self;
  last_reannounce := last_reannounce self;
  waiting_reannounce := waiting_reannounce self;
  reannounced_this_cycle := v;
  session_start_time := session_start_time self;
  total_uploaded_start := total_uploaded_start self;
  total_size := total_size self;
  time_added := time_added self;
  limit_controller := limit_controller self;
  speed_tracker := speed_tracker self;
  monitor_notified := monitor_notified self;
  last_debug := last_debug self
|}.

Definition set_limit_controller (self : t) (v : option PrecisionLimitController.t) : t := {|
  hash := hash self;
  name := name self;
  tracker := tracker self;
  instance_id := instance_id self;
  cycle_start := cycle_start self;
  cycle_uploaded_start := cycle_uploaded_start self;
  cycle_index := cycle_index self;
  cycle_synced := cycle_synced self;
  cycle_interval := cycle_interval self;
  jump_count := jump_count self;
  last_jump := last_jump self;
  cached_time_left := cached_time_left self;
  cache_ts := cache_ts self;
  prev_time_left := prev_time_left self;
  last_props := last_props self;
  reannounce_source := reannounce_source self;
  last_peer_list_check := last_peer_list_check self;
  last_announce_time := last_announce_time self;
  peer_list_uploaded := peer_list_uploaded self;
  site_id := site_id self;
  tid := tid self;
  promotion := promotion self;
  publish_time := publish_time self;
  tid_searched := tid_searched self;
  tid_search_time := tid_search_time self;
  tid_not_found := tid_not_found self;
  target_speed := target_speed self;
  last_limit := last_limit self;
  last_limit_reason := last_limit_reason self;
  last_dl_limit := last_dl_limit self;
  dl_limited_this_cycle := dl_limited_this_cycle self;
  last_reannounce := last_reannounce self;
  waiting_reannounce := waiting_reannounce self;
  reannounced_this_cycle := reannounced_this_cycle self;
  session_start_time := session_start_time self;
  total_uploaded_start := total_uploaded_start self;
  total_size := total_size self;
  time_added := time_added self;
  limit_controller := v;
  speed_tracker := speed_tracker self;
  monitor_notified := monitor_notified self;
  last_debug := last_debug self
|}.

Definition set_last_debug (self : t) (v : Debug) : t := {|
  hash := hash self;
  name := name self;
  tracker := tracker self;
  instance_id := instance_id self;
  cycle_start := cycle_start self;
  cycle_uploaded_start := cycle_uploaded_start self;
  cycle_index := cycle_index self;
  cycle_synced := cycle_synced self;
  cycle_interval := cycle_interval self;
  jump_count := jump_count self;
  last_jump := last_jump self;
  cached_time_left := cached_time_left self;
  cache_ts := cache_ts self;
  prev_time_left := prev_time_left self;
  last_props := last_props self;
  reannounce_source := reannounce_source self;
  last_peer_list_check := last_peer_list_check self;
  last_announce_time := last_announce_time self;
  peer_list_uploaded := peer_list_uploaded self;
  site_id := site_id self;
  tid := tid self;
  promotion := promotion self;
  publish_time := publish_time self;
  tid_searched := tid_searched self;
  tid_search_time := tid_search_time self;
  tid_not_found := tid_not_found self;
  target_speed := target_speed self;
  last_limit := last_limit self;
  last_limit_reason := last_limit_reason self;
  last_dl_limit := last_dl_limit self;
  dl_limited_this_cycle := dl_limited_this_cycle self;
  last_reannounce := last_reannounce self;
  waiting_reannounce := waiting_reannounce self;
  reannounced_this_cycle := reannounced_this_cycle self;
  session_start_time := session_start_time self;
  total_uploaded_start := total_uploaded_start self;
  total_size := total_size self;
  time_added := time_added self;
  limit_controller := limit_controller self;
  speed_tracker := speed_tracker self;
  monitor_notified := monitor_notified self;
  last_debug := v
|}.

Definition set_speed_tracker (self : t) (v : SpeedTracker.t) : t := {|
  hash := hash self;
  name := name self;
  tracker := tracker self;
  instance_id := instance_id self;
  cycle_start := cycle_start self;
  cycle_uploaded_start := cycle_uploaded_start self;
  cycle_index := cycle_index self;
  cycle_synced := cycle_synced self;
  cycle_interval := cycle_interval self;
  jump_count := jump_count self;
  last_jump := last_jump self;
  cached_time_left := cached_time_left self;
  cache_ts := cache_ts self;
  prev_time_left := prev_time_left self;
  last_props := last_props self;
  reannounce_source := reannounce_source self;
  last_peer_list_check := last_peer_list_check self;
  last_announce_time := last_announce_time self;
  peer_list_uploaded := peer_list_uploaded self;
  site_id := site_id self;
  tid := tid self;
  promotion := promotion self;
  publish_time := publish_time self;
  tid_searched := tid_searched self;
  tid_search_time := tid_search_time self;
  tid_not_found := tid_not_found self;
  target_speed := target_speed self;
  last_limit := last_limit self;
  last_limit_reason := last_limit_reason self;
  last_dl_limit := last_dl_limit self;
  dl_limited_this_cycle := dl_limited_this_cycle self;
  last_reannounce := last_reannounce self;
  waiting_reannounce := waiting_reannounce self;
  reannounced_this_cycle := reannounced_this_cycle self;
  session_start_time := session_start_time self;
  total_uploaded_start := total_uploaded_start self;
  total_size := total_size self;
  time_added := time_added self;
  limit_controller := limit_controller self;
  speed_tracker := v;
  monitor_notified := monitor_notified self;
  last_debug := last_debug self
|}.

Definition get_announce_interval (self : t) (now : Q) : Z :=
  let fallback :=
    if Py.ltb 0 (time_added self) then Some (time_added self) else None in
  let ref :=
    match publish_time self with
    | Some p => if Py.eqb p 0 then fallback else Some p
    | None => fallback
    end in
  estimate_announce_interval ref now.

Definition get_tl (self : t) (now : Q) : Q :=
  let from_cache :=
    if Py.leb (cache_ts self) 0 then 9999
    else Py.max 0 (cached_time_left self - (now - cache_ts self)) in
  match last_announce_time self with
  | Some a =>
      if negb (Py.eqb a 0) && Py.ltb 0 a then
        let interval := get_announce_interval self now in
        let next_announce := a + inject_Z interval in
        Py.max 0 (next_announce - now)
      else from_cache
  | None => from_cache
  end.

Definition get_phase (self : t) (now : Q) (tl : option Q) : string :=
  let tl := match tl with Some x => x | None => get_tl self now end in
  if negb (cycle_synced self) then LimitConfig.PHASE_WARMUP
  else if Py.ltb tl 10 then LimitConfig.PHASE_FINISH
  else if Py.ltb tl 60 then LimitConfig.PHASE_CATCH
  else LimitConfig.PHASE_STEADY.

Definition this_time (self : t) (now : Q) : Q :=
  Py.max 0 (now - cycle_start self).

Definition this_up (self : t) (total_uploaded : Z) : Z :=
  Z.max 0 (total_uploaded - cycle_uploaded_start self).

Definition estimate_total (self : t) (now tl : Q) : Q :=
  let e := now - cycle_start self in
  if Py.ltb 0 tl && Py.ltb tl (inject_Z LimitConfig.MAX_REANNOUNCE) then
    Py.max 1 (e + tl)
  else if cycle_synced self && Py.ltb 0 (cycle_interval self) then
    Py.max 1 (cycle_interval self)
  else Py.max 1 e.

Definition new_cycle (self : t) (now : Q) (uploaded : Z) (tl : Q)
    (is_jump : bool) : t :=
  let jump_count' :=
    if is_jump then (jump_count self + 1)%Z else jump_count self in
  let measured :=
    is_jump && Py.ltb 0 (last_jump self)
    && Py.ltb 60 (now - last_jump self) in
  let cycle_interval' :=
    if measured then now - last_jump self else cycle_interval self in
  let cycle_synced' :=
    if measured && (2 <=? jump_count')%Z then true else cycle_synced self in
  let last_jump' := if is_jump then now else last_jump self in
  let last_announce_time' :=
    if is_jump then Some now else last_announce_time self in
  let cycle_uploaded_start' :=
    if is_jump then uploaded
    else
      let interval := inject_Z (get_announce_interval self now) in
      let elapsed_in_cycle :=
        if Py.ltb 0 tl && Py.ltb tl interval then interval - tl else 0 in
      if negb (Py.eqb (time_added self) 0)
         && Py.ltb (now - time_added self) interval then 0%Z
      else if Py.ltb 60 elapsed_in_cycle then
        let avg_speed :=
          match limit_controller self with
          | Some c =>
              Py.max 0 (ExtendedKalman.speed (PrecisionLimitController.kalman c))
          | None => 0
          end in
        if Py.ltb 0 avg_speed then
          Z.max 0 (Py.int (inject_Z uploaded - avg_speed * elapsed_in_cycle))
        else uploaded
      else uploaded in
  {|
    hash := hash self;
    name := name self;
    tracker := tracker self;
    instance_id := instance_id self;
    cycle_start := now;
    cycle_uploaded_start := cycle_uploaded_start';
    cycle_index := (cycle_index self + 1)%Z;
    cycle_synced := cycle_synced';
    cycle_interval := cycle_interval';
    jump_count := jump_count';
    last_jump := last_jump';
    cached_time_left := cached_time_left self;
    cache_ts := cache_ts self;
    prev_time_left := tl;
    last_props := last_props self;
    reannounce_source := reannounce_source self;
    last_peer_list_check := last_peer_list_check self;
    last_announce_time := last_announce_time';
    peer_list_uploaded := peer_list_uploaded self;
    site_id := site_id self;
    tid := tid self;
    promotion := promotion self;
    publish_time := publish_time self;
    tid_searched := tid_searched self;
    tid_search_time := tid_search_time self;
    tid_not_found := tid_not_found self;
    target_speed := target_speed self;
    last_limit := last_limit self;
    last_limit_reason := last_limit_reason self;
    last_dl_limit := (-1)%Z;
    dl_limited_this_cycle := false;
    last_reannounce := last_reannounce self;
    waiting_reannounce := waiting_reannounce self;
    reannounced_this_cycle := false;
    session_start_time := session_start_time self;
    total_uploaded_start := total_uploaded_start self;
    total_size := total_size self;
    time_added := time_added self;
    limit_controller := PrecisionLimitController.reset <$> limit_controller self;
    speed_tracker := SpeedTracker.clear (speed_tracker self);
    monitor_notified := monitor_notified self;
    last_debug := last_debug self
|}.

Definition get_real_avg_speed (self : t) (total_uploaded : Z) (now : Q) : Q :=
  if Py.leb (session_start_time self) 0 then 0
  else
    let dt := Py.max (1 # 1000000) (now - session_start_time self) in
    inject_Z (total_uploaded - total_uploaded_start self) / dt.

End TorrentLimitState.

Module DownloadLimiter.

Definition calc_dl_limit (state : TorrentLimitState.t)
    (total_done total_uploaded total_size : Z) (dl_speed now : Q)
    : Z * string :=
  let this_up := inject_Z (TorrentLimitState.this_up state total_uploaded) in
  let this_time := TorrentLimitState.this_time state now in
  let speed_limit := inject_Z LimitConfig.SPEED_LIMIT in
  if Py.ltb this_time 2 then ((-1)%Z, ""%string)
  else
    let avg_speed := this_up / this_time in
    if Py.leb avg_speed speed_limit then
      if (0 <? TorrentLimitState.last_dl_limit state)%Z then
        ((-1)%Z, "均值恢复"%string)
      else ((-1)%Z, ""%string)
    else
      let remaining := (total_size - total_done)%Z in
      if (remaining <=? 0)%Z then ((-1)%Z, ""%string)
      else
        let eta := inject_Z remaining / Py.max dl_speed 1 in
        let min_time :=
          (LimitConfig.DL_LIMIT_MIN_TIME
           * (if (0 <? TorrentLimitState.last_limit state)%Z then 2 else 1))%Z in
        if (TorrentLimitState.last_dl_limit state <=? 0)%Z then
          if Py.ltb 0 eta && Py.leb eta (inject_Z min_time) then
            let denominator :=
              this_up / speed_limit - this_time
              + inject_Z LimitConfig.DL_LIMIT_BUFFER in
            if Py.leb denominator 0 then
              (LimitConfig.DL_LIMIT_MIN, "超速严重"%string)
            else
              let dl_limit := inject_Z remaining / denominator / 1024 in
              (Z.max LimitConfig.DL_LIMIT_MIN (Py.int dl_limit),
               "均值超限"%string)
          else ((-1)%Z, ""%string)
        else
          if Py.leb speed_limit avg_speed then
            if Py.ltb (dl_speed / 1024)
                 (2 * inject_Z (TorrentLimitState.last_dl_limit state)) then
              let denominator :=
                this_up / speed_limit - this_time
                + inject_Z LimitConfig.DL_LIMIT_ADJUST_BUFFER in
              if Py.leb denominator 0 then
                (LimitConfig.DL_LIMIT_MIN, "持续超速"%string)
              else
                let dl_limit := inject_Z remaining / denominator / 1024 in
                let new_limit :=
                  Z.max LimitConfig.DL_LIMIT_MIN (Py.int dl_limit) in
                if Py.ltb (inject_Z new_limit)
                     (inject_Z (TorrentLimitState.last_dl_limit state) * 0.95)
                then (new_limit, "调整限速"%string)
                else ((-1)%Z, ""%string)
            else ((-1)%Z, ""%string)
          else ((-1)%Z, ""%string).

End DownloadLimiter.

Module ReannounceOptimizer.

(** [clock] is the [time.time()] that [get_avg_speeds] reads. The two
    sums with [now] are float sums: an overshoot of a few bytes gives
    [earliest = now], and then the decision answers yes. *)
Definition should_reannounce (state : TorrentLimitState.t)
    (total_done total_uploaded total_size : Z) (now clock : Q)
    : TorrentLimitState.t * (bool * string) :=
  let speed_limit := inject_Z LimitConfig.SPEED_LIMIT in
  let min_interval := inject_Z LimitConfig.REANNOUNCE_MIN_INTERVAL in
  if Py.ltb 0 (TorrentLimitState.last_reannounce state)
     && Py.ltb (now - TorrentLimitState.last_reannounce state) min_interval
  then (state, (false, ""%string))
  else
    let this_up := inject_Z (TorrentLimitState.this_up state total_uploaded) in
    let this_time := TorrentLimitState.this_time state now in
    if Py.ltb this_time 30 then (state, (false, ""%string))
    else
      let '(avg_up, avg_dl) :=
        SpeedTracker.get_avg_speeds (TorrentLimitState.speed_tracker state)
          (inject_Z LimitConfig.REANNOUNCE_SPEED_SAMPLES) clock in
      if Py.leb avg_up speed_limit || Py.leb avg_dl 0 then
        (state, (false, ""%string))
      else
        let remaining := (total_size - total_done)%Z in
        if (remaining <=? 0)%Z then (state, (false, ""%string))
        else
          let announce_interval :=
            inject_Z (TorrentLimitState.get_announce_interval state now) in
          let complete_time := Py.fadd (inject_Z remaining / avg_dl) now in
          let perfect_time :=
            complete_time - announce_interval * speed_limit / avg_up in
          let earliest :=
            if Py.ltb speed_limit (this_up / this_time) then
              Py.fadd ((this_up - speed_limit * this_time)
                       / inject_Z (45 * 1024 * 1024)) now
            else now in
          if Py.ltb (earliest - (now - this_time)) min_interval then
            (state, (false, ""%string))
          else if Py.ltb perfect_time earliest then
            if Py.leb earliest now then
              if Py.ltb speed_limit (this_up / this_time) then
                (state, (true, "优化汇报"%string))
              else (state, (false, ""%string))
            else if Py.ltb earliest (perfect_time + 60) then
              (TorrentLimitState.set_waiting_reannounce state true,
               (false, "等待汇报"%string))
            else (state, (false, ""%string))
          else (state, (false, ""%string)).

Definition check_waiting_reannounce (state : TorrentLimitState.t)
    (total_uploaded : Z) (now : Q)
    : TorrentLimitState.t * (bool * string) :=
  if negb (TorrentLimitState.waiting_reannounce state) then
    (state, (false, ""%string))
  else
    let this_up := inject_Z (TorrentLimitState.this_up state total_uploaded) in
    let this_time := TorrentLimitState.this_time state now in
    if Py.ltb this_time (inject_Z LimitConfig.REANNOUNCE_MIN_INTERVAL) then
      (state, (false, ""%string))
    else
      let avg_speed := safe_div this_up this_time 0 in
      if Py.ltb avg_speed (inject_Z LimitConfig.SPEED_LIMIT) then
        (TorrentLimitState.set_waiting_reannounce state false,
         (true, "均值恢复"%string))
      else (state, (false, ""%string)).

End ReannounceOptimizer.

(** ** The store

    The engine keeps the object it was given as [db] and calls two of
    its methods for persistence. app.py gives it the [Database] of
    database.py, which wraps an SQLite file. *)

(** The Python values that cross the boundary between the two. *)
#[warnings="-register-all"] Inductive pyval :=
| VNone
| VBool (b : bool)
| VInt (z : Z)
| VFloat (q : Q)
| VStr (s : string)
| VDict (items : list (string * pyval)).

(** A dict with text keys, as its items. *)
Definition pydict : Type := list (string * pyval).

(** [d[k]]: [None] is the KeyError. *)
Fixpoint dict_get (d : pydict) (k : string) : option pyval :=
  match d with
  | [] => None
  | (k', v) :: rest => if String.eqb k' k then Some v else dict_get rest k
  end.

(** [d.get(k, default)] *)
Definition dict_get_default (d : pydict) (k : string) (default : pyval)
    : pyval :=
  match dict_get d k with
  | Some v => v
  | None => default
  end.

(** [bool(v)] *)
Definition truthy (v : pyval) : bool :=
  match v with
  | VNone => false
  | VBool b => b
  | VInt z => negb (z =? 0)%Z
  | VFloat q => negb (Py.eqb q 0)
  | VStr s => negb (String.eqb s "")
  | VDict items => match items with [] => false | _ => true end
  end.

(** [v or d] *)
Definition py_or (v d : pyval) : pyval := if truthy v then v else d.

(** [float(v)] and [int(v)]; [None] is the exception. A text value is
    taken to raise: the text that SQLite leaves in a numeric column is
    not a numeral. *)
Definition to_float (v : pyval) : option Q :=
  match v with
  | VBool b => Some (if b then 1 else 0)
  | VInt z => Some (Py.float z)
  | VFloat q => Some q
  | VNone | VStr _ | VDict _ => None
  end.

Definition to_int (v : pyval) : option Z :=
  match v with
  | VBool b => Some (if b then 1 else 0)%Z
  | VInt z => Some z
  | VFloat q => Some (Py.int q)
  | VNone | VStr _ | VDict _ => None
  end.

(** Python's binding of a call that passes keyword arguments only to a
    method whose parameters after [self] are [params], none of them with
    a default: it raises TypeError ([None]) unless every keyword names a
    parameter and every parameter is given; then it yields the values in
    the order of the parameters. *)
Fixpoint bind_params (params : list string) (kwargs : pydict)
    : option (list pyval) :=
  match params with
  | [] => Some []
  | p :: ps =>
      match dict_get kwargs p, bind_params ps kwargs with
      | Some v, Some vs => Some (v :: vs)
      | _, _ => None
      end
  end.

Definition bind_keywords (params : list string) (kwargs : pydict)
    : option (list pyval) :=
  if forallb (fun kv : string * pyval => existsb (String.eqb (fst kv)) params)
             kwargs
  then bind_params params kwargs
  else None.

Module Database.

(** What class [Database] defines. *)
Definition methods : list string :=
  [ "__init__"; "get_conn"; "_init_db"; "_ensure_columns";
    "_init_builtin_rules"; "get_config"; "set_config"; "get_all_config";
    "get_qb_instances"; "get_qb_instance"; "add_qb_instance";
    "update_qb_instance"; "delete_qb_instance"; "get_pt_sites";
    "get_pt_site"; "get_pt_sites_with_rss"; "_clean_cookie"; "_clean_url";
    "add_pt_site"; "update_pt_site"; "delete_pt_site"; "get_speed_rules";
    "get_enabled_speed_rules"; "add_speed_rule"; "update_speed_rule";
    "delete_speed_rule"; "get_rss_rules"; "add_rss_rule"; "update_rss_rule";
    "delete_rss_rule"; "get_remove_rules"; "get_enabled_remove_rules";
    "add_remove_rule"; "update_remove_rule"; "delete_remove_rule";
    "reset_builtin_rules"; "add_log"; "get_logs"; "_format_log_time";
    "clear_logs"; "add_limit_history"; "get_limit_history"; "get_stats";
    "update_stats"; "hash_password"; "create_user"; "verify_user";
    "user_exists"; "update_password"; "save_torrent_limit_state";
    "load_torrent_limit_state"; "delete_torrent_limit_state";
    "get_all_torrent_limit_states"; "cleanup_old_limit_states";
    "get_limit_stats"; "update_limit_stats"; "save_runtime_config";
    "get_runtime_config" ]%string.

(** The table [torrent_limit_states]: its rows as [dict(row)] shows
    them, a value for each of the 27 columns, [hash] first. *)
Record t := { torrent_limit_states : list pydict }.

(** [hash TEXT PRIMARY KEY]: two keys clash when they are the same
    text (NULL clashes with nothing). *)
Definition same_key (a b : pyval) : bool :=
  match a, b with
  | VStr x, VStr y => String.eqb x y
  | _, _ => false
  end.

(** [save_torrent_limit_state(self, state: Dict)]: INSERT OR REPLACE of
    the row made from the dict; [clock] is its [time.time()]. SQLite's
    conversion of a value to the affinity of its column is left out. *)
Definition save_torrent_limit_state (self : t) (state : pydict) (clock : Q)
    : t :=
  let get k default := dict_get_default state k default in
  let flag k :=
    VInt (if truthy (dict_get_default state k VNone) then 1 else 0) in
  let row : pydict :=
    [ ("hash", get "hash" VNone);
      ("name", get "name" (VStr ""));
      ("tracker", get "tracker" (VStr ""));
      ("instance_id", get "instance_id" (VInt 0));
      ("site_id", get "site_id" VNone);
      ("tid", get "tid" VNone);
      ("cycle_index", get "cycle_index" (VInt 0));
      ("cycle_start", get "cycle_start" (VInt 0));
      ("cycle_uploaded_start", get "cycle_uploaded_start" (VInt 0));
      ("cycle_synced", flag "cycle_synced");
      ("cycle_interval", get "cycle_interval" (VInt 0));
      ("jump_count", get "jump_count" (VInt 0));
      ("last_jump", get "last_jump" (VInt 0));
      ("prev_time_left", get "prev_time_left" (VInt 0));
      ("target_speed", get "target_speed" (VInt 0));
      ("last_limit", get "last_limit" (VInt (-1)));
      ("last_dl_limit", get "last_dl_limit" (VInt (-1)));
      ("reannounce_time", get "reannounce_time" (VInt 0));
      ("cached_time_left", get "cached_time_left" (VInt 1800));
      ("last_reannounce", get "last_reannounce" (VInt 0));
      ("waiting_reannounce", flag "waiting_reannounce");
      ("reannounced_this_cycle", flag "reannounced_this_cycle");
      ("dl_limited_this_cycle", flag "dl_limited_this_cycle");
      ("session_start_time", get "session_start_time" (VInt 0));
      ("total_uploaded_start", get "total_uploaded_start" (VInt 0));
      ("total_size", get "total_size" (VInt 0));
      ("updated_at", VFloat clock) ]%string in
  {| torrent_limit_states :=
       List.filter (fun r : pydict =>
                      negb (same_key (dict_get_default r "hash" VNone)
                                     (get "hash"%string VNone)))
                   (torrent_limit_states self)
       ++ [row] |}.

(** [get_all_torrent_limit_states(self)] *)
Definition get_all_torrent_limit_states (self : t) : list pydict :=
  torrent_limit_states self.

(** [self.<name>()], for a call that is to return the stored states.
    [None] is the exception: AttributeError for a name that the class
    does not define. Of the methods it defines only
    [get_all_torrent_limit_states] takes no argument and returns these
    rows; the others are about other tables or take arguments, and the
    engine calls none of them this way. *)
Definition call_states (self : t) (name : string) : option (list pydict) :=
  if negb (existsb (String.eqb name) methods) then None
  else if String.eqb name "get_all_torrent_limit_states"
       then Some (get_all_torrent_limit_states self)
       else None.

(** [self.<name>(k1=v1, ...)], for a call that is to save a state. [None]
    is the exception: AttributeError for a name that the class does not
    define; for [save_torrent_limit_state], whose one parameter is
    [state], the TypeError of the binding, or the AttributeError of
    [state.get] when what was bound is not a dict. *)
Definition call_save (self : t) (name : string) (kwargs : pydict) (clock : Q)
    : option t :=
  if negb (existsb (String.eqb name) methods) then None
  else if String.eqb name "save_torrent_limit_state" then
    match bind_keywords ["state"%string] kwargs with
    | Some [VDict state] => Some (save_torrent_limit_state self state clock)
    | _ => None
    end
  else None.

End Database.

(** What the manager's [reannounce] call did: it returned (whatever its
    verdict), or it raised. *)
Inductive rpc_outcome := RpcReturned | RpcRaised.

Module PrecisionLimitEngine.

Record t := {
  paused : bool;
  temp_target_kib : option Z;
  _states : gmap string TorrentLimitState.t;
  _tuning : EngineTuning
}.

(** The tuning that [__init__] builds. *)
Definition the_tuning : EngineTuning := {|
  pid_params :=
    <["warmup"%string := {| pp_kp := 0.3; pp_ki := 0.05; pp_kd := 0.02;
                            pp_headroom := Some 1.03 |}]>
    (<["catch"%string := {| pp_kp := 0.5; pp_ki := 0.10; pp_kd := 0.05;
                            pp_headroom := Some 1.02 |}]>
    (<["steady"%string := {| pp_kp := 0.6; pp_ki := 0.15; pp_kd := 0.08;
                             pp_headroom := Some 1.005 |}]>
    (<["finish"%string := {| pp_kp := 0.8; pp_ki := 0.20; pp_kd := 0.12;
                             pp_headroom := Some 1.001 |}]> ∅)));
  min_limit := LimitConfig.MIN_LIMIT;
  quant_steps :=
    <["finish"%string := 256%Z]> (<["steady"%string := 512%Z]>
    (<["catch"%string := 2048%Z]> (<["warmup"%string := 4096%Z]> ∅)));
  kalman_q_speed := 0.1;
  kalman_q_accel := 0.05;
  kalman_r := 0.5
|}.

(** [_cleanup_states]: a state is dropped when its hash is not in this
    pass's [active_hashes] and its session began more than 7200 s ago. *)
Definition stale (active_hashes : gset string) (now : Q) (h : string)
    (st : TorrentLimitState.t) : bool :=
  negb (bool_decide (h ∈ active_hashes))
  && Py.ltb 0 (TorrentLimitState.session_start_time st)
  && Py.ltb 7200 (now - TorrentLimitState.session_start_time st).

Definition _cleanup_states (states : gmap string TorrentLimitState.t)
    (active_hashes : gset string) (now : Q)
    : gmap string TorrentLimitState.t :=
  filter (fun kv : string * TorrentLimitState.t =>
            stale active_hashes now (fst kv) (snd kv) = false) states.

(** The part of [_calculate_upload_limit] after its three overrides:
    the call of the controller and the progress protection. The second
    component is [None] when [calculate] raised. *)
Definition phase_based_limit (tuning : EngineTuning)
    (tracker : PrecisionTracker.t) (state : TorrentLimitState.t)
    (total_uploaded : Z) (progress tl now : Q)
    : TorrentLimitState.t * option (Z * string) :=
  let elapsed := Py.max 0 (now - TorrentLimitState.cycle_start state) in
  let uploaded_in_cycle := TorrentLimitState.this_up state total_uploaded in
  let phase := TorrentLimitState.get_phase state now (Some tl) in
  let precision_adj := PrecisionTracker.get_adjustment tracker phase in
  let controller :=
    match TorrentLimitState.limit_controller state with
    | Some c => c
    | None => PrecisionLimitController.__init__ tuning
    end in
  match PrecisionLimitController.calculate controller
          (Py.float (TorrentLimitState.target_speed state))
          uploaded_in_cycle tl elapsed phase now precision_adj with
  | None =>
      (TorrentLimitState.set_limit_controller state (Some controller), None)
  | Some (controller', (limit, reason, debug)) =>
      let state' :=
        TorrentLimitState.set_last_debug
          (TorrentLimitState.set_limit_controller state (Some controller'))
          debug in
      if Py.ltb LimitConfig.PROGRESS_PROTECT progress && (limit <? 0)%Z
         && Py.ltb tl 30 then
        (state', Some (Z.max LimitConfig.MIN_LIMIT
                         (TorrentLimitState.target_speed state),
                       (reason ++ "+保")%string))
      else (state', Some (limit, reason))
  end.

(** [tracker] is the module-level [precision_tracker]. The notifier's
    overspeed warning is sent and forgotten; it is left out. *)
Definition _calculate_upload_limit (self : t) (tracker : PrecisionTracker.t)
    (state : TorrentLimitState.t) (total_uploaded : Z)
    (up_speed progress tl now : Q)
    : TorrentLimitState.t * option (Z * string) :=
  if paused self then (state, Some ((-1)%Z, "已暂停"%string))
  else
    let real_speed :=
      TorrentLimitState.get_real_avg_speed state total_uploaded now in
    if Py.ltb (inject_Z LimitConfig.SPEED_LIMIT * 1.05) real_speed then
      (state, Some (LimitConfig.MIN_LIMIT, "超速刹车"%string))
    else if TorrentLimitState.waiting_reannounce state then
      (state, Some ((LimitConfig.REANNOUNCE_WAIT_LIMIT * 1024)%Z,
                    "等待汇报"%string))
    else
      phase_based_limit (_tuning self) tracker state total_uploaded
        progress tl now.

(** [_do_reannounce]: [clock] is the [time.time()] read once the
    manager's call has returned. *)
Definition _do_reannounce (state : TorrentLimitState.t) (rpc : rpc_outcome)
    (clock : Q) : TorrentLimitState.t :=
  match rpc with
  | RpcRaised => state
  | RpcReturned =>
      TorrentLimitState.set_waiting_reannounce
        (TorrentLimitState.set_reannounced_this_cycle
           (TorrentLimitState.set_last_reannounce state clock) true)
        false
  end.

(** The values that the loop of [_restore_states_from_db] leaves as
    they are: a hash and a reason are text, an id is an integer or
    NULL. The record of the state is typed, so a row that holds
    something else there is outside the embedding ([None]). *)
Definition as_str (v : pyval) : option string :=
  match v with
  | VStr s => Some s
  | _ => None
  end.

Definition as_id (v : pyval) : option (option Z) :=
  match v with
  | VNone => Some None
  | VInt z => Some (Some z)
  | _ => None
  end.

(** One turn of the loop of [_restore_states_from_db]; [now] is its
    [time.time()]. [None]: the turn raised (the KeyError of
    [s['torrent_hash']], or a conversion), and the loop goes on with the
    next row. *)
Definition restore_state (tuning : EngineTuning) (now : Q) (s : pydict)
    : option TorrentLimitState.t :=
  let get k := dict_get_default s k VNone in
  h0 ← dict_get s "torrent_hash";
  h ← as_str h0;
  cycle_start ← to_float (py_or (get "cycle_start") (VInt 0));
  cycle_uploaded_start ← to_int (py_or (get "cycle_uploaded_start") (VInt 0));
  cycle_index ← to_int (py_or (get "cycle_index") (VInt 0));
  cycle_interval ← to_float (py_or (get "cycle_interval") (VInt 0));
  jump_count ← to_int (py_or (get "jump_count") (VInt 0));
  last_jump ← to_float (py_or (get "last_jump") (VInt 0));
  prev_time_left ← to_float (py_or (get "prev_time_left") (VInt 0));
  cached_time_left ← to_float (py_or (get "cached_time_left") (VInt 0));
  instance_id ← as_id (get "instance_id");
  site_id ← as_id (get "site_id");
  tid ← as_id (get "tid");
  target_speed ← to_int (py_or (get "target_speed") (VInt 0));
  last_limit ← to_int (py_or (get "last_limit") (VInt (-2)));
  last_limit_reason ← as_str (py_or (get "last_limit_reason") (VStr ""));
  last_dl_limit ← to_int (py_or (get "last_dl_limit") (VInt (-1)));
  session_start_time ← to_float (py_or (get "session_start_time") (VInt 0));
  total_uploaded_start ← to_int (py_or (get "total_uploaded_start") (VInt 0));
  total_size ← to_int (py_or (get "total_size") (VInt 0));
  Some {|
    TorrentLimitState.hash := h;
    TorrentLimitState.name := ""%string;
    TorrentLimitState.tracker := ""%string;
    TorrentLimitState.instance_id := instance_id;
    TorrentLimitState.cycle_start := cycle_start;
    TorrentLimitState.cycle_uploaded_start := cycle_uploaded_start;
    TorrentLimitState.cycle_index := cycle_index;
    TorrentLimitState.cycle_synced :=
      truthy (py_or (get "cycle_synced") (VInt 0));
    TorrentLimitState.cycle_interval := cycle_interval;
    TorrentLimitState.jump_count := jump_count;
    TorrentLimitState.last_jump := last_jump;
    TorrentLimitState.cached_time_left := cached_time_left;
    TorrentLimitState.cache_ts := now;
    TorrentLimitState.prev_time_left := prev_time_left;
    TorrentLimitState.last_props := 0;
    TorrentLimitState.reannounce_source := ""%string;
    TorrentLimitState.last_peer_list_check := 0;
    TorrentLimitState.last_announce_time := None;
    TorrentLimitState.peer_list_uploaded := None;
    TorrentLimitState.site_id := site_id;
    TorrentLimitState.tid := tid;
    TorrentLimitState.promotion := "未知"%string;
    TorrentLimitState.publish_time := None;
    TorrentLimitState.tid_searched := false;
    TorrentLimitState.tid_search_time := 0;
    TorrentLimitState.tid_not_found := false;
    TorrentLimitState.target_speed := target_speed;
    TorrentLimitState.last_limit := last_limit;
    TorrentLimitState.last_limit_reason := last_limit_reason;
    TorrentLimitState.last_dl_limit := last_dl_limit;
    TorrentLimitState.dl_limited_this_cycle := false;
    TorrentLimitState.last_reannounce := 0;
    TorrentLimitState.waiting_reannounce := false;
    TorrentLimitState.reannounced_this_cycle := false;
    TorrentLimitState.session_start_time := session_start_time;
    TorrentLimitState.total_uploaded_start := total_uploaded_start;
    TorrentLimitState.total_size := total_size;
    TorrentLimitState.time_added := 0;
    TorrentLimitState.limit_controller :=
      Some (PrecisionLimitController.__init__ tuning);
    TorrentLimitState.speed_tracker := SpeedTracker.__init__;
    TorrentLimitState.monitor_notified := false;
    TorrentLimitState.last_debug := Debug_empty
  |}.

(** [_restore_states_from_db]: the fetch, whose exception ends the
    restore, and the loop over what it returned. The method that the
    engine asks for is [get_torrent_limit_states]. *)
Definition _restore_states_from_db (self : t) (db : Database.t) (now : Q)
    : t :=
  match Database.call_states db "get_torrent_limit_states" with
  | None => self
  | Some states =>
      {| paused := paused self;
         temp_target_kib := temp_target_kib self;
         _states :=
           fold_left (fun m (s : pydict) =>
                        match restore_state (_tuning self) now s with
                        | Some st => <[TorrentLimitState.hash st := st]> m
                        | None => m
                        end)
                     states (_states self);
         _tuning := _tuning self |}
  end.

(** The keyword arguments of one [save_torrent_limit_state] call of
    [_save_states_to_db]. *)
Definition save_kwargs (h : string) (st : TorrentLimitState.t) : pydict :=
  let id (v : option Z) :=
    match v with Some z => VInt z | None => VNone end in
  [ ("torrent_hash", VStr h);
    ("name", VStr (TorrentLimitState.name st));
    ("cycle_start", VFloat (TorrentLimitState.cycle_start st));
    ("cycle_uploaded_start", VInt (TorrentLimitState.cycle_uploaded_start st));
    ("cycle_index", VInt (TorrentLimitState.cycle_index st));
    ("cycle_synced", VInt (if TorrentLimitState.cycle_synced st then 1 else 0));
    ("cycle_interval", VFloat (TorrentLimitState.cycle_interval st));
    ("jump_count", VInt (TorrentLimitState.jump_count st));
    ("last_jump", VFloat (TorrentLimitState.last_jump st));
    ("prev_time_left", VFloat (TorrentLimitState.prev_time_left st));
    ("cached_time_left", VFloat (TorrentLimitState.cached_time_left st));
    ("instance_id", id (TorrentLimitState.instance_id st));
    ("site_id", id (TorrentLimitState.site_id st));
    ("tid", id (TorrentLimitState.tid st));
    ("target_speed", VInt (TorrentLimitState.target_speed st));
    ("last_limit", VInt (TorrentLimitState.last_limit st));
    ("last_limit_reason", VStr (TorrentLimitState.last_limit_reason st));
    ("last_dl_limit", VInt (TorrentLimitState.last_dl_limit st));
    ("session_start_time", VFloat (TorrentLimitState.session_start_time st));
    ("total_uploaded_start", VInt (TorrentLimitState.total_uploaded_start st));
    ("total_size", VInt (TorrentLimitState.total_size st)) ]%string.

(** One turn of the loop of [_save_states_to_db]: a call that raises
    leaves the store as it is. [clock] is the store's [time.time()]. *)
Definition save_one (clock : Q) (db : Database.t)
    (hs : string * TorrentLimitState.t) : Database.t :=
  match Database.call_save db "save_torrent_limit_state"
          (save_kwargs (fst hs) (snd hs)) clock with
  | Some db' => db'
  | None => db
  end.

(** [_save_states_to_db]: one call per state. *)
Definition _save_states_to_db (self : t) (db : Database.t) (clock : Q)
    : Database.t :=
  fold_left (save_one clock) (map_to_list (_states self)) db.

End PrecisionLimitEngine.

(** ** The reannounce decisions of one pass over a torrent

    [_process_torrent] consults the optimiser twice: the waiting check
    before the upload cap is computed, the decision after the download
    cap. Each returns the state next to the forced reannounces it made, as
    the clock values that [_do_reannounce] recorded for them. *)

Definition waiting_check_step (any_reannounce_opt : bool)
    (state : TorrentLimitState.t) (total_uploaded : Z) (now : Q)
    (rpc : rpc_outcome) (clock : Q) : TorrentLimitState.t * list Q :=
  if any_reannounce_opt then
    let '(state1, (should, _)) :=
      ReannounceOptimizer.check_waiting_reannounce state total_uploaded now in
    if should then
      (PrecisionLimitEngine._do_reannounce state1 rpc clock,
       match rpc with RpcReturned => [clock] | RpcRaised => [] end)
    else (state1, [])
  else (state, []).

Definition decision_step (any_reannounce_opt : bool)
    (state : TorrentLimitState.t) (total_done total_uploaded total_size : Z)
    (now clock_avg : Q) (rpc : rpc_outcome) (clock : Q)
    : TorrentLimitState.t * list Q :=
  if any_reannounce_opt
     && negb (TorrentLimitState.reannounced_this_cycle state) then
    let '(state1, (should, _)) :=
      ReannounceOptimizer.should_reannounce state total_done total_uploaded
        total_size now clock_avg in
    if should then
      (PrecisionLimitEngine._do_reannounce state1 rpc clock,
       match rpc with RpcReturned => [clock] | RpcRaised => [] end)
    else (state1, [])
  else (state, []).

(** [_process_torrent] first records the pass's speeds in the state's
    tracker. *)
Definition record_sample (state : TorrentLimitState.t)
    (up_speed dl_speed now : Q) : TorrentLimitState.t :=
  TorrentLimitState.set_speed_tracker state
    (SpeedTracker.record_speed (TorrentLimitState.speed_tracker state)
       up_speed dl_speed now).

(** What happens to the state that the engine keeps for one torrent,
    as far as reannounces go: the two steps above; [new_cycle] at a
    jump; the torrent met again after [_cleanup_states] dropped its
    state, for which [_process_all] makes a state and [_process_torrent]
    opens its first cycle in the same pass; and in between any other
    update (the property cache, the workers, the caps), given as a
    function on states. *)
Inductive action :=
| Other (f : TorrentLimitState.t -> TorrentLimitState.t)
| NewCycle (now : Q) (uploaded : Z) (tl : Q) (is_jump : bool)
| Recreate (made : TorrentLimitState.t) (now : Q) (uploaded : Z) (tl : Q)
| WaitingCheck (any_reannounce_opt : bool) (total_uploaded : Z) (now : Q)
    (rpc : rpc_outcome) (clock : Q)
| Decision (any_reannounce_opt : bool)
    (total_done total_uploaded total_size : Z) (now clock_avg : Q)
    (rpc : rpc_outcome) (clock : Q).

(** The log of forced reannounces has the latest one first. *)
Definition run_action (sl : TorrentLimitState.t * list Q) (a : action)
    : TorrentLimitState.t * list Q :=
  let '(state, log) := sl in
  match a with
  | Other f => (f state, log)
  | NewCycle now uploaded tl is_jump =>
      (TorrentLimitState.new_cycle state now uploaded tl is_jump, log)
  | Recreate made now uploaded tl =>
      (TorrentLimitState.new_cycle made now uploaded tl false, log)
  | WaitingCheck opt total_uploaded now rpc clock =>
      let '(state', evs) :=
        waiting_check_step opt state total_uploaded now rpc clock in
      (state', evs ++ log)
  | Decision opt total_done total_uploaded total_size now clock_avg rpc clock =>
      let '(state', evs) :=
        decision_step opt state total_done total_uploaded total_size
          now clock_avg rpc clock in
      (state', evs ++ log)
  end.

Definition run (state : TorrentLimitState.t) (acts : list action)
    : TorrentLimitState.t * list Q :=
  fold_left run_action acts (state, []).

(** Only [_do_reannounce] writes [last_reannounce], only it and the
    optimiser write [waiting_reannounce], only [new_cycle] writes
    [cycle_start]: any other update leaves the three alone. *)
Definition keeps_reannounce_fields
    (f : TorrentLimitState.t -> TorrentLimitState.t) : Prop :=
  forall s,
    TorrentLimitState.last_reannounce (f s) = TorrentLimitState.last_reannounce s
    /\ TorrentLimitState.waiting_reannounce (f s)
       = TorrentLimitState.waiting_reannounce s
    /\ TorrentLimitState.cycle_start (f s) = TorrentLimitState.cycle_start s.

(** The clock of a trace. [t] is the time of the latest pass and [c] the
    latest clock value that [_do_reannounce] may have recorded. Pass
    times are positive and do not go back; [_do_reannounce] reads its
    clock no earlier than the pass time of the step that calls it; a new
    cycle is opened, and a state made anew (not waiting, no reannounce
    recorded), in a pass that began after every reannounce made so
    far. *)
Fixpoint timed (t c : Q) (acts : list action) : Prop :=
  match acts with
  | [] => True
  | Other f :: rest => keeps_reannounce_fields f /\ timed t c rest
  | NewCycle now _ _ _ :: rest =>
      0 < now /\ t <= now /\ c <= now /\ timed now c rest
  | Recreate made now _ _ :: rest =>
      TorrentLimitState.waiting_reannounce made = false
      /\ TorrentLimitState.last_reannounce made <= 0
      /\ 0 < now /\ t <= now /\ c <= now /\ timed now c rest
  | WaitingCheck _ _ now _ clock :: rest =>
      0 < now /\ t <= now /\ now <= clock /\ timed now (Py.max c clock) rest
  | Decision _ _ _ _ now _ _ clock :: rest =>
      0 < now /\ t <= now /\ now <= clock /\ timed now (Py.max c clock) rest
  end.

Fixpoint spaced (log : list Q) : Prop :=
  match log with
  | later :: (earlier :: _) as rest =>
      inject_Z LimitConfig.REANNOUNCE_MIN_INTERVAL <= later - earlier
      /\ spaced rest
  | _ => True
  end.

(** ** Runs of the stateful components *)

(** Calls on one [PIDController], with the outputs that [update]
    returned, the latest first. A [set_phase] that raises changes
    nothing. *)
Inductive pid_call :=
| PidSetPhase (phase : string) (params : gmap string PidParams)
| PidUpdate (target actual now : Q)
| PidReset.

Definition pid_step (so : PIDController.t * list Q) (c : pid_call)
    : PIDController.t * list Q :=
  let '(self, outs) := so in
  match c with
  | PidSetPhase phase params =>
      (default self (PIDController.set_phase self phase params), outs)
  | PidUpdate target actual now =>
      let '(self', out) := PIDController.update self target actual now in
      (self', out :: outs)
  | PidReset => (PIDController.reset self, outs)
  end.

Definition pid_run (calls : list pid_call) : PIDController.t * list Q :=
  fold_left pid_step calls (PIDController.__init__, []).

(** [update(measurement, now)] calls on one filter. *)
Definition kalman_run (k : ExtendedKalman.t) (ms : list (Q * Q))
    : ExtendedKalman.t :=
  fold_left (fun k (mn : Q * Q) =>
               fst (ExtendedKalman.update k (fst mn) (snd mn))) ms k.

(** [record(ratio, phase, now)] calls on the process-wide tracker. *)
Definition tracker_run (records : list (Q * string * Q)) : PrecisionTracker.t :=
  fold_left (fun tr (x : Q * string * Q) =>
               fst (PrecisionTracker.record tr (fst (fst x)) (snd (fst x))
                      (snd x)))
            records PrecisionTracker.__init__.

(** ** The quantiser as the specification words it *)

Inductive Phase := WARMUP | CATCH | STEADY | FINISH.

Definition phase_str (p : Phase) : string :=
  match p with
  | WARMUP => LimitConfig.PHASE_WARMUP
  | CATCH => LimitConfig.PHASE_CATCH
  | STEADY => LimitConfig.PHASE_STEADY
  | FINISH => LimitConfig.PHASE_FINISH
  end.

Definition spec_base_step (p : Phase) : Z :=
  match p with
  | WARMUP => 4096
  | CATCH => 2048
  | STEADY => 512
  | FINISH => 256
  end.

(** The step once the ratio is known: doubled above 1.2, kept above
    1.05, halved above 0.8, else the base; halved again with a floor of
    256 when the trend is off by more than 0.1; clamped to [256, 8192]. *)
Definition spec_step_of (base : Z) (ratio trend : Q) : Z :=
  let step :=
    if Py.ltb 1.2 ratio then (base * 2)%Z
    else if Py.ltb 1.05 ratio then base
    else if Py.ltb 0.8 ratio then (base / 2)%Z
    else base in
  let step :=
    if Py.ltb 0.1 (Qabs trend) then Z.max 256 (step / 2) else step in
  Z.max 256 (Z.min 8192 step).

Definition spec_round (x step : Z) : Z := ((x + step / 2) / step * step)%Z.

(** The reference algorithm of the specification, for every phase alike,
    with [ratio = current / target]. *)
Definition quantize_spec (x : Z) (p : Phase) (current target trend : Q) : Z :=
  let step := spec_step_of (spec_base_step p) (current / target) trend in
  Z.max LimitConfig.MIN_LIMIT (spec_round x step).

(** The same with the two things the source does otherwise: in FINISH
    the step is 256 whatever the ratio and the trend, and the ratio
    counts as 1 when the target is (nearly) zero. *)
Definition quantize_amended (x : Z) (p : Phase) (current target trend : Q)
    : Z :=
  let step :=
    match p with
    | FINISH => 256%Z
    | _ => spec_step_of (spec_base_step p) (safe_div current target 1) trend
    end in
  Z.max LimitConfig.MIN_LIMIT (spec_round x step).

(** ** More of precision_limit_engine.py *)

(** [_api_ok]: the budget of property requests. [api_times] is the
    deque of the times of the requests granted lately, oldest first;
    the [while] loop drops from its front the ones older than a
    second. *)
Fixpoint drop_old (now : Q) (api_times : list Q) : list Q :=
  match api_times with
  | t :: rest => if Py.ltb 1 (now - t) then drop_old now rest else api_times
  | [] => []
  end.

Definition _api_ok (api_times : list Q) (api_rate_limit : Z) (now : Q)
    : list Q * bool :=
  let api_times := drop_old now api_times in
  if (api_rate_limit <=? Z.of_nat (length api_times))%Z then (api_times, false)
  else (api_times ++ [now], true).

(** Calls of [_api_ok] at the times [nows], from an empty deque: the
    deque at the end, and the times at which it said yes, oldest
    first. *)
Definition api_run (api_rate_limit : Z) (nows : list Q) : list Q * list Q :=
  fold_left (fun (qg : list Q * list Q) (now : Q) =>
               let '(api_times, granted) := qg in
               let '(api_times', ok) := _api_ok api_times api_rate_limit now in
               (api_times', if ok then granted ++ [now] else granted))
            nows ([], []).

(** The sleep at the end of a pass of [_run_loop]: [min_tl] is what
    [_process_all] returned, [elapsed] the duration of the pass. *)
Definition loop_sleep_time (min_tl elapsed : Q) : Q :=
  let sleep_time :=
    if Py.ltb min_tl 10 then 0.15
    else if Py.ltb min_tl 60 then 0.5
    else if Py.ltb min_tl 180 then 1
    else if Py.ltb min_tl 600 then 2
    else if Py.ltb min_tl 1800 then 4
    else 5 in
  Py.max 0.1 (sleep_time - elapsed).

(** The engine's [_stats]. *)
Record Stats := {
  torrents_controlled : Z;
  total_cycles : Z;
  success_cycles : Z;
  precision_cycles : Z;
  total_limit_uploaded : Z;
  start_time : Q
}.

(** [_report_cycle]: the cycle's ratio, the counters and the record in
    the precision tracker. [total_uploaded] is the torrent's [uploaded]
    entry. The history row and the notification, whose failures are
    swallowed, are left out. It returns the new counters, the tracker
    and the ratio. *)
Definition _report_cycle (stats : Stats) (tracker : PrecisionTracker.t)
    (state : TorrentLimitState.t) (total_uploaded : Z) (now : Q)
    : Stats * PrecisionTracker.t * Q :=
  let tl := TorrentLimitState.prev_time_left state in
  let uploaded_in_cycle := TorrentLimitState.this_up state total_uploaded in
  let elapsed := Py.max 0 (now - TorrentLimitState.cycle_start state) in
  let total_time := elapsed + Py.max 0 tl in
  let avg_speed := safe_div (inject_Z uploaded_in_cycle) total_time 0 in
  let target := TorrentLimitState.target_speed state in
  let ratio :=
    if (0 <? target)%Z then safe_div avg_speed (inject_Z target) 0 else 0 in
  let success := Py.leb (Qabs (ratio - 1)) 0.03 in
  let precise := Py.leb (Qabs (ratio - 1)) 0.01 in
  let stats' := {|
    torrents_controlled := torrents_controlled stats;
    total_cycles := (total_cycles stats + 1)%Z;
    success_cycles :=
      if success then (success_cycles stats + 1)%Z else success_cycles stats;
    precision_cycles :=
      if precise then (precision_cycles stats + 1)%Z
      else precision_cycles stats;
    total_limit_uploaded := (total_limit_uploaded stats + uploaded_in_cycle)%Z;
    start_time := start_time stats
  |} in
  let phase := TorrentLimitState.get_phase state now (Some tl) in
  (stats', fst (PrecisionTracker.record tracker ratio phase now), ratio).

(** Reports of finished cycles, one after the other. *)
Definition report_run (stats : Stats) (tracker : PrecisionTracker.t)
    (cycles : list (TorrentLimitState.t * Z * Q))
    : Stats * PrecisionTracker.t :=
  fold_left (fun (sp : Stats * PrecisionTracker.t)
                 (c : TorrentLimitState.t * Z * Q) =>
               fst (_report_cycle (fst sp) (snd sp) (fst (fst c))
                      (snd (fst c)) (snd c)))
            cycles (stats, tracker).

(** The batches of [_process_all]: per instance and per cap, the hashes
    to set, in the order met
    ([up_actions.setdefault(inst_id, {}).setdefault(new_limit, []).append(h)]),
    and then one call of the manager for each instance and cap. *)
Definition batch_add (actions : gmap Z (gmap Z (list string)))
    (inst_id limit : Z) (h : string) : gmap Z (gmap Z (list string)) :=
  let by_limit := default ∅ (actions !! inst_id) in
  let hashes := default [] (by_limit !! limit) in
  <[inst_id := <[limit := hashes ++ [h]]> by_limit]> actions.

Definition batch_calls (actions : gmap Z (gmap Z (list string)))
    : list (Z * list string * Z) :=
  concat (map (fun ib : Z * gmap Z (list string) =>
                 map (fun lh : Z * list string => (fst ib, snd lh, fst lh))
                     (map_to_list (snd ib)))
              (map_to_list actions)).

(** ** More runs *)

(** Calls on one [PrecisionLimitController], with the caps that
    [calculate] returned, the latest first. A [calculate] that raises
    changes nothing. *)
Inductive ctrl_call :=
| CtrlRecordSpeed (now speed : Q)
| CtrlCalculate (target : Q) (uploaded : Z) (time_left elapsed : Q)
    (phase : string) (now precision_adj : Q)
| CtrlReset.

Definition ctrl_step (cl : PrecisionLimitController.t * list Z)
    (c : ctrl_call) : PrecisionLimitController.t * list Z :=
  let '(self, caps) := cl in
  match c with
  | CtrlRecordSpeed now speed =>
      (PrecisionLimitController.record_speed self now speed, caps)
  | CtrlCalculate target uploaded time_left elapsed phase now precision_adj =>
      match PrecisionLimitController.calculate self target uploaded time_left
              elapsed phase now precision_adj with
      | Some (self', (limit, _, _)) => (self', limit :: caps)
      | None => (self, caps)
      end
  | CtrlReset => (PrecisionLimitController.reset self, caps)
  end.

Definition ctrl_run (tuning : EngineTuning) (calls : list ctrl_call)
    : PrecisionLimitController.t * list Z :=
  fold_left ctrl_step calls (PrecisionLimitController.__init__ tuning, []).

(** [record(now, speed)] calls on one multi-window tracker. *)
Definition window_run (samples : list (Q * Q)) : MultiWindowSpeedTracker.t :=
  fold_left (fun tr (ns : Q * Q) =>
               MultiWindowSpeedTracker.record tr (fst ns) (snd ns))
            samples MultiWindowSpeedTracker.__init__.

(** [new_cycle(now, uploaded, tl, is_jump)] calls on one state. *)
Definition cycle_run (state : TorrentLimitState.t)
    (cycles : list (Q * Z * Q * bool)) : TorrentLimitState.t :=
  fold_left (fun s (c : Q * Z * Q * bool) =>
               TorrentLimitState.new_cycle s (fst (fst (fst c)))
                 (snd (fst (fst c))) (snd (fst c)) (snd c))
            cycles state.

(** Assignments to [last_dl_limit] and [dl_limited_this_cycle]. *)
Definition set_last_dl_limit (self : TorrentLimitState.t) (v : Z)
    : TorrentLimitState.t := {|
  TorrentLimitState.hash := TorrentLimitState.hash self;
  TorrentLimitState.name := TorrentLimitState.name self;
  TorrentLimitState.tracker := TorrentLimitState.tracker self;
  TorrentLimitState.instance_id := TorrentLimitState.instance_id self;
  TorrentLimitState.cycle_start := TorrentLimitState.cycle_start self;
  TorrentLimitState.cycle_uploaded_start :=
    TorrentLimitState.cycle_uploaded_start self;
  TorrentLimitState.cycle_index := TorrentLimitState.cycle_index self;
  TorrentLimitState.cycle_synced := TorrentLimitState.cycle_synced self;
  TorrentLimitState.cycle_interval := TorrentLimitState.cycle_interval self;
  TorrentLimitState.jump_count := TorrentLimitState.jump_count self;
  TorrentLimitState.last_jump := TorrentLimitState.last_jump self;
  TorrentLimitState.cached_time_left := TorrentLimitState.cached_time_left self;
  TorrentLimitState.cache_ts := TorrentLimitState.cache_ts self;
  TorrentLimitState.prev_time_left := TorrentLimitState.prev_time_left self;
  TorrentLimitState.last_props := TorrentLimitState.last_props self;
  TorrentLimitState.reannounce_source :=
    TorrentLimitState.reannounce_source self;
  TorrentLimitState.last_peer_list_check :=
    TorrentLimitState.last_peer_list_check self;
  TorrentLimitState.last_announce_time :=
    TorrentLimitState.last_announce_time self;
  TorrentLimitState.peer_list_uploaded :=
    TorrentLimitState.peer_list_uploaded self;
  TorrentLimitState.site_id := TorrentLimitState.site_id self;
  TorrentLimitState.tid := TorrentLimitState.tid self;
  TorrentLimitState.promotion := TorrentLimitState.promotion self;
  TorrentLimitState.publish_time := TorrentLimitState.publish_time self;
  TorrentLimitState.tid_searched := TorrentLimitState.tid_searched self;
  TorrentLimitState.tid_search_time := TorrentLimitState.tid_search_time self;
  TorrentLimitState.tid_not_found := TorrentLimitState.tid_not_found self;
  TorrentLimitState.target_speed := TorrentLimitState.target_speed self;
  TorrentLimitState.last_limit := TorrentLimitState.last_limit self;
  TorrentLimitState.last_limit_reason :=
    TorrentLimitState.last_limit_reason self;
  TorrentLimitState.last_dl_limit := v;
  TorrentLimitState.dl_limited_this_cycle :=
    TorrentLimitState.dl_limited_this_cycle self;
  TorrentLimitState.last_reannounce := TorrentLimitState.last_reannounce self;
  TorrentLimitState.waiting_reannounce :=
    TorrentLimitState.waiting_reannounce self;
  TorrentLimitState.reannounced_this_cycle :=
    TorrentLimitState.reannounced_this_cycle self;
  TorrentLimitState.session_start_time :=
    TorrentLimitState.session_start_time self;
  TorrentLimitState.total_uploaded_start :=
    TorrentLimitState.total_uploaded_start self;
  TorrentLimitState.total_size := TorrentLimitState.total_size self;
  TorrentLimitState.time_added := TorrentLimitState.time_added self;
  TorrentLimitState.limit_controller := TorrentLimitState.limit_controller self;
  TorrentLimitState.speed_tracker := TorrentLimitState.speed_tracker self;
  TorrentLimitState.monitor_notified := TorrentLimitState.monitor_notified self;
  TorrentLimitState.last_debug := TorrentLimitState.last_debug self
|}.

Definition set_dl_limited_this_cycle (self : TorrentLimitState.t) (v : bool)
    : TorrentLimitState.t := {|
  TorrentLimitState.hash := TorrentLimitState.hash self;
  TorrentLimitState.name := TorrentLimitState.name self;
  TorrentLimitState.tracker := TorrentLimitState.tracker self;
  TorrentLimitState.instance_id := TorrentLimitState.instance_id self;
  TorrentLimitState.cycle_start := TorrentLimitState.cycle_start self;
  TorrentLimitState.cycle_uploaded_start :=
    TorrentLimitState.cycle_uploaded_start self;
  TorrentLimitState.cycle_index := TorrentLimitState.cycle_index self;
  TorrentLimitState.cycle_synced := TorrentLimitState.cycle_synced self;
  TorrentLimitState.cycle_interval := TorrentLimitState.cycle_interval self;
  TorrentLimitState.jump_count := TorrentLimitState.jump_count self;
  TorrentLimitState.last_jump := TorrentLimitState.last_jump self;
  TorrentLimitState.cached_time_left := TorrentLimitState.cached_time_left self;
  TorrentLimitState.cache_ts := TorrentLimitState.cache_ts self;
  TorrentLimitState.prev_time_left := TorrentLimitState.prev_time_left self;
  TorrentLimitState.last_props := TorrentLimitState.last_props self;
  TorrentLimitState.reannounce_source :=
    TorrentLimitState.reannounce_source self;
  TorrentLimitState.last_peer_list_check :=
    TorrentLimitState.last_peer_list_check self;
  TorrentLimitState.last_announce_time :=
    TorrentLimitState.last_announce_time self;
  TorrentLimitState.peer_list_uploaded :=
    TorrentLimitState.peer_list_uploaded self;
  TorrentLimitState.site_id := TorrentLimitState.site_id self;
  TorrentLimitState.tid := TorrentLimitState.tid self;
  TorrentLimitState.promotion := TorrentLimitState.promotion self;
  TorrentLimitState.publish_time := TorrentLimitState.publish_time self;
  TorrentLimitState.tid_searched := TorrentLimitState.tid_searched self;
  TorrentLimitState.tid_search_time := TorrentLimitState.tid_search_time self;
  TorrentLimitState.tid_not_found := TorrentLimitState.tid_not_found self;
  TorrentLimitState.target_speed := TorrentLimitState.target_speed self;
  TorrentLimitState.last_limit := TorrentLimitState.last_limit self;
  TorrentLimitState.last_limit_reason :=
    TorrentLimitState.last_limit_reason self;
  TorrentLimitState.last_dl_limit := TorrentLimitState.last_dl_limit self;
  TorrentLimitState.dl_limited_this_cycle := v;
  TorrentLimitState.last_reannounce := TorrentLimitState.last_reannounce self;
  TorrentLimitState.waiting_reannounce :=
    TorrentLimitState.waiting_reannounce self;
  TorrentLimitState.reannounced_this_cycle :=
    TorrentLimitState.reannounced_this_cycle self;
  TorrentLimitState.session_start_time :=
    TorrentLimitState.session_start_time self;
  TorrentLimitState.total_uploaded_start :=
    TorrentLimitState.total_uploaded_start self;
  TorrentLimitState.total_size := TorrentLimitState.total_size self;
  TorrentLimitState.time_added := TorrentLimitState.time_added self;
  TorrentLimitState.limit_controller := TorrentLimitState.limit_controller self;
  TorrentLimitState.speed_tracker := TorrentLimitState.speed_tracker self;
  TorrentLimitState.monitor_notified := TorrentLimitState.monitor_notified self;
  TorrentLimitState.last_debug := TorrentLimitState.last_debug self
|}.

(** The download cap of a pass of [_process_torrent], when a rule with
    download limiting is cached: the limiter's answer is recorded in the
    state, and sent on (in bytes per second, -1 for none) only when it
    differs from the one recorded before. The notification, whose
    failures are swallowed, is left out. *)
Definition apply_dl_limit (state : TorrentLimitState.t)
    (total_done total_uploaded total_size : Z) (dl_speed now : Q)
    : TorrentLimitState.t * option Z :=
  let dl_kib :=
    fst (DownloadLimiter.calc_dl_limit state total_done total_uploaded
           total_size dl_speed now) in
  let state :=
    if (0 <? dl_kib)%Z && negb (TorrentLimitState.dl_limited_this_cycle state)
    then set_dl_limited_this_cycle state true else state in
  if negb (dl_kib =? TorrentLimitState.last_dl_limit state)%Z then
    (set_last_dl_limit state dl_kib,
     Some (if (dl_kib <? 0)%Z then (-1)%Z else (dl_kib * 1024)%Z))
  else (state, None).

(** The upload batches of a pass in which the caps [adds] were to be
    set, as triples of instance, cap and hash in the order met. *)
Definition batch_run (adds : list (Z * Z * string))
    : gmap Z (gmap Z (list string)) :=
  fold_left (fun actions (x : Z * Z * string) =>
               batch_add actions (fst (fst x)) (snd (fst x)) (snd x))
            adds ∅.

(** The hashes that were to get the cap [limit] on the instance
    [inst_id], in the order met. *)
Definition hashes_of (adds : list (Z * Z * string)) (inst_id limit : Z)
    : list string :=
  map snd (List.filter (fun x : Z * Z * string =>
                          (fst (fst x) =? inst_id)%Z
                          && (snd (fst x) =? limit)%Z) adds).

(** ** Sample inputs *)

(** A state as the dataclass makes it: its cycle starts at t = 0 with
    nothing uploaded. *)
Definition state_fresh : TorrentLimitState.t := TorrentLimitState.__init__ "aa".

(** An engine with the tuning of [__init__] and no state yet, running
    or paused. *)
Definition engine_running : PrecisionLimitEngine.t := {|
  PrecisionLimitEngine.paused := false;
  PrecisionLimitEngine.temp_target_kib := None;
  PrecisionLimitEngine._states := ∅;
  PrecisionLimitEngine._tuning := PrecisionLimitEngine.the_tuning
|}.

Definition engine_paused : PrecisionLimitEngine.t := {|
  PrecisionLimitEngine.paused := true;
  PrecisionLimitEngine.temp_target_kib := None;
  PrecisionLimitEngine._states := ∅;
  PrecisionLimitEngine._tuning := PrecisionLimitEngine.the_tuning
|}.

(** A torrent whose session began at t = 1000; at t = 1010 it has
    uploaded 600 MiB, 60 MiB/s on average. *)
Definition state_session : TorrentLimitState.t :=
  let s := TorrentLimitState.__init__ "aa" in
  TorrentLimitState.set_last_debug
    {| TorrentLimitState.hash := TorrentLimitState.hash s;
       TorrentLimitState.name := "ubuntu.iso";
       TorrentLimitState.tracker := TorrentLimitState.tracker s;
       TorrentLimitState.instance_id := Some 1%Z;
       TorrentLimitState.cycle_start := 1000;
       TorrentLimitState.cycle_uploaded_start := 0;
       TorrentLimitState.cycle_index := 1;
       TorrentLimitState.cycle_synced := false;
       TorrentLimitState.cycle_interval := 0;
       TorrentLimitState.jump_count := 0;
       TorrentLimitState.last_jump := 0;
       TorrentLimitState.cached_time_left := 1500;
       TorrentLimitState.cache_ts := 1000;
       TorrentLimitState.prev_time_left := 1500;
       TorrentLimitState.last_props := 1000;
       TorrentLimitState.reannounce_source := "qb_api";
       TorrentLimitState.last_peer_list_check := 0;
       TorrentLimitState.last_announce_time := None;
       TorrentLimitState.peer_list_uploaded := None;
       TorrentLimitState.site_id := None;
       TorrentLimitState.tid := None;
       TorrentLimitState.promotion := TorrentLimitState.promotion s;
       TorrentLimitState.publish_time := None;
       TorrentLimitState.tid_searched := false;
       TorrentLimitState.tid_search_time := 0;
       TorrentLimitState.tid_not_found := false;
       TorrentLimitState.target_speed := 52428800;
       TorrentLimitState.last_limit := (-2);
       TorrentLimitState.last_limit_reason := "";
       TorrentLimitState.last_dl_limit := (-1);
       TorrentLimitState.dl_limited_this_cycle := false;
       TorrentLimitState.last_reannounce := 0;
       TorrentLimitState.waiting_reannounce := false;
       TorrentLimitState.reannounced_this_cycle := false;
       TorrentLimitState.session_start_time := 1000;
       TorrentLimitState.total_uploaded_start := 0;
       TorrentLimitState.total_size := 104857600;
       TorrentLimitState.time_added := 900;
       TorrentLimitState.limit_controller := None;
       TorrentLimitState.speed_tracker := SpeedTracker.__init__;
       TorrentLimitState.monitor_notified := false;
       TorrentLimitState.last_debug := Debug_empty |}
    Debug_empty.

Definition state_waiting : TorrentLimitState.t :=
  TorrentLimitState.set_waiting_reannounce state_session true.

(** A controller set to the steady gains, initialised at t = 1 and
    updated at t = 2. *)
Definition pid_calls_sample : list pid_call :=
  [PidSetPhase "steady" (pid_params PrecisionLimitEngine.the_tuning);
   PidUpdate 1000 500 1;
   PidUpdate 1000 600 2].

(** The state map with the one torrent of [state_session], whose
    session began at t = 1000. *)
Definition states_sample : gmap string TorrentLimitState.t :=
  {[ "aa"%string := state_session ]}.

(** An engine that holds the state of that torrent. *)
Definition engine_session : PrecisionLimitEngine.t := {|
  PrecisionLimitEngine.paused := false;
  PrecisionLimitEngine.temp_target_kib := None;
  PrecisionLimitEngine._states := states_sample;
  PrecisionLimitEngine._tuning := PrecisionLimitEngine.the_tuning
|}.

(** A database whose table holds one row, of that torrent, saved at
    t = 4000 by a caller that passes a dict. *)
Definition db_sample : Database.t :=
  Database.save_torrent_limit_state
    {| Database.torrent_limit_states := [] |}
    [ ("hash", VStr "aa"); ("name", VStr "ubuntu.iso");
      ("instance_id", VInt 1); ("cycle_index", VInt 1);
      ("cycle_start", VFloat 1000); ("prev_time_left", VFloat 1500);
      ("target_speed", VInt 52428800); ("last_limit", VInt 4096);
      ("cached_time_left", VFloat 1500); ("session_start_time", VFloat 1000);
      ("total_size", VInt 104857600) ]%string
    4000.

(** A torrent that overshoots the ceiling. In its first cycle the
    decision sets the waiting flag and 200 s later the waiting check
    forces a reannounce, recorded at t = 2200.5; a jump opens the next
    cycle. Then the state is dropped and, at t = 2300, made anew; the
    same happens again, with a reannounce recorded at t = 3500.25.
    Much later, at a clock the size of today's [time.time()], the state
    is made anew once more; 1000 s into the cycle the torrent is one
    byte over the ceiling, the sum [earliest] rounds to [now], and the
    decision itself forces a reannounce, recorded a quarter of a second
    later. *)
Definition reannounce_trace : list action :=
  [ Other (fun s => record_sample s 104857600 1048576 1999);
    Decision true 982881280 57147392000 2000000000 2000 2000 RpcReturned 2000;
    WaitingCheck true 58195968000 2200 RpcReturned 2200.5;
    NewCycle 2201 58195968000 1799 true;
    Recreate state_fresh 2300 58195968000 1799;
    Other (fun s => record_sample s 104857600 1048576 3299);
    Decision true 982881280 115343360000 2000000000 3300 3300 RpcReturned 3300;
    WaitingCheck true 116343360000 3500 RpcReturned 3500.25;
    Recreate state_fresh 1700000000 0 1799;
    Other (fun s => record_sample s 62914560 1048576 1700000999);
    Decision true 0 52428800001 104857600 1700001000 1700001000 RpcReturned
      1700001000.25 ].

(** The state of that torrent before the last decision of the trace:
    in a cycle that began at 1700000000, with one sample of 60 MiB/s up
    and 1 MiB/s down recorded at 1700000999. *)
Definition state_epoch : TorrentLimitState.t :=
  record_sample
    (TorrentLimitState.new_cycle state_fresh 1700000000 0 1799 false)
    62914560 1048576 1700000999.

(** A filter with the engine's noise parameters, and a speed that drops
    from 1 MB/s to nothing. *)
Definition kalman_engine : ExtendedKalman.t :=
  ExtendedKalman.__init__ 0.1 0.05 0.5.

Definition kalman_drop : list (Q * Q) := [(1000000, 1); (0, 2); (0, 3)].

(** A tracker after three samples of 100, 200 and 150 B/s. *)
Definition window_sample : MultiWindowSpeedTracker.t :=
  window_run [(1, 100); (2, 200); (3, 150)].

(** A controller with the engine's tuning whose smoothed cap is
    10000. *)
Definition controller_capped : PrecisionLimitController.t :=
  fst (PrecisionLimitController._smooth
         (PrecisionLimitController.__init__ PrecisionLimitEngine.the_tuning)
         10000 "steady").

(** A fresh state on which a download cap of 1000 KiB/s is recorded. *)
Definition state_dl_capped : TorrentLimitState.t :=
  set_last_dl_limit state_fresh 1000.

(** The counters of an engine that has reported no cycle yet. *)
Definition stats_fresh : Stats := {|
  torrents_controlled := 0;
  total_cycles := 0;
  success_cycles := 0;
  precision_cycles := 0;
  total_limit_uploaded := 0;
  start_time := 0
|}.

(** The engine's tuning without its gains for STEADY. *)
Definition tuning_no_steady : EngineTuning := {|
  pid_params := delete "steady"%string (pid_params PrecisionLimitEngine.the_tuning);
  min_limit := min_limit PrecisionLimitEngine.the_tuning;
  quant_steps := quant_steps PrecisionLimitEngine.the_tuning;
  kalman_q_speed := kalman_q_speed PrecisionLimitEngine.the_tuning;
  kalman_q_accel := kalman_q_accel PrecisionLimitEngine.the_tuning;
  kalman_r := kalman_r PrecisionLimitEngine.the_tuning
|}.


(** ** Invariants of the runs *)

(** What holds of a controller and the outputs of its run: every output
    is in range; once initialised, the stored output is the one returned
    last; before (fresh or just reset) it is 1. *)
Definition pid_inv (so : PIDController.t * list Q) : Prop :=
  Forall (fun out => 0.5 <= out <= 2) (snd so)
  /\ if PIDController._initialized (fst so)
     then exists rest, snd so = PIDController._last_output (fst so) :: rest
     else PIDController._last_output (fst so) = 1.

(** The bias adjustments of the tracker are in their ranges. *)
Definition phase_adj_inv (phase_adj : gmap string Q) : Prop :=
  forall p a, phase_adj !! p = Some a -> 0.92 <= a <= 1.08.

Definition tracker_inv (tr : PrecisionTracker.t) : Prop :=
  phase_adj_inv (PrecisionTracker._phase_adj tr)
  /\ 0.95 <= PrecisionTracker._global_adj tr <= 1.05.

(** The reannounce bookkeeping of a state agrees with the log of forced
    reannounces at pass time [t], with [c] bounding the recorded clocks:
    the log is spaced; its latest entry is either the state's
    [last_reannounce], or the state was made after it, has no reannounce
    recorded and began its cycle after it; and while the state waits for
    a reannounce, the one it has recorded is at least the minimum
    interval back. *)
Definition reannounce_inv (t c : Q) (sl : TorrentLimitState.t * list Q)
    : Prop :=
  spaced (snd sl)
  /\ match snd sl with
     | [] => TorrentLimitState.last_reannounce (fst sl) <= 0
     | latest :: _ =>
         0 < latest /\ latest <= c
         /\ (TorrentLimitState.last_reannounce (fst sl) = latest
             \/ (TorrentLimitState.last_reannounce (fst sl) <= 0
                 /\ latest <= TorrentLimitState.cycle_start (fst sl)))
     end
  /\ (TorrentLimitState.waiting_reannounce (fst sl) = true ->
      TorrentLimitState.last_reannounce (fst sl) <= 0
      \/ inject_Z LimitConfig.REANNOUNCE_MIN_INTERVAL
         <= t - TorrentLimitState.last_reannounce (fst sl)).

(** The covariance of the filter is symmetric and positive
    semi-definite, its noise parameters are not negative and its
    measurement noise is positive. *)
Definition kalman_inv (k : ExtendedKalman.t) : Prop :=
  0 < ExtendedKalman.r k
  /\ 0 <= ExtendedKalman.q_speed k
  /\ 0 <= ExtendedKalman.q_accel k
  /\ ExtendedKalman.p10 k == ExtendedKalman.p01 k
  /\ 0 <= ExtendedKalman.p00 k
  /\ 0 <= ExtendedKalman.p11 k
  /\ ExtendedKalman.p01 k * ExtendedKalman.p01 k
     <= ExtendedKalman.p00 k * ExtendedKalman.p11 k.

(** The smoothed cap of a controller is either no cap (not positive) or
    at least the minimum of its tuning. *)
Definition ctrl_inv (c : PrecisionLimitController.t) : Prop :=
  (PrecisionLimitController._smooth_limit c <= 0)%Z
  \/ (min_limit (PrecisionLimitController.tuning c)
      <= PrecisionLimitController._smooth_limit c)%Z.

(** The controller of a state, when it has one, keeps [ctrl_inv] and
    has the engine's minimum. *)
Definition state_ctrl_ok (state : TorrentLimitState.t) : Prop :=
  match TorrentLimitState.limit_controller state with
  | Some c =>
      ctrl_inv c
      /\ min_limit (PrecisionLimitController.tuning c) = LimitConfig.MIN_LIMIT
  | None => True
  end.

(** Call times that do not go back, from [t] on. *)
Fixpoint nondecreasing_from (t : Q) (nows : list Q) : Prop :=
  match nows with
  | [] => True
  | now :: rest => t <= now /\ nondecreasing_from now rest
  end.

Definition nondecreasing (nows : list Q) : Prop :=
  match nows with
  | [] => True
  | now :: rest => nondecreasing_from now rest
  end.

(** The deque of [_api_ok] after a call at time [t]: it is the tail of
    the grants made so far, in order, and holds exactly the ones made at
    most a second before [t]; there are at most [api_rate_limit] of
    them. *)
Definition api_inv (api_rate_limit : Z) (t : Q) (qg : list Q * list Q)
    : Prop :=
  exists old : list Q,
    snd qg = old ++ fst qg
    /\ Forall (fun g => 1 < t - g) old
    /\ Forall (fun g => g <= t /\ t - g <= 1) (fst qg)
    /\ nondecreasing (fst qg)
    /\ (Z.of_nat (length (fst qg)) <= Z.max 0 api_rate_limit)%Z.

(** A tracker that has seen only on-target cycles: every ratio it holds
    is within [0.995, 1.001] and no adjustment has moved from 1. *)
Definition tracker_on_target (tr : PrecisionTracker.t) : Prop :=
  Forall (fun h : Q * string * Q => 0.995 <= fst (fst h) <= 1.001)
         (PrecisionTracker._history tr)
  /\ (forall p a, PrecisionTracker._phase_adj tr !! p = Some a -> a == 1)
  /\ PrecisionTracker._global_adj tr == 1.

(** * Properties *)

(** ** Comparisons, [max], [min] and [clamp] *)

Lemma ltb_true a b : Py.ltb a b = true <-> a < b.
Proof.
  unfold Py.ltb. rewrite negb_true_iff. split; intros H.
  - apply Qnot_le_lt. intros Hle. apply Qle_bool_iff in Hle. congruence.
  - destruct (Qle_bool b a) eqn:E; [|reflexivity].
    apply Qle_bool_iff in E. lra.
Qed.

Lemma ltb_false a b : Py.ltb a b = false <-> b <= a.
Proof.
  unfold Py.ltb. rewrite negb_false_iff. apply Qle_bool_iff.
Qed.

Lemma leb_true a b : Py.leb a b = true <-> a <= b.
Proof. apply Qle_bool_iff. Qed.

Lemma leb_false a b : Py.leb a b = false <-> b < a.
Proof.
  unfold Py.leb. split; intros H.
  - apply Qnot_le_lt. intros Hle. apply Qle_bool_iff in Hle. congruence.
  - destruct (Qle_bool a b) eqn:E; [|reflexivity].
    apply Qle_bool_iff in E. lra.
Qed.

Ltac cmp_case c H :=
  lazymatch c with
  | Py.ltb _ _ =>
      destruct c eqn:H; [apply ltb_true in H | apply ltb_false in H]
  | Py.leb _ _ =>
      destruct c eqn:H; [apply leb_true in H | apply leb_false in H]
  end.

Lemma max_cases a b : (a < b /\ Py.max a b = b) \/ (b <= a /\ Py.max a b = a).
Proof.
  unfold Py.max. let H := fresh in cmp_case (Py.ltb a b) H; auto.
Qed.

Lemma min_cases a b : (b < a /\ Py.min a b = b) \/ (a <= b /\ Py.min a b = a).
Proof.
  unfold Py.min. let H := fresh in cmp_case (Py.ltb b a) H; auto.
Qed.

Lemma max_lower_l a b : a <= Py.max a b.
Proof. destruct (max_cases a b) as [[? ->]|[? ->]]; lra. Qed.

Lemma max_lower_r a b : b <= Py.max a b.
Proof. destruct (max_cases a b) as [[? ->]|[? ->]]; lra. Qed.

Lemma clamp_bounds v lo hi : lo <= hi -> lo <= clamp v lo hi <= hi.
Proof.
  intros Hlh. unfold clamp.
  destruct (max_cases lo (Py.min hi v)) as [[? ->]|[? ->]];
    destruct (min_cases hi v) as [[? E]|[? E]]; rewrite ?E in *; lra.
Qed.

(** ** The embedding on hand-traced inputs *)

Example py_int_truncates : Py.int (7 # 2) = 3%Z /\ Py.int (- 7 # 2) = (-3)%Z.
Proof. split; reflexivity. Qed.

Example py_fmt0_rounds_half_even :
  Py.fmt0 2.5 = "2"%string /\ Py.fmt0 3.5 = "4"%string
  /\ Py.fmt0 511.7 = "512"%string.
Proof. repeat split; vm_compute; reflexivity. Qed.

Example safe_div_by_zero : safe_div 5 0 1 = 1 /\ safe_div 6 3 0 == 2.
Proof. split; vm_compute; reflexivity. Qed.

(** STEADY, speed on target: the base step 512 is halved to 256, and
    5000 rounds to 5120. In WARMUP a small command is raised to
    [MIN_LIMIT]. *)
Example quantize_steady :
  AdaptiveQuantizer.quantize 5000 "steady" 100 100
    PrecisionLimitEngine.the_tuning 0 = 5120%Z.
Proof. vm_compute. reflexivity. Qed.

Example quantize_floor :
  AdaptiveQuantizer.quantize 100 "warmup" 100 100
    PrecisionLimitEngine.the_tuning 0 = 4096%Z.
Proof. vm_compute. reflexivity. Qed.

(** The second update of [pid_calls_sample]: error 0.4 after 0.5, one
    second apart, with the steady gains: 1 + 0.24 + 0.045 - 0.0024. *)
Example pid_second_update :
  hd 0 (snd (pid_run pid_calls_sample)) == 1.2826.
Proof. vm_compute. reflexivity. Qed.

Example get_phase_by_time_left :
  let synced :=
    TorrentLimitState.new_cycle
      (TorrentLimitState.new_cycle state_session 2000 0 1800 true)
      3800 0 1800 true in
  TorrentLimitState.get_phase state_session 0 (Some 5) = "warmup"%string
  /\ TorrentLimitState.get_phase synced 0 (Some 5) = "finish"%string
  /\ TorrentLimitState.get_phase synced 0 (Some 59) = "catch"%string
  /\ TorrentLimitState.get_phase synced 0 (Some 60) = "steady"%string.
Proof. cbv zeta. repeat split; vm_compute; reflexivity. Qed.

(** STEADY, 900 s into a cycle of 1800 s, 40 MiB/s achieved against a
    target of 50 MiB/s: 60 MiB/s are required, the fresh PID returns 1,
    the headroom is 1.005, and the cap is rounded with step 512. *)
Example calculate_steady :
  match PrecisionLimitController.calculate
          (PrecisionLimitController.__init__ PrecisionLimitEngine.the_tuning)
          52428800 37748736000 900 900 "steady" 1900 1 with
  | Some (_, (limit, reason, _)) =>
      limit = 63228928%Z /\ reason = "S:61440K"%string
  | None => False
  end.
Proof. vm_compute. split; reflexivity. Qed.

(** ** The download limiter *)

(** C9. Whatever the state and the inputs, a positive cap returned by
    [calc_dl_limit] is at least [DL_LIMIT_MIN] = 512 KiB/s; the only
    other value it returns is -1. *)
Theorem C9_dl_limit_positive_at_least_min :
  forall (state : TorrentLimitState.t) (total_done total_uploaded total_size : Z)
         (dl_speed now : Q),
    (0 < fst (DownloadLimiter.calc_dl_limit state total_done total_uploaded
                total_size dl_speed now))%Z ->
    (512 <= fst (DownloadLimiter.calc_dl_limit state total_done total_uploaded
                   total_size dl_speed now))%Z.
Proof.
  intros state total_done total_uploaded total_size dl_speed now.
  unfold DownloadLimiter.calc_dl_limit. cbv zeta.
  repeat match goal with
         | |- context [if ?c then _ else _] => destruct c
         end;
    cbn [fst]; unfold LimitConfig.DL_LIMIT_MIN; lia.
Qed.

(** At t = 10 the torrent has averaged 60 MiB/s, with 100 MiB left to
    download at 10 MiB/s: the fresh cap is 3200 KiB/s. *)
Lemma C9_dl_limit_witness :
  DownloadLimiter.calc_dl_limit state_fresh 0 629145600 104857600 10485760 10
  = (3200%Z, "均值超限"%string)
  /\ (512 <= fst (DownloadLimiter.calc_dl_limit state_fresh 0 629145600
                    104857600 10485760 10))%Z.
Proof.
  split.
  - vm_compute. reflexivity.
  - apply (C9_dl_limit_positive_at_least_min state_fresh 0 629145600 104857600
             10485760 10).
    vm_compute. reflexivity.
Defined.

(** ** The controller at the announce boundary *)

(** C10. With [time_left <= 0], [calculate] returns -1 with the reason
    of the announce in progress, whatever the phase and the other inputs:
    the controller it hands back is the one it was given (no PID update,
    no smoothing), and of the debug entries only the predicted ratio was
    written. *)
Theorem C10_calculate_uncapped_at_boundary :
  forall (self : PrecisionLimitController.t) (target : Q) (uploaded : Z)
         (time_left elapsed : Q) (phase : string) (now precision_adj : Q),
    time_left <= 0 ->
    exists debug,
      PrecisionLimitController.calculate self target uploaded time_left
        elapsed phase now precision_adj
      = Some (self, ((-1)%Z, "汇报中"%string, debug))
      /\ required_speed debug = None
      /\ pid_output debug = None
      /\ final_limit debug = None.
Proof.
  intros self target uploaded time_left elapsed phase now precision_adj Htl.
  apply leb_true in Htl.
  unfold PrecisionLimitController.calculate. cbv zeta. rewrite Htl.
  eexists. split; [reflexivity|]. cbn. auto.
Qed.

Lemma C10_calculate_witness :
  exists debug,
    PrecisionLimitController.calculate
      (PrecisionLimitController.__init__ PrecisionLimitEngine.the_tuning)
      52428800 1000 0 1800 "finish" 2800 1
    = Some (PrecisionLimitController.__init__ PrecisionLimitEngine.the_tuning,
            ((-1)%Z, "汇报中"%string, debug))
    /\ required_speed debug = None
    /\ pid_output debug = None
    /\ final_limit debug = None.
Proof.
  apply (C10_calculate_uncapped_at_boundary
           (PrecisionLimitController.__init__ PrecisionLimitEngine.the_tuning)
           52428800 1000 0 1800 "finish" 2800 1).
  vm_compute. discriminate.
Defined.

(** ** The overrides of the upload cap *)

(** C1. [_calculate_upload_limit] tries its overrides in order. Paused:
    -1 with the paused reason. Else, session average above
    [SPEED_LIMIT * 1.05]: [MIN_LIMIT] = 4096 with the brake reason. Else,
    waiting for a reannounce: 5120 * 1024 with the waiting reason. In
    these three cases the state comes back untouched. Only in the
    remaining case is the result that of the phase-based control. *)
Theorem C1_upload_limit_override_order :
  forall (self : PrecisionLimitEngine.t) (tracker : PrecisionTracker.t)
         (state : TorrentLimitState.t) (total_uploaded : Z)
         (up_speed progress tl now : Q),
    let result :=
      PrecisionLimitEngine._calculate_upload_limit self tracker state
        total_uploaded up_speed progress tl now in
    let real_speed :=
      TorrentLimitState.get_real_avg_speed state total_uploaded now in
    let ceiling := inject_Z LimitConfig.SPEED_LIMIT * 1.05 in
    (PrecisionLimitEngine.paused self = true ->
     result = (state, Some ((-1)%Z, "已暂停"%string)))
    /\ (PrecisionLimitEngine.paused self = false ->
        ceiling < real_speed ->
        result = (state, Some (4096%Z, "超速刹车"%string)))
    /\ (PrecisionLimitEngine.paused self = false ->
        real_speed <= ceiling ->
        TorrentLimitState.waiting_reannounce state = true ->
        result = (state, Some ((5120 * 1024)%Z, "等待汇报"%string)))
    /\ (PrecisionLimitEngine.paused self = false ->
        real_speed <= ceiling ->
        TorrentLimitState.waiting_reannounce state = false ->
        result = PrecisionLimitEngine.phase_based_limit
                   (PrecisionLimitEngine._tuning self) tracker state
                   total_uploaded progress tl now).
Proof.
  intros self tracker state total_uploaded up_speed progress tl now.
  cbv zeta. unfold PrecisionLimitEngine._calculate_upload_limit.
  repeat split.
  - intros ->. reflexivity.
  - intros -> Hover. apply ltb_true in Hover. rewrite Hover. reflexivity.
  - intros -> Hunder Hwait. apply ltb_false in Hunder.
    rewrite Hunder, Hwait. reflexivity.
  - intros -> Hunder Hwait. apply ltb_false in Hunder.
    rewrite Hunder, Hwait. reflexivity.
Qed.

Lemma C1_upload_limit_witness :
  PrecisionLimitEngine._calculate_upload_limit engine_paused
    PrecisionTracker.__init__ state_waiting 629145600 0 0.5 1490 1010
  = (state_waiting, Some ((-1)%Z, "已暂停"%string))
  /\ PrecisionLimitEngine._calculate_upload_limit engine_running
       PrecisionTracker.__init__ state_waiting 629145600 0 0.5 1490 1010
     = (state_waiting, Some (4096%Z, "超速刹车"%string))
  /\ PrecisionLimitEngine._calculate_upload_limit engine_running
       PrecisionTracker.__init__ state_waiting 524288000 0 0.5 1490 1010
     = (state_waiting, Some (5242880%Z, "等待汇报"%string))
  /\ snd (PrecisionLimitEngine._calculate_upload_limit engine_running
            PrecisionTracker.__init__ state_session 524288000 0 0.5 1490 1010)
     = Some ((-1)%Z, "W:预热"%string).
Proof.
  pose proof (C1_upload_limit_override_order engine_paused
                PrecisionTracker.__init__ state_waiting 629145600 0 0.5 1490
                1010) as Hp.
  pose proof (C1_upload_limit_override_order engine_running
                PrecisionTracker.__init__ state_waiting 629145600 0 0.5 1490
                1010) as Ho.
  pose proof (C1_upload_limit_override_order engine_running
                PrecisionTracker.__init__ state_waiting 524288000 0 0.5 1490
                1010) as Hw.
  pose proof (C1_upload_limit_override_order engine_running
                PrecisionTracker.__init__ state_session 524288000 0 0.5 1490
                1010) as Hc.
  cbv zeta in Hp, Ho, Hw, Hc.
  destruct Hp as (Hp & _), Ho as (_ & Ho & _), Hw as (_ & _ & Hw & _),
           Hc as (_ & _ & _ & Hc).
  split; [apply Hp; reflexivity|].
  split; [apply Ho; [reflexivity | vm_compute; reflexivity]|].
  split; [apply Hw; [reflexivity | vm_compute; discriminate | reflexivity]|].
  rewrite Hc; [vm_compute; reflexivity | reflexivity
              | vm_compute; discriminate | reflexivity].
Defined.

(** ** The adaptive quantiser *)

Lemma the_tuning_quant_step (p : Phase) :
  quant_steps PrecisionLimitEngine.the_tuning !! phase_str p
  = Some (spec_base_step p).
Proof. destruct p; vm_compute; reflexivity. Qed.

Lemma spec_step_of_range base ratio trend :
  (256 <= spec_step_of base ratio trend <= 8192)%Z.
Proof. unfold spec_step_of. cbv zeta. lia. Qed.

(** C2, as stated, fails in FINISH: with the speed at 1.3 times the
    target and a flat trend the reference doubles the step to 512 and
    rounds 10496 up to 10752, where the source keeps the step at 256 and
    returns 10496. *)
Lemma C2_quantize_differs_from_spec_in_finish :
  AdaptiveQuantizer.quantize 10496 (phase_str FINISH) 13 10
    PrecisionLimitEngine.the_tuning 0 = 10496%Z
  /\ quantize_spec 10496 FINISH 13 10 0 = 10752%Z
  /\ AdaptiveQuantizer.quantize 10496 (phase_str FINISH) 13 10
       PrecisionLimitEngine.the_tuning 0
     <> quantize_spec 10496 FINISH 13 10 0.
Proof. repeat split; vm_compute; congruence. Qed.

(** C2, amended. For every positive rate command and each of the four
    phases, the quantiser with the engine's tuning is the reference
    algorithm except that in FINISH the step is always 256 and that the
    ratio counts as 1 for a target that is zero or below 1e-10 in
    magnitude; the step lies in [256, 8192] and the result is never below
    [MIN_LIMIT] = 4096. *)
Theorem C2_quantize_amended :
  forall (x : Z) (p : Phase) (current target trend : Q),
    (0 < x)%Z ->
    AdaptiveQuantizer.quantize x (phase_str p) current target
      PrecisionLimitEngine.the_tuning trend
    = quantize_amended x p current target trend
    /\ (4096 <= AdaptiveQuantizer.quantize x (phase_str p) current target
                  PrecisionLimitEngine.the_tuning trend)%Z.
Proof.
  intros x p current target trend Hx.
  assert (Heq : AdaptiveQuantizer.quantize x (phase_str p) current target
                  PrecisionLimitEngine.the_tuning trend
                = quantize_amended x p current target trend).
  { unfold AdaptiveQuantizer.quantize, quantize_amended. cbv zeta.
    destruct (x <=? 0)%Z eqn:E; [apply Z.leb_le in E; lia|].
    rewrite the_tuning_quant_step. cbn [default].
    change (min_limit PrecisionLimitEngine.the_tuning)
      with LimitConfig.MIN_LIMIT.
    destruct p; cbn [phase_str String.eqb]; unfold spec_step_of, clampZ;
      cbv zeta.
    1-3: reflexivity.
    change (String.eqb LimitConfig.PHASE_FINISH "finish") with true.
    cbv iota.
    destruct (Py.ltb 0.1 (Qabs trend)); reflexivity. }
  split; [exact Heq|].
  rewrite Heq. unfold quantize_amended, LimitConfig.MIN_LIMIT. cbv zeta. lia.
Qed.

Lemma C2_quantize_amended_witness :
  AdaptiveQuantizer.quantize 10496 (phase_str FINISH) 13 10
    PrecisionLimitEngine.the_tuning 0
  = quantize_amended 10496 FINISH 13 10 0
  /\ (4096 <= AdaptiveQuantizer.quantize 10496 (phase_str FINISH) 13 10
                PrecisionLimitEngine.the_tuning 0)%Z.
Proof.
  apply (C2_quantize_amended 10496 FINISH 13 10 0). reflexivity.
Defined.

(** ** The PID controller *)

Lemma pid_inv_last_output so :
  pid_inv so -> 0.5 <= PIDController._last_output (fst so) <= 2.
Proof.
  intros [Houts Hlast].
  destruct (PIDController._initialized (fst so)).
  - destruct Hlast as [rest Hrest]. rewrite Hrest in Houts.
    inversion Houts; assumption.
  - rewrite Hlast. lra.
Qed.

Lemma pid_step_inv so c : pid_inv so -> pid_inv (pid_step so c).
Proof.
  intros Hinv. pose proof (pid_inv_last_output so Hinv) as Hrange.
  destruct so as [self outs]. destruct Hinv as [Houts Hlast].
  cbn [fst snd] in *. destruct c as [phase params | target actual now |].
  - unfold pid_step, PIDController.set_phase.
    destruct (params !! "steady"%string); cbn [default]; split; assumption.
  - unfold pid_step, PIDController.update. cbv zeta.
    destruct (PIDController._initialized self) eqn:Hinit; cbn [negb].
    + destruct (Py.leb _ _).
      * split; cbn [fst snd].
        -- constructor; assumption.
        -- rewrite Hinit. eauto.
      * split; cbn [fst snd PIDController._initialized
                    PIDController._last_output].
        -- constructor; [apply clamp_bounds; lra | assumption].
        -- eauto.
    + split; cbn [fst snd PIDController._initialized
                  PIDController._last_output].
      * constructor; [lra | assumption].
      * rewrite Hlast. eauto.
  - split; [assumption | reflexivity].
Qed.

Lemma pid_run_inv_from so calls :
  pid_inv so -> pid_inv (fold_left pid_step calls so).
Proof.
  revert so. induction calls as [|c calls IH]; intros so Hinv; [assumption|].
  cbn [fold_left]. apply IH, pid_step_inv, Hinv.
Qed.

Lemma pid_run_inv calls : pid_inv (pid_run calls).
Proof.
  apply pid_run_inv_from. split; [constructor | reflexivity].
Qed.

(** C4. After any calls on a fresh controller, the next [update] returns
    a value in [0.5, 2.0]. If the controller is not initialised (first
    update, or first since a reset) it returns exactly 1.0. If it is and
    no more than 10 ms have passed since the time it stored, it returns
    the output that the previous [update] returned and changes nothing. *)
Theorem C4_pid_update_range_first_and_hold :
  forall (calls : list pid_call) (target actual now : Q),
    let self := fst (pid_run calls) in
    let outs := snd (pid_run calls) in
    let result := PIDController.update self target actual now in
    0.5 <= snd result <= 2
    /\ (PIDController._initialized self = false -> snd result = 1)
    /\ (PIDController._initialized self = true ->
        now - PIDController._last_time self <= 0.01 ->
        exists rest, outs = snd result :: rest /\ fst result = self).
Proof.
  intros calls target actual now. cbv zeta.
  pose proof (pid_run_inv calls) as Hinv.
  pose proof (pid_step_inv _ (PidUpdate target actual now) Hinv) as Hnext.
  destruct (pid_run calls) as [self outs]. cbn [fst snd] in *.
  split; [|split].
  - unfold pid_step in Hnext.
    destruct (PIDController.update self target actual now) as [self' out].
    destruct Hnext as [Houts _]. cbn [snd] in *.
    inversion Houts; assumption.
  - intros Hinit. unfold PIDController.update. rewrite Hinit. reflexivity.
  - intros Hinit Hdt. apply leb_true in Hdt.
    unfold PIDController.update. cbv zeta. rewrite Hinit, Hdt.
    cbn [negb fst snd]. destruct Hinv as [_ Hlast]. cbn [fst snd] in Hlast.
    rewrite Hinit in Hlast. destruct Hlast as [rest ->]. eauto.
Qed.

Lemma C4_pid_update_witness :
  snd (PIDController.update (fst (pid_run [])) 1000 500 1) = 1
  /\ exists rest,
       snd (pid_run pid_calls_sample)
       = snd (PIDController.update (fst (pid_run pid_calls_sample))
                1000 700 2.005) :: rest
       /\ fst (PIDController.update (fst (pid_run pid_calls_sample))
                 1000 700 2.005)
          = fst (pid_run pid_calls_sample).
Proof.
  split.
  - apply (C4_pid_update_range_first_and_hold [] 1000 500 1). reflexivity.
  - apply (C4_pid_update_range_first_and_hold pid_calls_sample 1000 700
             2.005).
    + reflexivity.
    + vm_compute. discriminate.
Defined.

(** ** The precision tracker *)

Lemma update_phases_inv phase_data : forall phase_adj,
  phase_adj_inv phase_adj ->
  phase_adj_inv (fst (PrecisionTracker.update_phases phase_data phase_adj)).
Proof.
  induction phase_data as [|[phase ratios] rest IH]; intros phase_adj Hinv;
    cbn [PrecisionTracker.update_phases fst]; [assumption|].
  destruct (length ratios <? 3)%nat; [apply IH, Hinv|].
  destruct (phase_adj !! phase) as [cur|] eqn:Hcur; [|assumption].
  apply IH. intros p a. rewrite lookup_insert. case_decide.
  - intros [= <-]. apply clamp_bounds. lra.
  - apply Hinv.
Qed.

Lemma tracker_update_inv tr :
  tracker_inv tr -> tracker_inv (fst (PrecisionTracker._update tr)).
Proof.
  intros [Hphase Hglobal]. unfold PrecisionTracker._update.
  destruct (length (PrecisionTracker._history tr) <? 5)%nat;
    [split; assumption|].
  pose proof (update_phases_inv
                (PrecisionTracker.group_by_phase (PrecisionTracker._history tr))
                _ Hphase) as Hphase'.
  destruct (PrecisionTracker.update_phases _ _) as [phase_adj raised].
  cbn [fst] in Hphase'. cbv zeta.
  destruct raised; split; cbn [fst PrecisionTracker._phase_adj
                               PrecisionTracker._global_adj]; try assumption.
  repeat match goal with
         | |- context [if ?c then _ else _] => destruct c
         end; try assumption; apply clamp_bounds; lra.
Qed.

Lemma tracker_run_inv records : tracker_inv (tracker_run records).
Proof.
  unfold tracker_run.
  assert (Hinit : tracker_inv PrecisionTracker.__init__).
  { split; [|cbn; lra]. intros p a. cbn [PrecisionTracker.__init__
                                         PrecisionTracker._phase_adj].
    rewrite !lookup_insert.
    repeat case_decide; rewrite ?lookup_empty; intros [= <-]; lra. }
  revert Hinit. generalize PrecisionTracker.__init__.
  induction records as [|x records IH]; intros tr Hinv; [assumption|].
  cbn [fold_left]. apply IH. unfold PrecisionTracker.record.
  apply tracker_update_inv. exact Hinv.
Qed.

(** C7. After any sequence of [record] calls on the fresh tracker, the
    adjustment of every phase (1.0 for a phase without an entry) is in
    [0.92, 1.08], the global adjustment is in [0.95, 1.05], and
    [get_adjustment] returns their product, which is in
    [0.92 * 0.95, 1.08 * 1.05]. *)
Theorem C7_precision_adjustments_in_range :
  forall (records : list (Q * string * Q)) (phase : string),
    let tr := tracker_run records in
    let phase_adj := default 1 (PrecisionTracker._phase_adj tr !! phase) in
    let global_adj := PrecisionTracker._global_adj tr in
    0.92 <= phase_adj <= 1.08
    /\ 0.95 <= global_adj <= 1.05
    /\ PrecisionTracker.get_adjustment tr phase = phase_adj * global_adj
    /\ 0.92 * 0.95 <= PrecisionTracker.get_adjustment tr phase <= 1.08 * 1.05.
Proof.
  intros records phase. cbv zeta.
  destruct (tracker_run_inv records) as [Hphase Hglobal].
  assert (Hp : 0.92 <= default 1 (PrecisionTracker._phase_adj
                                    (tracker_run records) !! phase) <= 1.08).
  { destruct (PrecisionTracker._phase_adj (tracker_run records) !! phase)
      as [a|] eqn:Ha; cbn [default]; [apply (Hphase _ _ Ha) | lra]. }
  split; [exact Hp|]. split; [exact Hglobal|]. split; [reflexivity|].
  unfold PrecisionTracker.get_adjustment. nra.
Qed.

(** Five cycles that overshot by 10% in STEADY: both adjustments moved. *)
Example tracker_run_overshoot :
  PrecisionTracker.get_adjustment
    (tracker_run [(1.1, "steady"%string, 1); (1.1, "steady"%string, 2);
                  (1.1, "steady"%string, 3); (1.1, "steady"%string, 4);
                  (1.1, "steady"%string, 5)]) "steady"
  == 0.998 * 0.999.
Proof. vm_compute. reflexivity. Qed.

(** ** Eviction of stale states *)

(** What [_cleanup_states] keeps: the states that are not [stale], which
    looks at this pass's active set and at the start of the session, the
    only time the state carries. *)
Lemma cleanup_states_lookup states active_hashes now h st :
  PrecisionLimitEngine._cleanup_states states active_hashes now !! h = Some st
  <-> states !! h = Some st
      /\ PrecisionLimitEngine.stale active_hashes now h st = false.
Proof.
  unfold PrecisionLimitEngine._cleanup_states.
  rewrite map_lookup_filter_Some. reflexivity.
Qed.

(** The half of the eviction rule that the code does keep: a state
    whose session has begun, and whose hash was last active more than
    7200 s ago, is removed (its session began no later than that). *)
Lemma cleanup_removes_long_absent states active_hashes now h st last_seen :
  states !! h = Some st ->
  h ∉ active_hashes ->
  0 < TorrentLimitState.session_start_time st ->
  TorrentLimitState.session_start_time st <= last_seen ->
  7200 < now - last_seen ->
  PrecisionLimitEngine._cleanup_states states active_hashes now !! h = None.
Proof.
  intros Hst Hin Hpos Hseen Hlong.
  unfold PrecisionLimitEngine._cleanup_states.
  apply map_lookup_filter_None. right. intros st' Hst'.
  rewrite Hst in Hst'. injection Hst' as <-. cbn [fst snd].
  unfold PrecisionLimitEngine.stale.
  rewrite bool_decide_eq_false_2 by exact Hin.
  assert (H1 : Py.ltb 0 (TorrentLimitState.session_start_time st) = true)
    by (apply ltb_true; exact Hpos).
  assert (H2 : Py.ltb 7200 (now - TorrentLimitState.session_start_time st)
               = true) by (apply ltb_true; lra).
  rewrite H1, H2. discriminate.
Qed.

(** C8 at the failing input. The torrent's session began at t = 1000.
    In the pass at t = 9000 its hash is active and the state is kept; in
    the pass at t = 9005 it is not, and the state is removed, 5 s after
    it was last seen. *)
Theorem C8_cleanup_evicts_state_seen_5s_ago :
  PrecisionLimitEngine._cleanup_states states_sample {[ "aa"%string ]} 9000
    !! "aa"%string = Some state_session
  /\ PrecisionLimitEngine._cleanup_states
       (PrecisionLimitEngine._cleanup_states states_sample
          {[ "aa"%string ]} 9000)
       ∅ 9005 !! "aa"%string = None.
Proof. split; vm_compute; reflexivity. Qed.

(** ** Persistence *)

(** The engine asks the store for [get_torrent_limit_states]; class
    [Database] has no such method ([get_all_torrent_limit_states] is
    its name there), so the fetch raises and the restore returns with
    nothing done. *)
Lemma restore_is_swallowed (self : PrecisionLimitEngine.t) (db : Database.t)
    (now : Q) :
  PrecisionLimitEngine._restore_states_from_db self db now = self.
Proof. reflexivity. Qed.

(** The engine saves a state with keyword arguments, [torrent_hash]
    first; the method of class [Database] has the one parameter
    [state], so the binding raises. *)
Lemma save_call_raises (db : Database.t) (h : string)
    (st : TorrentLimitState.t) (clock : Q) :
  Database.call_save db "save_torrent_limit_state"
    (PrecisionLimitEngine.save_kwargs h st) clock = None.
Proof. reflexivity. Qed.

Lemma save_is_swallowed (self : PrecisionLimitEngine.t) (db : Database.t)
    (clock : Q) :
  PrecisionLimitEngine._save_states_to_db self db clock = db.
Proof.
  unfold PrecisionLimitEngine._save_states_to_db.
  induction (map_to_list (PrecisionLimitEngine._states self)) as [|hs l IH];
    [reflexivity|].
  cbn [fold_left]. unfold PrecisionLimitEngine.save_one at 2.
  rewrite save_call_raises. exact IH.
Qed.

(** Were the rows fetched under the name that the class has, the loop
    would still restore none: it reads the key [torrent_hash], and the
    rows of the table have [hash]. *)
Example stored_row_is_not_readable :
  Forall (fun s => PrecisionLimitEngine.restore_state
                     PrecisionLimitEngine.the_tuning 5000 s = None)
         (Database.get_all_torrent_limit_states db_sample).
Proof. repeat constructor. Qed.

(** The row of the sample database, through a restore and a save of an
    engine that holds a state of the same torrent: it is there as it
    was, name and all. *)
Example round_trip_sample :
  let db :=
    PrecisionLimitEngine._save_states_to_db
      (PrecisionLimitEngine._restore_states_from_db engine_session db_sample
         5000)
      db_sample 5001 in
  exists row,
    Database.get_all_torrent_limit_states db = [row]
    /\ dict_get row "hash" = Some (VStr "aa")
    /\ dict_get row "name" = Some (VStr "ubuntu.iso")
    /\ dict_get row "updated_at" = Some (VFloat 4000).
Proof. cbv zeta. eexists. repeat split; vm_compute; reflexivity. Qed.


(** ** Forced reannounces *)

Lemma this_time_at_least state now (d : Q) :
  0 < d -> d <= TorrentLimitState.this_time state now ->
  d <= now - TorrentLimitState.cycle_start state.
Proof.
  intros Hd. unfold TorrentLimitState.this_time.
  destruct (max_cases 0 (now - TorrentLimitState.cycle_start state))
    as [[_ ->]|[_ ->]]; lra.
Qed.

(** The waiting check says yes only for a state that waits and whose
    cycle began at least 900 s before [now]; then it clears the flag.
    Otherwise it changes nothing. *)
Lemma check_waiting_cases state total_uploaded now :
  ReannounceOptimizer.check_waiting_reannounce state total_uploaded now
  = (state, (false, ""%string))
  \/ (TorrentLimitState.waiting_reannounce state = true
      /\ inject_Z LimitConfig.REANNOUNCE_MIN_INTERVAL
         <= now - TorrentLimitState.cycle_start state
      /\ ReannounceOptimizer.check_waiting_reannounce state total_uploaded now
         = (TorrentLimitState.set_waiting_reannounce state false,
            (true, "均值恢复"%string))).
Proof.
  unfold ReannounceOptimizer.check_waiting_reannounce. cbv zeta.
  destruct (TorrentLimitState.waiting_reannounce state); cbn [negb]; auto.
  destruct (Py.ltb (TorrentLimitState.this_time state now) _) eqn:Htime; auto.
  apply ltb_false in Htime.
  destruct (Py.ltb _ _); auto.
  right. repeat split. apply this_time_at_least; [reflexivity | exact Htime].
Qed.

(** The answers of [should_reannounce]: no with the state untouched; no
    with the waiting flag set; or yes with the state untouched. The last
    two come only past the first guard (no reannounce recorded, or the
    recorded one at least 900 s before [now]), and yes only for a cycle
    that began at least 900 s before [now]: it needs [earliest <= now]
    and [earliest - (now - this_time) >= 900]. *)
Lemma should_reannounce_cases state total_done total_uploaded total_size
    now clock :
  let r := ReannounceOptimizer.should_reannounce state total_done
             total_uploaded total_size now clock in
  (fst r = state /\ fst (snd r) = false)
  \/ ((TorrentLimitState.last_reannounce state <= 0
       \/ inject_Z LimitConfig.REANNOUNCE_MIN_INTERVAL
          <= now - TorrentLimitState.last_reannounce state)
      /\ ((fst r = TorrentLimitState.set_waiting_reannounce state true
           /\ fst (snd r) = false)
          \/ (fst r = state /\ fst (snd r) = true
              /\ inject_Z LimitConfig.REANNOUNCE_MIN_INTERVAL
                 <= TorrentLimitState.this_time state now))).
Proof.
  cbv zeta. unfold ReannounceOptimizer.should_reannounce. cbv zeta.
  match goal with
  | |- context [if ?c then _ else _] => destruct c eqn:Hguard
  end; [left; split; reflexivity|].
  assert (Hclear : TorrentLimitState.last_reannounce state <= 0
                   \/ inject_Z LimitConfig.REANNOUNCE_MIN_INTERVAL
                      <= now - TorrentLimitState.last_reannounce state).
  { apply andb_false_iff in Hguard as [H|H]; apply ltb_false in H; auto. }
  clear Hguard.
  destruct (Py.ltb (TorrentLimitState.this_time state now) 30);
    [left; split; reflexivity|].
  destruct (SpeedTracker.get_avg_speeds _ _ _) as [avg_up avg_dl].
  destruct (_ || _); [left; split; reflexivity|].
  destruct (_ <=? 0)%Z; [left; split; reflexivity|].
  set (earliest := if Py.ltb _ _ then Py.fadd _ now else now).
  destruct (Py.ltb (earliest - _) _) eqn:Hmin; [left; split; reflexivity|].
  apply ltb_false in Hmin.
  destruct (Py.ltb _ earliest); [|left; split; reflexivity].
  destruct (Py.leb earliest now) eqn:Hnow.
  - apply leb_true in Hnow.
    match goal with
    | |- context [if ?c then _ else _] => destruct c
    end; [|left; split; reflexivity].
    right. split; [exact Hclear|]. right.
    split; [reflexivity|]. split; [reflexivity|]. lra.
  - destruct (Py.ltb earliest _); [|left; split; reflexivity].
    right. split; [exact Hclear|]. left. split; reflexivity.
Qed.

Lemma reannounce_inv_later t t' c c' sl :
  t <= t' -> c <= c' -> reannounce_inv t c sl -> reannounce_inv t' c' sl.
Proof.
  intros Htt Hcc (Hsp & Hlast & Hwait). repeat split; try assumption.
  - destruct (snd sl) as [|latest rest]; [exact Hlast|].
    destruct Hlast as (Hpos & Hle & Hor). repeat split; try assumption. lra.
  - intros Hw. destruct (Hwait Hw) as [H|H]; [left; exact H | right; lra].
Qed.

(** Recording a reannounce at [clock], at least 900 s after the latest
    one in the log, keeps the invariant; so does the call that raised. *)
Lemma do_reannounce_inv t c state log rpc clock :
  reannounce_inv t c (state, log) ->
  0 < clock ->
  match log with
  | [] => True
  | latest :: _ =>
      inject_Z LimitConfig.REANNOUNCE_MIN_INTERVAL <= clock - latest
  end ->
  reannounce_inv t (Py.max c clock)
    (PrecisionLimitEngine._do_reannounce state rpc clock,
     match rpc with RpcReturned => [clock] | RpcRaised => [] end ++ log).
Proof.
  intros Hinv Hclock Hgap.
  destruct rpc; cbn [app];
    [|apply (reannounce_inv_later t t c); [lra | apply max_lower_l | exact Hinv]].
  destruct Hinv as (Hsp & Hlast & Hwait). cbn [fst snd] in *.
  repeat split; cbn [fst snd].
  - destruct log as [|latest log']; [exact I|]. split; assumption.
  - exact Hclock.
  - apply max_lower_r.
  - left. reflexivity.
  - cbn. discriminate.
Qed.

Lemma set_waiting_false_inv t c state log :
  reannounce_inv t c (state, log) ->
  reannounce_inv t c
    (TorrentLimitState.set_waiting_reannounce state false, log).
Proof.
  intros (Hsp & Hlast & Hwait). repeat split; try assumption.
  cbn. discriminate.
Qed.

Lemma waiting_check_step_inv now c opt state log total_uploaded rpc clock :
  reannounce_inv now c (state, log) ->
  0 < now -> now <= clock ->
  reannounce_inv now (Py.max c clock)
    (fst (waiting_check_step opt state total_uploaded now rpc clock),
     snd (waiting_check_step opt state total_uploaded now rpc clock) ++ log).
Proof.
  intros Hinv Hnow Hclock.
  assert (Hweak : reannounce_inv now (Py.max c clock) (state, log))
    by (apply (reannounce_inv_later now now c);
        [lra | apply max_lower_l | exact Hinv]).
  unfold waiting_check_step. destruct opt; [|exact Hweak].
  destruct (check_waiting_cases state total_uploaded now)
    as [-> | (Hw & Hcycle & ->)]; [exact Hweak|].
  cbn [fst snd]. apply do_reannounce_inv.
  - apply set_waiting_false_inv, Hinv.
  - lra.
  - destruct Hinv as (_ & Hlast & Hwait). cbn [fst snd] in *.
    destruct log as [|latest log']; [exact I|].
    destruct Hlast as (Hpos & _ & [Heq | [_ Hmade]]).
    + destruct (Hwait Hw) as [H|H]; rewrite Heq in H; lra.
    + lra.
Qed.

Lemma decision_step_inv now c opt state log total_done total_uploaded
    total_size clock_avg rpc clock :
  reannounce_inv now c (state, log) ->
  0 < now -> now <= clock ->
  reannounce_inv now (Py.max c clock)
    (fst (decision_step opt state total_done total_uploaded total_size now
            clock_avg rpc clock),
     snd (decision_step opt state total_done total_uploaded total_size now
            clock_avg rpc clock) ++ log).
Proof.
  intros Hinv Hnow Hclock.
  assert (Hweak : reannounce_inv now (Py.max c clock) (state, log))
    by (apply (reannounce_inv_later now now c);
        [lra | apply max_lower_l | exact Hinv]).
  unfold decision_step.
  destruct (opt && negb (TorrentLimitState.reannounced_this_cycle state));
    [|exact Hweak].
  pose proof (should_reannounce_cases state total_done total_uploaded
                total_size now clock_avg) as Hcases.
  cbv zeta in Hcases.
  destruct (ReannounceOptimizer.should_reannounce _ _ _ _ _ _)
    as [state1 [should reason]].
  cbn [fst snd] in Hcases.
  destruct Hcases as [[-> ->] | [Hclear [[-> ->] | (-> & -> & Hcycle)]]].
  - exact Hweak.
  - destruct Hweak as (Hsp & Hlast & _). repeat split; try assumption.
    intros _. exact Hclear.
  - apply do_reannounce_inv; [exact Hinv | lra |].
    destruct Hinv as (_ & Hlast & _). cbn [fst snd] in Hlast.
    destruct log as [|latest log']; [exact I|].
    destruct Hlast as (Hpos & _ & [Heq | [_ Hmade]]).
    + rewrite Heq in Hclear. destruct Hclear as [H|H]; lra.
    + assert (Hd : 0 < inject_Z LimitConfig.REANNOUNCE_MIN_INTERVAL)
        by reflexivity.
      pose proof (this_time_at_least state now _ Hd Hcycle). lra.
Qed.

Lemma new_cycle_fields state now uploaded tl is_jump :
  TorrentLimitState.last_reannounce
    (TorrentLimitState.new_cycle state now uploaded tl is_jump)
  = TorrentLimitState.last_reannounce state
  /\ TorrentLimitState.waiting_reannounce
       (TorrentLimitState.new_cycle state now uploaded tl is_jump)
     = TorrentLimitState.waiting_reannounce state
  /\ TorrentLimitState.cycle_start
       (TorrentLimitState.new_cycle state now uploaded tl is_jump)
     = now.
Proof. repeat split. Qed.

Lemma run_spaced acts : forall t c sl,
  reannounce_inv t c sl -> timed t c acts ->
  spaced (snd (fold_left run_action acts sl)).
Proof.
  induction acts as [|a acts IH]; intros t c [state log] Hinv Htimed.
  - destruct Hinv as [Hsp _]. exact Hsp.
  - cbn [fold_left].
    destruct a as [f | now uploaded tl is_jump | made now uploaded tl
                   | opt tu now rpc clock
                   | opt td tu ts now clock_avg rpc clock].
    + destruct Htimed as [Hkeeps Hrest]. apply (IH t c); [|exact Hrest].
      destruct Hinv as (Hsp & Hlast & Hwait).
      destruct (Hkeeps state) as (Hl & Hw & Hc).
      unfold reannounce_inv. cbn [run_action fst snd] in *.
      rewrite Hl, Hw, Hc. repeat split; assumption.
    + destruct Htimed as (Hnow & Ht & Hc & Hrest).
      apply (IH now c); [|exact Hrest].
      destruct Hinv as (Hsp & Hlast & Hwait).
      destruct (new_cycle_fields state now uploaded tl is_jump)
        as (Hl & Hw & Hcs).
      unfold reannounce_inv. cbn [run_action fst snd] in *.
      rewrite Hl, Hw, Hcs. repeat split; try assumption.
      * destruct log as [|latest log']; [exact Hlast|].
        destruct Hlast as (Hpos & Hle & [Heq | [Hz _]]);
          repeat split; try assumption; [left; exact Heq | right; split; lra].
      * intros Hwt. destruct (Hwait Hwt) as [H|H]; [left; exact H|right; lra].
    + destruct Htimed as (Hmw & Hml & Hnow & Ht & Hc & Hrest).
      apply (IH now c); [|exact Hrest].
      destruct Hinv as (Hsp & Hlast & _).
      destruct (new_cycle_fields made now uploaded tl false)
        as (Hl & Hw & Hcs).
      unfold reannounce_inv. cbn [run_action fst snd] in *.
      rewrite Hl, Hw, Hcs. repeat split; try assumption.
      * destruct log as [|latest log']; [exact Hml|].
        destruct Hlast as (Hpos & Hle & _).
        repeat split; try assumption. right. split; lra.
      * rewrite Hmw. discriminate.
    + destruct Htimed as (Hnow & Ht & Hclock & Hrest).
      apply (IH now (Py.max c clock)); [|exact Hrest].
      assert (Hc : c <= c) by lra.
      pose proof (waiting_check_step_inv now c opt state log tu rpc clock
                    (reannounce_inv_later _ _ _ _ _ Ht Hc Hinv) Hnow Hclock)
        as H.
      cbn [run_action]. destruct (waiting_check_step _ _ _ _ _ _). exact H.
    + destruct Htimed as (Hnow & Ht & Hclock & Hrest).
      apply (IH now (Py.max c clock)); [|exact Hrest].
      assert (Hc : c <= c) by lra.
      pose proof (decision_step_inv now c opt state log td tu ts clock_avg rpc
                    clock (reannounce_inv_later _ _ _ _ _ Ht Hc Hinv) Hnow
                    Hclock) as H.
      cbn [run_action]. destruct (decision_step _ _ _ _ _ _ _ _ _). exact H.
Qed.

(** The decision does say yes. The torrent of [state_epoch] has
    uploaded one byte more than the ceiling allows in 1000 s: the
    overshoot divided by 45 MiB/s is far below half an ulp of the clock,
    so [earliest] is [now]. With 100 bytes over, [earliest] is after
    [now] and the answer is no. *)
Example should_reannounce_optimised :
  snd (ReannounceOptimizer.should_reannounce state_epoch 0 52428800001
         104857600 1700001000 1700001000) = (true, "优化汇报"%string)
  /\ snd (ReannounceOptimizer.should_reannounce state_epoch 0 52428800100
            104857600 1700001000 1700001000) = (false, ""%string).
Proof. split; vm_compute; reflexivity. Qed.

(** C6. Take the state of a torrent, not waiting and with no reannounce
    recorded (as the engine makes it), and any trace of waiting checks,
    decisions, new cycles, re-creations of the state and other updates
    whose pass times are positive and do not go back. Every two
    successive forced reannounces in its log, whichever of the two
    decisions made them, are at least 900 s apart. *)
Theorem C6_forced_reannounces_900s_apart :
  forall (state : TorrentLimitState.t) (acts : list action),
    TorrentLimitState.waiting_reannounce state = false ->
    TorrentLimitState.last_reannounce state <= 0 ->
    timed 0 0 acts ->
    spaced (snd (run state acts)).
Proof.
  intros state acts Hwait Hlast Htimed. unfold run.
  apply (run_spaced acts 0 0); [|exact Htimed].
  repeat split; cbn [fst snd]; [exact Hlast|].
  rewrite Hwait. discriminate.
Qed.

Lemma record_sample_keeps_reannounce_fields up_speed dl_speed now :
  keeps_reannounce_fields (fun s => record_sample s up_speed dl_speed now).
Proof. intros s. repeat split. Qed.

Lemma C6_forced_reannounces_witness :
  snd (run state_session reannounce_trace)
  = [1700001000.25; 3500.25; 2200.5]
  /\ spaced (snd (run state_session reannounce_trace)).
Proof.
  split; [vm_compute; reflexivity|].
  apply (C6_forced_reannounces_900s_apart state_session reannounce_trace).
  - reflexivity.
  - vm_compute. discriminate.
  - unfold reannounce_trace. cbn [timed].
    repeat split;
      try apply record_sample_keeps_reannounce_fields;
      try (vm_compute; reflexivity); try (vm_compute; discriminate).
Defined.

(** ** The Kalman filter *)

Lemma Qsquare_nonneg (x : Q) : 0 <= x * x.
Proof.
  destruct (Qlt_le_dec x 0) as [Hneg|Hpos].
  - assert (E : x * x == (- x) * (- x)) by ring.
    rewrite E. apply Qmult_le_0_compat; lra.
  - apply Qmult_le_0_compat; lra.
Qed.

Lemma Qsquare_zero (x : Q) : x * x <= 0 -> x == 0.
Proof.
  intros H. destruct (Qlt_le_dec x 0) as [Hneg|Hpos].
  - assert (E : x * x == (- x) * (- x)) by ring.
    assert (0 < (- x) * (- x)) by (apply Qmult_lt_0_compat; lra). lra.
  - destruct (Qlt_le_dec 0 x) as [Hpos'|Hz]; [|lra].
    assert (0 < x * x) by (apply Qmult_lt_0_compat; lra). lra.
Qed.

Lemma Qmult_nonneg_cancel (x y : Q) : 0 < x -> 0 <= x * y -> 0 <= y.
Proof.
  intros Hx Hxy. destruct (Qlt_le_dec y 0) as [Hneg|Hpos]; [|exact Hpos].
  exfalso. assert (H : 0 < x * (- y)) by (apply Qmult_lt_0_compat; lra).
  assert (E : x * (- y) == - (x * y)) by ring.
  rewrite E in H. lra.
Qed.

(** The predicted covariance of a positive semi-definite one is positive
    semi-definite. *)
Lemma kalman_predict_psd (p00 p01 p11 dt q qa : Q) :
  0 <= p00 -> 0 <= p11 -> p01 * p01 <= p00 * p11 -> 0 <= q -> 0 <= qa ->
  let a := p00 + dt * (p01 + p01) + dt * dt * p11 + q in
  let b := p01 + dt * p11 in
  let c := p11 + qa in
  0 <= a /\ 0 <= c /\ b * b <= a * c.
Proof.
  intros H00 H11 Hdet Hq Hqa a b c.
  assert (Ha : 0 <= a).
  { subst a. destruct (Qlt_le_dec 0 p11) as [Hpos|Hz].
    - assert (H : 0 <= p11 * (p00 + dt * (p01 + p01) + dt * dt * p11)).
      { assert (E : p11 * (p00 + dt * (p01 + p01) + dt * dt * p11)
                    == (p00 * p11 - p01 * p01)
                       + (p01 + dt * p11) * (p01 + dt * p11)) by ring.
        rewrite E.
        pose proof (Qsquare_nonneg (p01 + dt * p11)). lra. }
      apply Qmult_nonneg_cancel in H; [lra | exact Hpos].
    - assert (E11 : p11 == 0) by lra.
      assert (E01 : p01 == 0).
      { apply Qsquare_zero. rewrite E11 in Hdet. lra. }
      rewrite E11, E01. lra. }
  split; [exact Ha|]. split; [subst c; lra|].
  assert (E : a * c - b * b
              == (p00 * p11 - p01 * p01) + q * p11 + qa * a)
    by (subst a b c; ring).
  assert (0 <= q * p11) by (apply Qmult_le_0_compat; assumption).
  assert (0 <= qa * a) by (apply Qmult_le_0_compat; assumption).
  lra.
Qed.

(** The corrected covariance of a positive semi-definite prediction is
    positive semi-definite, and the speed gain is in [0, 1]. *)
Lemma kalman_gain_psd (a b c r : Q) :
  0 <= a -> 0 <= c -> b * b <= a * c -> 0 < r ->
  let s := a + r in
  let k0 := a / s in
  let k1 := b / s in
  0 <= k0 <= 1
  /\ (1 - k0) * b == - k1 * a + b
  /\ 0 <= (1 - k0) * a
  /\ 0 <= - k1 * b + c
  /\ ((1 - k0) * b) * ((1 - k0) * b) <= ((1 - k0) * a) * (- k1 * b + c).
Proof.
  intros Ha Hc Hdet Hr s k0 k1.
  assert (Hs : 0 < s) by (subst s; lra).
  assert (Hsn : ~ s == 0) by lra.
  set (w := / s).
  assert (Hw : 0 < w) by (apply Qinv_lt_0_compat; exact Hs).
  assert (Ek0 : k0 == a * w) by (subst k0 w; field; exact Hsn).
  assert (Ek1 : k1 == b * w) by (subst k1 w; field; exact Hsn).
  assert (Eu : 1 - k0 == r * w) by (subst k0 w s; field; lra).
  assert (Hrw : 0 <= r * w) by (apply Qmult_le_0_compat; lra).
  assert (Haw : 0 <= a * w) by (apply Qmult_le_0_compat; lra).
  assert (E11 : - k1 * b + c == w * (a * c - b * b + r * c))
    by (subst k1 w s; field; lra).
  assert (Hrc : 0 <= r * c) by (apply Qmult_le_0_compat; lra).
  assert (H11 : 0 <= a * c - b * b + r * c) by lra.
  split; [split; [rewrite Ek0; exact Haw | lra]|].
  split; [subst k0 k1 w s; field; lra|].
  split; [rewrite Eu; apply Qmult_le_0_compat; assumption|].
  split; [rewrite E11; apply Qmult_le_0_compat; lra|].
  rewrite Eu, E11.
  assert (E : r * w * a * (w * (a * c - b * b + r * c)) - r * w * b * (r * w * b)
              == (r * w) * w * ((a + r) * (a * c - b * b))) by ring.
  assert (0 <= (r * w) * w * ((a + r) * (a * c - b * b))).
  { apply Qmult_le_0_compat; [apply Qmult_le_0_compat; lra|].
    apply Qmult_le_0_compat; lra. }
  lra.
Qed.

Lemma kalman_update_inv k measurement now :
  kalman_inv k -> kalman_inv (fst (ExtendedKalman.update k measurement now)).
Proof.
  intros Hinv. unfold ExtendedKalman.update. cbv zeta.
  destruct (negb (ExtendedKalman._initialized k)); [exact Hinv|].
  destruct (Py.leb _ _); [exact Hinv|].
  destruct (Py.ltb _ _); [exact Hinv|].
  destruct Hinv as (Hr & Hq & Hqa & Hsym & H00 & H11 & Hdet).
  unfold kalman_inv.
  cbn [fst ExtendedKalman.r ExtendedKalman.q_speed ExtendedKalman.q_accel
       ExtendedKalman.p00 ExtendedKalman.p01 ExtendedKalman.p10
       ExtendedKalman.p11].
  rewrite !Hsym.
  set (dt := now - ExtendedKalman._last_time k).
  destruct (kalman_predict_psd _ _ _ dt _ _ H00 H11 Hdet Hq Hqa)
    as (Ha & Hc & Hdet').
  destruct (kalman_gain_psd _ _ _ _ Ha Hc Hdet' Hr)
    as (_ & Esym & H00' & H11' & Hdet'').
  repeat split; try assumption.
  symmetry. exact Esym.
Qed.

Lemma kalman_run_inv ms : forall k, kalman_inv k -> kalman_inv (kalman_run k ms).
Proof.
  induction ms as [|mn ms IH]; intros k Hinv; [exact Hinv|].
  cbn [kalman_run fold_left]. apply IH, kalman_update_inv, Hinv.
Qed.

Lemma kalman_init_inv q_speed q_accel r :
  0 <= q_speed -> 0 <= q_accel -> 0 < r ->
  kalman_inv (ExtendedKalman.__init__ q_speed q_accel r).
Proof.
  intros Hq Hqa Hr. unfold kalman_inv. cbn. repeat split; try assumption; lra.
Qed.

(** One update: the new estimate is the measurement (first update), the
    old estimate (update skipped), or a weighted mean of the prediction
    and the measurement. *)
Lemma kalman_update_speed k measurement now :
  kalman_inv k ->
  0 <= measurement ->
  0 <= ExtendedKalman.speed k ->
  0 <= ExtendedKalman.speed k
       + ExtendedKalman.accel k * (now - ExtendedKalman._last_time k) ->
  0 <= ExtendedKalman.speed (fst (ExtendedKalman.update k measurement now)).
Proof.
  intros Hinv Hm Hspeed Hpred. unfold ExtendedKalman.update. cbv zeta.
  destruct (negb (ExtendedKalman._initialized k)); [exact Hm|].
  destruct (Py.leb _ _); [exact Hspeed|].
  destruct (Py.ltb _ _); [exact Hspeed|].
  destruct Hinv as (Hr & Hq & Hqa & Hsym & H00 & H11 & Hdet).
  cbn [fst ExtendedKalman.speed]. rewrite !Hsym.
  set (dt := now - ExtendedKalman._last_time k) in *.
  destruct (kalman_predict_psd _ _ _ dt _ _ H00 H11 Hdet Hq Hqa)
    as (Ha & Hc & Hdet').
  destruct (kalman_gain_psd _ _ _ _ Ha Hc Hdet' Hr) as ([Hk0 Hk1] & _).
  cbv zeta in Hk0, Hk1.
  set (k0 := _ / _) in *.
  set (pred := ExtendedKalman.speed k + ExtendedKalman.accel k * dt) in *.
  assert (E : pred + k0 * (measurement - pred)
              == (1 - k0) * pred + k0 * measurement) by ring.
  rewrite E.
  assert (0 <= (1 - k0) * pred) by (apply Qmult_le_0_compat; lra).
  assert (0 <= k0 * measurement) by (apply Qmult_le_0_compat; lra).
  lra.
Qed.

(** C3, as stated, fails: the measurements 1000000, 0, 0 taken one
    second apart are not negative, yet after the third update the
    estimate is below zero (about -497.8): the second update leaves a
    large negative acceleration, and the third predicts with it. *)
Lemma C3_kalman_speed_negative :
  Forall (fun mn : Q * Q => 0 <= fst mn) kalman_drop
  /\ ExtendedKalman.speed (kalman_run kalman_engine kalman_drop) < -497.
Proof.
  split.
  - unfold kalman_drop. repeat constructor; cbn; lra.
  - vm_compute. reflexivity.
Qed.

(** C3, amended. After any sequence of updates of a fresh filter (noise
    parameters not negative, measurement noise positive), an update with
    a measurement that is not negative leaves the speed estimate not
    negative, provided the estimate before it and the filter's
    prediction [speed + accel * dt] for the time of the update are not
    negative. *)
Theorem C3_kalman_speed_nonneg_when_prediction_is :
  forall (q_speed q_accel r : Q) (ms : list (Q * Q)) (measurement now : Q),
    0 <= q_speed -> 0 <= q_accel -> 0 < r ->
    let k := kalman_run (ExtendedKalman.__init__ q_speed q_accel r) ms in
    0 <= measurement ->
    0 <= ExtendedKalman.speed k ->
    0 <= ExtendedKalman.speed k
         + ExtendedKalman.accel k * (now - ExtendedKalman._last_time k) ->
    0 <= ExtendedKalman.speed (fst (ExtendedKalman.update k measurement now)).
Proof.
  intros q_speed q_accel r ms measurement now Hq Hqa Hr k Hm Hspeed Hpred.
  apply kalman_update_speed; try assumption.
  apply kalman_run_inv, kalman_init_inv; assumption.
Qed.

Lemma C3_kalman_speed_witness :
  0 <= ExtendedKalman.speed
         (fst (ExtendedKalman.update
                 (kalman_run kalman_engine [(1000000, 1); (1000000, 2)])
                 900000 3)).
Proof.
  apply (C3_kalman_speed_nonneg_when_prediction_is 0.1 0.05 0.5
           [(1000000, 1); (1000000, 2)] 900000 3);
    vm_compute; first [reflexivity | discriminate].
Defined.

(** ** Sums, means and bounded deques *)

Lemma sum_from (l : list Q) : forall acc, fold_left Qplus l acc == acc + Py.sum l.
Proof.
  unfold Py.sum. induction l as [|x l IH]; intros acc; cbn [fold_left].
  - ring.
  - rewrite IH, (IH (0 + x)). ring.
Qed.

Lemma sum_cons (x : Q) (l : list Q) : Py.sum (x :: l) == x + Py.sum l.
Proof. unfold Py.sum at 1. cbn [fold_left]. rewrite sum_from. ring. Qed.

Lemma len_cons {A} (x : A) (l : list A) : Py.len (x :: l) == 1 + Py.len l.
Proof.
  unfold Py.len. cbn [length]. rewrite Nat2Z.inj_succ, <- Z.add_1_l.
  rewrite inject_Z_plus. reflexivity.
Qed.

Lemma len_nonneg {A} (l : list A) : 0 <= Py.len l.
Proof.
  unfold Py.len. change 0 with (inject_Z 0). rewrite <- Zle_Qle. lia.
Qed.

Lemma sum_bounds (lo hi : Q) (l : list Q) :
  Forall (fun x => lo <= x <= hi) l ->
  lo * Py.len l <= Py.sum l <= hi * Py.len l.
Proof.
  induction 1 as [|x l Hx _ IH].
  - change (Py.sum []) with 0. change (Py.len (@nil Q)) with 0. lra.
  - rewrite sum_cons, len_cons. lra.
Qed.

(** The mean of a non-empty list lies between any bounds of its
    elements. *)
Lemma mean_bounds (lo hi : Q) (l : list Q) :
  l <> [] ->
  Forall (fun x => lo <= x <= hi) l ->
  lo <= Py.sum l / Py.len l <= hi.
Proof.
  intros Hne Hall. pose proof (sum_bounds lo hi l Hall) as [Hlo Hhi].
  assert (Hpos : 0 < Py.len l).
  { destruct l as [|x l]; [congruence|]. rewrite len_cons.
    pose proof (len_nonneg l). lra. }
  split.
  - apply Qle_shift_div_l; [exact Hpos | exact Hlo].
  - apply Qle_shift_div_r; [exact Hpos | exact Hhi].
Qed.

Lemma deque_append_run_from {A} (n : nat) (l : list A) : forall d,
  (0 < n)%nat -> (length d <= n)%nat ->
  fold_left (Py.deque_append n) l d
  = drop (length (d ++ l) - n) (d ++ l).
Proof.
  induction l as [|x l IH]; intros d Hn Hd; cbn [fold_left].
  - rewrite app_nil_r. replace (length d - n)%nat with 0%nat by lia.
    reflexivity.
  - unfold Py.deque_append at 2.
    destruct (n <=? length d)%nat eqn:E.
    + apply Nat.leb_le in E. destruct d as [|a d']; [cbn in E; lia|].
      cbn [tail]. cbn [length] in *. rewrite IH; [|exact Hn|].
      * rewrite <- !app_assoc. cbn [app length].
        assert (Hk : (n <= length (d' ++ x :: l))%nat)
          by (rewrite length_app; cbn [length]; lia).
        replace (S (length (d' ++ x :: l)) - n)%nat
          with (S (length (d' ++ x :: l) - n)) by lia.
        reflexivity.
      * rewrite length_app. cbn [length]. lia.
    + apply Nat.leb_gt in E. rewrite IH; [|exact Hn|].
      * rewrite <- !app_assoc. reflexivity.
      * rewrite length_app. cbn [length]. lia.
Qed.

(** A deque with a positive bound, filled from empty, holds the last
    elements appended, in order. *)
Lemma deque_append_run {A} (n : nat) (l : list A) :
  (0 < n)%nat ->
  fold_left (Py.deque_append n) l [] = drop (length l - n) l.
Proof. intros Hn. rewrite deque_append_run_from; [reflexivity|exact Hn|cbn; lia]. Qed.

(** ** The multi-window speed tracker *)

Lemma window_samples_from (l : list (Q * Q)) : forall tr,
  MultiWindowSpeedTracker._samples
    (fold_left (fun tr (ns : Q * Q) =>
                  MultiWindowSpeedTracker.record tr (fst ns) (snd ns)) l tr)
  = fold_left (Py.deque_append 1200) l (MultiWindowSpeedTracker._samples tr).
Proof.
  induction l as [|[now speed] l IH]; intros tr; cbn [fold_left]; [reflexivity|].
  rewrite IH. reflexivity.
Qed.

(** X1. The tracker holds the last 1200 samples recorded, oldest first, and
    never more. *)
Theorem window_run_keeps_last_1200 :
  forall samples : list (Q * Q),
    MultiWindowSpeedTracker._samples (window_run samples)
    = drop (length samples - 1200) samples
    /\ (length (MultiWindowSpeedTracker._samples (window_run samples))
        <= 1200)%nat.
Proof.
  intros samples. unfold window_run. rewrite window_samples_from.
  cbn [MultiWindowSpeedTracker.__init__ MultiWindowSpeedTracker._samples].
  rewrite deque_append_run by lia. split; [reflexivity|].
  rewrite length_drop. lia.
Qed.

Lemma weights_positive (phase : string) (window : Z) :
  0 < default 0.25
        (default (MultiWindowSpeedTracker.mk_weights 0.3 0.3 0.2 0.2)
                 (MultiWindowSpeedTracker.weights_table !! phase)
         !! window).
Proof.
  unfold MultiWindowSpeedTracker.weights_table.
  rewrite !lookup_insert. rewrite lookup_empty.
  repeat case_decide; cbn [from_option id].
  all: unfold MultiWindowSpeedTracker.mk_weights.
  all: rewrite !lookup_insert, lookup_empty;
    repeat case_decide; cbn [from_option id]; reflexivity.
Qed.

(** One window of [get_weighted_avg]: the weighted sum stays between
    the bounds of the speeds times the total weight. *)
Lemma weighted_step (lo hi weight : Q) (win : list Q) (acc : Q * Q) :
  0 < weight ->
  Forall (fun x => lo <= x <= hi) win ->
  0 <= fst acc /\ lo * fst acc <= snd acc <= hi * fst acc ->
  let acc' :=
    match win with
    | [] => acc
    | _ => (fst acc + weight, snd acc + Py.sum win / Py.len win * weight)
    end in
  fst acc <= fst acc'
  /\ (win <> [] -> 0 < fst acc')
  /\ (win = [] -> acc' = acc)
  /\ lo * fst acc' <= snd acc' <= hi * fst acc'.
Proof.
  intros Hw Hall (Htw & Hlo & Hhi). destruct win as [|x win]; cbv zeta.
  - repeat split; try assumption; try lra. congruence.
  - cbn [fst snd].
    pose proof (mean_bounds lo hi (x :: win) ltac:(discriminate) Hall)
      as [Hmlo Hmhi].
    set (avg := Py.sum (x :: win) / Py.len (x :: win)) in *.
    assert (lo * weight <= avg * weight) by (apply Qmult_le_compat_r; lra).
    assert (avg * weight <= hi * weight) by (apply Qmult_le_compat_r; lra).
    repeat split; try lra. discriminate.
Qed.

Lemma filter_speeds_bounds (lo hi : Q) (P : Q * Q -> Prop)
    `{forall x, base.Decision (P x)} (samples : list (Q * Q)) :
  Forall (fun ts : Q * Q => lo <= snd ts <= hi) samples ->
  Forall (fun x => lo <= x <= hi) (map snd (filter P samples)).
Proof.
  intros Hall. apply Forall_map. apply Forall_forall. intros ts Hin.
  apply list_elem_of_filter in Hin as [_ Hin].
  rewrite Forall_forall in Hall. apply Hall, Hin.
Qed.

Lemma filter_none {A} (P : A -> Prop) `{forall x, base.Decision (P x)}
    (l : list A) :
  Forall (fun x => ~ P x) l -> filter P l = [].
Proof.
  induction 1 as [|x l Hx _ IH]; [reflexivity|].
  rewrite filter_cons_False by exact Hx. exact IH.
Qed.

(** In the exact arithmetic of the embedding [get_weighted_avg] is 0
    when no sample is at most 60 s old, and otherwise lies between any
    bounds of the recorded speeds. *)
Lemma weighted_avg_bounds :
  forall (tr : MultiWindowSpeedTracker.t) (now : Q) (phase : string)
         (lo hi : Q),
    Forall (fun ts : Q * Q => lo <= snd ts <= hi)
           (MultiWindowSpeedTracker._samples tr) ->
    (Forall (fun ts : Q * Q => 60 < now - fst ts)
            (MultiWindowSpeedTracker._samples tr) ->
     MultiWindowSpeedTracker.get_weighted_avg tr now phase = 0)
    /\ (Exists (fun ts : Q * Q => now - fst ts <= 60)
               (MultiWindowSpeedTracker._samples tr) ->
        lo <= MultiWindowSpeedTracker.get_weighted_avg tr now phase <= hi).
Proof.
  intros tr now phase lo hi Hall.
  unfold MultiWindowSpeedTracker.get_weighted_avg. cbv zeta.
  set (weights := default _ (MultiWindowSpeedTracker.weights_table !! phase)).
  set (samples := MultiWindowSpeedTracker._samples tr) in *.
  set (win := fun window : Z =>
         map snd (filter (fun ts : Q * Q =>
                            Py.leb (now - fst ts) (inject_Z window) = true)
                         samples)).
  set (step := fun (acc : Q * Q) (window : Z) =>
         match win window with
         | [] => acc
         | _ => (fst acc + default 0.25 (weights !! window),
                 snd acc + Py.sum (win window) / Py.len (win window)
                           * default 0.25 (weights !! window))
         end).
  assert (Hfold : forall acc windows,
             fold_left
               (fun (acc : Q * Q) (window : Z) =>
                  let '(total_weight, weighted_sum) := acc in
                  match win window with
                  | [] => acc
                  | _ => (total_weight + default 0.25 (weights !! window),
                          weighted_sum
                          + Py.sum (win window) / Py.len (win window)
                            * default 0.25 (weights !! window))
                  end) windows acc
             = fold_left step windows acc).
  { intros acc windows. revert acc.
    induction windows as [|w ws IH]; intros [tw wsum]; [reflexivity|].
    cbn [fold_left]. rewrite <- IH. reflexivity. }
  fold win. rewrite Hfold. clear Hfold.
  assert (Hstep : forall acc window,
             0 <= fst acc /\ lo * fst acc <= snd acc <= hi * fst acc ->
             fst acc <= fst (step acc window)
             /\ (win window <> [] -> 0 < fst (step acc window))
             /\ (win window = [] -> step acc window = acc)
             /\ lo * fst (step acc window) <= snd (step acc window)
                <= hi * fst (step acc window)).
  { intros acc window Hacc. unfold step.
    apply (weighted_step lo hi (default 0.25 (weights !! window))
             (win window) acc).
    - apply weights_positive.
    - apply filter_speeds_bounds. exact Hall.
    - exact Hacc. }
  change (fold_left step [5%Z; 15%Z; 30%Z; 60%Z] (0, 0))
    with (step (step (step (step (0, 0) 5%Z) 15%Z) 30%Z) 60%Z).
  assert (H0 : 0 <= fst (0, 0) /\ lo * fst (0, 0) <= snd (0, 0) <= hi * fst (0, 0))
    by (cbn [fst snd]; lra).
  destruct (Hstep _ 5%Z H0) as (M1 & _ & E1 & B1).
  assert (A1 : 0 <= fst (step (0, 0) 5%Z)) by (cbn [fst] in M1; lra).
  destruct (Hstep _ 15%Z (conj A1 B1)) as (M2 & _ & E2 & B2).
  assert (A2 : 0 <= fst (step (step (0, 0) 5%Z) 15%Z)) by lra.
  destruct (Hstep _ 30%Z (conj A2 B2)) as (M3 & _ & E3 & B3).
  assert (A3 : 0 <= fst (step (step (step (0, 0) 5%Z) 15%Z) 30%Z)) by lra.
  destruct (Hstep _ 60%Z (conj A3 B3)) as (M4 & P4 & E4 & B4).
  set (final := step (step (step (step (0, 0) 5%Z) 15%Z) 30%Z) 60%Z) in *.
  split.
  - intros Hold.
    assert (Hempty : forall window, (window <= 60)%Z -> win window = []).
    { intros window Hwin. unfold win.
      rewrite filter_none; [reflexivity|].
      eapply Forall_impl; [exact Hold|]. intros ts Hts Hin.
      cbn beta in Hin. apply leb_true in Hin.
      assert (inject_Z window <= 60)
        by (change 60 with (inject_Z 60); rewrite <- Zle_Qle; exact Hwin).
      cbn beta in Hts. lra. }
    rewrite E4, E3, E2, E1 by (apply Hempty; lia).
    reflexivity.
  - intros Hnew.
    assert (Hne : win 60%Z <> []).
    { apply Exists_exists in Hnew as (ts & Hin & Hts). unfold win.
      intros Hnil. apply map_eq_nil in Hnil.
      assert (Hin' : ts ∈ filter (fun ts : Q * Q =>
                        Py.leb (now - fst ts) (inject_Z 60) = true) samples).
      { apply list_elem_of_filter. split; [|exact Hin].
        apply leb_true. exact Hts. }
      rewrite Hnil in Hin'. inversion Hin'. }
    specialize (P4 Hne).
    destruct final as [tw wsum]. cbn [fst snd] in *.
    assert (Hpos : Py.ltb 0 tw = true) by (apply ltb_true; exact P4).
    rewrite Hpos. split.
    + apply Qle_shift_div_l; [exact P4 | lra].
    + apply Qle_shift_div_r; [exact P4 | lra].
Qed.

Lemma speeds_bounded (samples : list (Q * Q)) :
  Forall (fun ts : Q * Q => 0 <= snd ts) samples ->
  exists hi, Forall (fun ts : Q * Q => 0 <= snd ts <= hi) samples.
Proof.
  induction 1 as [|ts samples Hts _ [hi IH]].
  - exists 0. constructor.
  - exists (Py.max hi (snd ts)). constructor.
    + split; [exact Hts | apply max_lower_r].
    + eapply Forall_impl; [exact IH|]. intros ts' [Hlo Hhi].
      split; [exact Hlo|]. pose proof (max_lower_l hi (snd ts)). lra.
Qed.

(** X2. [get_weighted_avg] never returns a negative speed: when no
    recorded speed is negative, its result is not negative, at every
    time and for every phase. *)
Theorem weighted_avg_nonneg :
  forall (tr : MultiWindowSpeedTracker.t) (now : Q) (phase : string),
    Forall (fun ts : Q * Q => 0 <= snd ts)
           (MultiWindowSpeedTracker._samples tr) ->
    0 <= MultiWindowSpeedTracker.get_weighted_avg tr now phase.
Proof.
  intros tr now phase Hall.
  destruct (speeds_bounded _ Hall) as [hi Hhi].
  destruct (weighted_avg_bounds tr now phase 0 hi Hhi) as [Hold Hnew].
  assert (Hcases : forall l : list (Q * Q),
             Forall (fun ts : Q * Q => 60 < now - fst ts) l
             \/ Exists (fun ts : Q * Q => now - fst ts <= 60) l).
  { induction l as [|ts l [IH | IH]].
    - left. constructor.
    - destruct (Qlt_le_dec 60 (now - fst ts)) as [Hts | Hts].
      + left. constructor; assumption.
      + right. apply Exists_cons_hd. exact Hts.
    - right. apply Exists_cons_tl. exact IH. }
  destruct (Hcases (MultiWindowSpeedTracker._samples tr)) as [Hf | He].
  - rewrite (Hold Hf). lra.
  - apply (Hnew He).
Qed.

Lemma weighted_avg_nonneg_witness :
  0 <= MultiWindowSpeedTracker.get_weighted_avg window_sample 4 "steady".
Proof.
  apply (weighted_avg_nonneg window_sample 4 "steady").
  vm_compute. repeat constructor; discriminate.
Defined.

(** ** The controller: smoothing and caps *)

Lemma py_int_floor (q : Q) : 0 <= q -> Py.int q = Qfloor q.
Proof.
  intros Hq. destruct q as [n d]. unfold Py.int, Qfloor. cbn [Qnum Qden].
  apply Z.quot_div_nonneg; [|lia].
  unfold Qle in Hq. cbn in Hq. lia.
Qed.

Lemma py_int_between (q : Q) (lo hi : Z) :
  (0 <= lo)%Z -> inject_Z lo <= q <= inject_Z hi ->
  (lo <= Py.int q <= hi)%Z.
Proof.
  intros Hlo [Hl Hh].
  assert (Hq : 0 <= q).
  { assert (0 <= inject_Z lo)
      by (change 0 with (inject_Z 0); rewrite <- Zle_Qle; exact Hlo). lra. }
  rewrite py_int_floor by exact Hq. split.
  - rewrite <- (Qfloor_Z lo). apply Qfloor_resp_le. exact Hl.
  - rewrite <- (Qfloor_Z hi). apply Qfloor_resp_le. exact Hh.
Qed.

(** A weighted mean of two numbers lies between them. *)
Lemma blend_between (f a b : Q) :
  0 <= f <= 1 ->
  Py.min a b <= (1 - f) * a + f * b
  /\ (1 - f) * a + f * b <= Py.max a b.
Proof.
  intros [Hf0 Hf1].
  assert (E : (1 - f) * a + f * b == a + f * (b - a)) by ring.
  rewrite E.
  destruct (Qlt_le_dec a b) as [Hab|Hba].
  - assert (0 <= f * (b - a)) by (apply Qmult_le_0_compat; lra).
    assert (0 <= (1 - f) * (b - a)) by (apply Qmult_le_0_compat; lra).
    destruct (min_cases a b) as [[? ->]|[? ->]];
      destruct (max_cases a b) as [[? ->]|[? ->]]; lra.
  - assert (0 <= f * (a - b)) by (apply Qmult_le_0_compat; lra).
    assert (0 <= (1 - f) * (a - b)) by (apply Qmult_le_0_compat; lra).
    destruct (min_cases a b) as [[? ->]|[? ->]];
      destruct (max_cases a b) as [[? ->]|[? ->]]; lra.
Qed.

Lemma inject_Z_min_max (a b : Z) :
  inject_Z (Z.min a b) <= Py.min (inject_Z a) (inject_Z b)
  /\ Py.max (inject_Z a) (inject_Z b) <= inject_Z (Z.max a b).
Proof.
  split.
  - destruct (min_cases (inject_Z a) (inject_Z b)) as [[_ ->]|[_ ->]];
      rewrite <- Zle_Qle; lia.
  - destruct (max_cases (inject_Z a) (inject_Z b)) as [[_ ->]|[_ ->]];
      rewrite <- Zle_Qle; lia.
Qed.

(** [_smooth] stores what it returns and keeps the tuning. *)
Lemma smooth_stores self new_limit phase :
  PrecisionLimitController._smooth_limit
    (fst (PrecisionLimitController._smooth self new_limit phase))
  = snd (PrecisionLimitController._smooth self new_limit phase)
  /\ PrecisionLimitController.tuning
       (fst (PrecisionLimitController._smooth self new_limit phase))
     = PrecisionLimitController.tuning self.
Proof.
  unfold PrecisionLimitController._smooth. cbv zeta.
  destruct (_ || _ || _); [split; reflexivity|].
  destruct (Py.ltb _ 0.2); split; reflexivity.
Qed.

(** The value of [_smooth]: the command itself, or, for a positive
    command after a positive cap, a value between the two. *)
Lemma smooth_value self new_limit phase :
  let prev := PrecisionLimitController._smooth_limit self in
  let v := snd (PrecisionLimitController._smooth self new_limit phase) in
  v = new_limit
  \/ ((0 < new_limit)%Z /\ (0 < prev)%Z
      /\ (Z.min prev new_limit <= v <= Z.max prev new_limit)%Z).
Proof.
  cbv zeta. unfold PrecisionLimitController._smooth. cbv zeta.
  destruct (_ || _ || _) eqn:Hpass; [left; reflexivity|].
  apply orb_false_iff in Hpass as [Hpass _].
  apply orb_false_iff in Hpass as [Hnew Hprev].
  apply Z.leb_gt in Hnew, Hprev.
  destruct (Py.ltb _ 0.2); [left; reflexivity|].
  right. cbn [snd]. split; [exact Hnew|]. split; [exact Hprev|].
  set (factor := if Py.leb 0.5 _ then 0.5 else 0.3).
  assert (Hf : 0 <= factor <= 1)
    by (unfold factor; destruct (Py.leb 0.5 _); lra).
  apply py_int_between; [lia|].
  pose proof (blend_between factor
                (inject_Z (PrecisionLimitController._smooth_limit self))
                (inject_Z new_limit) Hf) as [Hlo Hhi].
  pose proof (inject_Z_min_max
                (PrecisionLimitController._smooth_limit self) new_limit)
    as [Hmin Hmax].
  lra.
Qed.

(** X4. [_smooth] stores what it returns. A command that is not positive,
    a first command, and any command in FINISH pass through unchanged;
    otherwise the result lies between the previous smoothed cap and the
    command. *)
Theorem smooth_between_previous_and_new :
  forall (self : PrecisionLimitController.t) (new_limit : Z) (phase : string),
    let prev := PrecisionLimitController._smooth_limit self in
    let self' := fst (PrecisionLimitController._smooth self new_limit phase) in
    let v := snd (PrecisionLimitController._smooth self new_limit phase) in
    PrecisionLimitController._smooth_limit self' = v
    /\ PrecisionLimitController.tuning self'
       = PrecisionLimitController.tuning self
    /\ ((new_limit <= 0)%Z \/ (prev <= 0)%Z \/ phase = "finish"%string ->
        v = new_limit)
    /\ ((0 < new_limit)%Z /\ (0 < prev)%Z ->
        (Z.min prev new_limit <= v <= Z.max prev new_limit)%Z).
Proof.
  intros self new_limit phase. cbv zeta.
  destruct (smooth_stores self new_limit phase) as [Hstore Htun].
  split; [exact Hstore|]. split; [exact Htun|]. split.
  - intros Hpass.
    destruct (smooth_value self new_limit phase) as [Hv | (Hn & Hp & _)];
      [exact Hv|].
    destruct Hpass as [H | [H | ->]]; [lia | lia |].
    unfold PrecisionLimitController._smooth. cbv zeta.
    rewrite orb_true_r. reflexivity.
  - intros _.
    destruct (smooth_value self new_limit phase) as [-> | (_ & _ & Hb)];
      [lia | exact Hb].
Qed.

Lemma smooth_between_witness :
  snd (PrecisionLimitController._smooth controller_capped 20000 "steady")
  = 15000%Z
  /\ (10000 <= snd (PrecisionLimitController._smooth controller_capped 20000
                      "steady") <= 20000)%Z.
Proof.
  split; [vm_compute; reflexivity|].
  apply (smooth_between_previous_and_new controller_capped 20000 "steady").
  split; reflexivity.
Defined.

Lemma quantize_cap (limit : Z) phase current_speed target tuning trend :
  (0 < limit)%Z ->
  (min_limit tuning
   <= AdaptiveQuantizer.quantize limit phase current_speed target tuning
        trend)%Z.
Proof.
  intros Hl. unfold AdaptiveQuantizer.quantize.
  destruct (limit <=? 0)%Z eqn:E; [apply Z.leb_le in E; lia|].
  cbv zeta. lia.
Qed.

Lemma smooth_inv self new_limit phase :
  ctrl_inv self ->
  (new_limit <= 0 \/ min_limit (PrecisionLimitController.tuning self)
                     <= new_limit)%Z ->
  ctrl_inv (fst (PrecisionLimitController._smooth self new_limit phase))
  /\ (snd (PrecisionLimitController._smooth self new_limit phase) <= 0
      \/ min_limit (PrecisionLimitController.tuning self)
         <= snd (PrecisionLimitController._smooth self new_limit phase))%Z.
Proof.
  intros Hinv Hnew.
  destruct (smooth_stores self new_limit phase) as [Hstore Htun].
  unfold ctrl_inv in *. rewrite Hstore, Htun.
  pose proof (smooth_value self new_limit phase) as Hv. cbv zeta in Hv.
  set (v := snd (PrecisionLimitController._smooth self new_limit phase)) in *.
  assert (Hcap : (v <= 0
                  \/ min_limit (PrecisionLimitController.tuning self) <= v)%Z).
  { destruct Hv as [-> | (Hn & Hp & Hb)]; [exact Hnew|]. right. lia. }
  split; exact Hcap.
Qed.

(** One [calculate]: the tuning stays, the invariant stays, and a
    positive cap is at least the minimum. *)
Lemma calculate_cap self target uploaded time_left elapsed phase now
    precision_adj self' limit reason debug :
  ctrl_inv self ->
  PrecisionLimitController.calculate self target uploaded time_left elapsed
    phase now precision_adj = Some (self', (limit, reason, debug)) ->
  ctrl_inv self'
  /\ PrecisionLimitController.tuning self' = PrecisionLimitController.tuning self
  /\ (limit <= 0 \/ min_limit (PrecisionLimitController.tuning self) <= limit)%Z.
Proof.
  intros Hinv. unfold PrecisionLimitController.calculate. cbv zeta.
  destruct (Py.leb time_left 0).
  { intros [= <- <- _ _]. split; [exact Hinv|]. split; [reflexivity|]. lia. }
  destruct (PIDController.set_phase _ _ _) as [pid1|]; [|discriminate].
  destruct (PIDController.update pid1 _ _ _) as [pid2 pid_output].
  match goal with
  | |- context [let '(l, r) := ?e in _] => destruct e as [limit0 reason0]
  end.
  set (new_limit := if (0 <? limit0)%Z then _ else limit0).
  set (self1 := {| PrecisionLimitController.tuning := _;
                   PrecisionLimitController.kalman := _;
                   PrecisionLimitController.speed_tracker := _;
                   PrecisionLimitController.pid := pid2;
                   PrecisionLimitController._smooth_limit := _ |}).
  assert (Hnew : (new_limit <= 0
                  \/ min_limit (PrecisionLimitController.tuning self1)
                     <= new_limit)%Z).
  { unfold new_limit. destruct (0 <? limit0)%Z eqn:E.
    - right. apply quantize_cap. apply Z.ltb_lt. exact E.
    - left. apply Z.ltb_ge. exact E. }
  assert (Hinv1 : ctrl_inv self1) by exact Hinv.
  pose proof (smooth_inv self1 new_limit phase Hinv1 Hnew) as [Hinv2 Hv].
  pose proof (smooth_stores self1 new_limit phase) as [_ Htun].
  destruct (PrecisionLimitController._smooth self1 new_limit phase)
    as [self2 v].
  cbn [fst snd] in *. intros [= <- <- _ _].
  split; [exact Hinv2|]. split; [exact Htun|exact Hv].
Qed.

Lemma ctrl_step_inv tuning cl c :
  (ctrl_inv (fst cl)
   /\ PrecisionLimitController.tuning (fst cl) = tuning
   /\ Forall (fun cap => cap <= 0 \/ min_limit tuning <= cap)%Z (snd cl)) ->
  (ctrl_inv (fst (ctrl_step cl c))
   /\ PrecisionLimitController.tuning (fst (ctrl_step cl c)) = tuning
   /\ Forall (fun cap => cap <= 0 \/ min_limit tuning <= cap)%Z
        (snd (ctrl_step cl c))).
Proof.
  destruct cl as [self caps]. cbn [fst snd]. intros (Hinv & Htun & Hcaps).
  destruct c as [now speed | target uploaded time_left elapsed phase now adj |];
    cbn [ctrl_step].
  - cbn [fst snd]. repeat split; assumption.
  - destruct (PrecisionLimitController.calculate _ _ _ _ _ _ _ _)
      as [[self' [[limit reason] debug]]|] eqn:E;
      [|cbn [fst snd]; repeat split; assumption].
    destruct (calculate_cap _ _ _ _ _ _ _ _ _ _ _ _ Hinv E)
      as (Hinv' & Htun' & Hcap).
    cbn [fst snd]. split; [exact Hinv'|]. split; [congruence|].
    constructor; [rewrite <- Htun; exact Hcap | exact Hcaps].
  - cbn [fst snd]. split; [left; cbn; lia|]. split; [exact Htun|exact Hcaps].
Qed.

(** X5. Whatever is recorded, calculated and reset on a fresh controller,
    every cap that [calculate] returns is either not positive (no cap)
    or at least the tuning's minimum. *)
Theorem calculate_caps_at_least_min_limit :
  forall (tuning : EngineTuning) (calls : list ctrl_call),
    Forall (fun cap => cap <= 0 \/ min_limit tuning <= cap)%Z
           (snd (ctrl_run tuning calls)).
Proof.
  intros tuning calls. unfold ctrl_run.
  assert (H : ctrl_inv (fst (PrecisionLimitController.__init__ tuning,
                             @nil Z))
              /\ PrecisionLimitController.tuning
                   (fst (PrecisionLimitController.__init__ tuning, @nil Z))
                 = tuning
              /\ Forall (fun cap => cap <= 0 \/ min_limit tuning <= cap)%Z
                   (snd (PrecisionLimitController.__init__ tuning, @nil Z))).
  { cbn [fst snd]. split; [left; cbn; lia|]. split; [reflexivity|constructor]. }
  revert H. generalize (PrecisionLimitController.__init__ tuning, @nil Z).
  induction calls as [|c calls IH]; intros cl H; cbn [fold_left].
  - apply H.
  - apply IH, ctrl_step_inv, H.
Qed.

(** X6. Every lookup of the gains falls back on the entry for STEADY,
    and the fallback is looked up whether it is needed or not: with a
    PID table that has no such entry, [calculate] raises whenever time
    is left, also for a phase that has an entry of its own. *)
Theorem calculate_raises_without_steady_gains :
  forall (self : PrecisionLimitController.t) (target : Q) (uploaded : Z)
         (time_left elapsed : Q) (phase : string) (now precision_adj : Q),
    0 < time_left ->
    pid_params (PrecisionLimitController.tuning self) !! "steady"%string
    = None ->
    PrecisionLimitController.calculate self target uploaded time_left elapsed
      phase now precision_adj = None.
Proof.
  intros self target uploaded time_left elapsed phase now precision_adj
         Htl Hs.
  unfold PrecisionLimitController.calculate. cbv zeta.
  destruct (Py.leb time_left 0) eqn:E; [apply leb_true in E; lra|].
  unfold PIDController.set_phase. rewrite Hs. reflexivity.
Qed.

Lemma calculate_raises_witness :
  pid_params tuning_no_steady !! "catch"%string
  = pid_params PrecisionLimitEngine.the_tuning !! "catch"%string
  /\ PrecisionLimitController.calculate
       (PrecisionLimitController.__init__ tuning_no_steady)
       52428800 1000 1500 300 "catch" 1300 1 = None.
Proof.
  split; [vm_compute; reflexivity|].
  apply (calculate_raises_without_steady_gains
           (PrecisionLimitController.__init__ tuning_no_steady)
           52428800 1000 1500 300 "catch" 1300 1).
  - reflexivity.
  - vm_compute. reflexivity.
Defined.

(** ** The upload cap of the engine *)

Lemma phase_based_limit_cap tuning tracker state total_uploaded progress tl
    now :
  min_limit tuning = LimitConfig.MIN_LIMIT ->
  state_ctrl_ok state ->
  let r := PrecisionLimitEngine.phase_based_limit tuning tracker state
             total_uploaded progress tl now in
  state_ctrl_ok (fst r)
  /\ forall cap reason,
       snd r = Some (cap, reason) ->
       (cap <= 0 \/ 4096 <= cap)%Z
       /\ (0.9 < progress -> tl < 30 -> (0 <= cap)%Z).
Proof.
  intros Hmin Hok. cbv zeta. unfold PrecisionLimitEngine.phase_based_limit.
  cbv zeta.
  set (controller := match TorrentLimitState.limit_controller state with
                     | Some c => c
                     | None => PrecisionLimitController.__init__ tuning
                     end).
  assert (Hc : ctrl_inv controller
               /\ min_limit (PrecisionLimitController.tuning controller)
                  = LimitConfig.MIN_LIMIT).
  { unfold controller, state_ctrl_ok in *.
    destruct (TorrentLimitState.limit_controller state) as [c|];
      [exact Hok|]. split; [left; cbn; lia | exact Hmin]. }
  destruct Hc as [Hinv Hcmin].
  destruct (PrecisionLimitController.calculate controller _ _ _ _ _ _ _)
    as [[controller' [[limit reason] debug]]|] eqn:E.
  - destruct (calculate_cap _ _ _ _ _ _ _ _ _ _ _ _ Hinv E)
      as (Hinv' & Htun' & Hcap).
    rewrite Hcmin in Hcap. unfold LimitConfig.MIN_LIMIT in Hcap.
    assert (Hok' : state_ctrl_ok
                     (TorrentLimitState.set_last_debug
                        (TorrentLimitState.set_limit_controller state
                           (Some controller')) debug)).
    { unfold state_ctrl_ok. cbn. split; [exact Hinv'|congruence]. }
    destruct (_ && _ && _) eqn:Hprot; cbn [fst snd].
    + split; [exact Hok'|]. intros cap r [= <- _].
      unfold LimitConfig.MIN_LIMIT. split; [right|intros _ _]; lia.
    + split; [exact Hok'|]. intros cap r [= <- _]. split; [exact Hcap|].
      intros Hp Htl.
      assert (H1 : Py.ltb LimitConfig.PROGRESS_PROTECT progress = true)
        by (apply ltb_true; unfold LimitConfig.PROGRESS_PROTECT; lra).
      assert (H2 : Py.ltb tl 30 = true) by (apply ltb_true; exact Htl).
      rewrite H1, H2 in Hprot. cbn in Hprot. rewrite andb_true_r in Hprot.
      apply Z.ltb_ge in Hprot. exact Hprot.
  - cbn [fst snd]. split; [|discriminate].
    unfold state_ctrl_ok. cbn. split; assumption.
Qed.

(** X7. For a state whose controller is in order, every upload cap that
    [_calculate_upload_limit] returns is -1 or 0 or at least
    [MIN_LIMIT] = 4096, and the controller it leaves is in order again.
    Near completion (progress above 0.9, less than 30 s left) an engine
    that is not paused never returns a negative cap. *)
Theorem upload_cap_none_or_at_least_min :
  forall (self : PrecisionLimitEngine.t) (tracker : PrecisionTracker.t)
         (state : TorrentLimitState.t) (total_uploaded : Z)
         (up_speed progress tl now : Q),
    min_limit (PrecisionLimitEngine._tuning self) = LimitConfig.MIN_LIMIT ->
    state_ctrl_ok state ->
    let r := PrecisionLimitEngine._calculate_upload_limit self tracker state
               total_uploaded up_speed progress tl now in
    state_ctrl_ok (fst r)
    /\ forall cap reason,
         snd r = Some (cap, reason) ->
         (cap <= 0 \/ 4096 <= cap)%Z
         /\ (PrecisionLimitEngine.paused self = false ->
             0.9 < progress -> tl < 30 -> (0 <= cap)%Z).
Proof.
  intros self tracker state total_uploaded up_speed progress tl now Hmin Hok.
  cbv zeta. unfold PrecisionLimitEngine._calculate_upload_limit.
  destruct (PrecisionLimitEngine.paused self).
  { cbn [fst snd]. split; [exact Hok|]. intros cap r [= <- _].
    split; [left; lia | discriminate]. }
  destruct (Py.ltb _ _).
  { cbn [fst snd]. split; [exact Hok|]. intros cap r [= <- _].
    unfold LimitConfig.MIN_LIMIT. split; [right|intros _ _ _]; lia. }
  destruct (TorrentLimitState.waiting_reannounce state).
  { cbn [fst snd]. split; [exact Hok|]. intros cap r [= <- _].
    unfold LimitConfig.REANNOUNCE_WAIT_LIMIT.
    split; [right|intros _ _ _]; lia. }
  pose proof (phase_based_limit_cap _ tracker state total_uploaded progress tl
                now Hmin Hok) as H.
  cbv zeta in H. destruct H as [Hok' Hcap]. split; [exact Hok'|].
  intros cap r Hr. destruct (Hcap cap r Hr) as [H1 H2]. split; [exact H1|].
  intros _. exact H2.
Qed.

Lemma upload_cap_witness :
  snd (PrecisionLimitEngine._calculate_upload_limit engine_running
         PrecisionTracker.__init__ state_session 1000 0 0.95 20 2780)
  = Some (52428800%Z, "W:预热+保"%string)
  /\ (52428800 <= 0 \/ 4096 <= 52428800)%Z.
Proof.
  assert (E : snd (PrecisionLimitEngine._calculate_upload_limit engine_running
                     PrecisionTracker.__init__ state_session 1000 0
                     0.95 20 2780)
              = Some (52428800%Z, "W:预热+保"%string))
    by (vm_compute; reflexivity).
  split; [exact E|].
  pose proof (upload_cap_none_or_at_least_min engine_running
                PrecisionTracker.__init__ state_session 1000 0 0.95 20 2780
                eq_refl I) as H.
  cbv zeta in H. destruct H as [_ H].
  apply (H 52428800%Z "W:预热+保"%string E).
Defined.

(** ** More on the PID controller and the Kalman filter *)

Lemma pid_step_integral so c :
  (PIDController._integral_limit (fst so) = 0.3
   /\ - 0.3 <= PIDController._integral (fst so) <= 0.3) ->
  PIDController._integral_limit (fst (pid_step so c)) = 0.3
  /\ - 0.3 <= PIDController._integral (fst (pid_step so c)) <= 0.3.
Proof.
  destruct so as [self outs]. cbn [fst]. intros [Hlim Hint].
  destruct c as [phase params | target actual now |]; cbn [pid_step].
  - unfold PIDController.set_phase.
    destruct (params !! "steady"%string); cbn [default fst]; auto.
  - unfold PIDController.update. cbv zeta.
    destruct (negb _); [cbn [fst]; auto|].
    destruct (Py.leb _ _); cbn [fst PIDController._integral_limit
                                PIDController._integral]; [auto|].
    split; [exact Hlim|]. rewrite Hlim. apply clamp_bounds. lra.
  - cbn [fst PIDController.reset PIDController._integral_limit
         PIDController._integral]. split; [exact Hlim | lra].
Qed.

(** X8. The integral term cannot wind up: after any calls on a fresh
    controller the accumulated error is within +-0.3, so the I term is
    at most 0.3 times the gain. *)
Theorem pid_integral_bounded :
  forall calls : list pid_call,
    - 0.3 <= PIDController._integral (fst (pid_run calls)) <= 0.3.
Proof.
  intros calls. unfold pid_run.
  assert (H : PIDController._integral_limit
                (fst (PIDController.__init__, @nil Q)) = 0.3
              /\ - 0.3 <= PIDController._integral
                            (fst (PIDController.__init__, @nil Q)) <= 0.3)
    by (cbn; split; [reflexivity | lra]).
  revert H. generalize (PIDController.__init__, @nil Q).
  induction calls as [|c calls IH]; intros so H; cbn [fold_left].
  - apply H.
  - apply IH, pid_step_integral, H.
Qed.

(** X9. One update never leaves the range spanned by the old estimate, the
    prediction and the measurement: the new speed is the measurement
    (first update), the old speed (update skipped) or a weighted mean of
    prediction and measurement with a gain in [0, 1]. *)
Theorem kalman_speed_within_range :
  forall (q_speed q_accel r : Q) (ms : list (Q * Q)) (measurement now : Q)
         (lo hi : Q),
    0 <= q_speed -> 0 <= q_accel -> 0 < r ->
    let k := kalman_run (ExtendedKalman.__init__ q_speed q_accel r) ms in
    lo <= measurement <= hi ->
    lo <= ExtendedKalman.speed k <= hi ->
    lo <= ExtendedKalman.speed k
          + ExtendedKalman.accel k * (now - ExtendedKalman._last_time k)
       <= hi ->
    lo <= ExtendedKalman.speed (fst (ExtendedKalman.update k measurement now))
       <= hi.
Proof.
  intros q_speed q_accel r ms measurement now lo hi Hq Hqa Hr k Hm Hs Hp.
  assert (Hinv : kalman_inv k)
    by (apply kalman_run_inv, kalman_init_inv; assumption).
  unfold ExtendedKalman.update. cbv zeta.
  destruct (negb (ExtendedKalman._initialized k)); [exact Hm|].
  destruct (Py.leb _ _); [exact Hs|].
  destruct (Py.ltb _ _); [exact Hs|].
  destruct Hinv as (Hr' & Hq' & Hqa' & Hsym & H00 & H11 & Hdet).
  cbn [fst ExtendedKalman.speed]. rewrite !Hsym.
  set (dt := now - ExtendedKalman._last_time k) in *.
  destruct (kalman_predict_psd _ _ _ dt _ _ H00 H11 Hdet Hq' Hqa')
    as (Ha & Hc & Hdet').
  destruct (kalman_gain_psd _ _ _ _ Ha Hc Hdet' Hr') as ([Hk0 Hk1] & _).
  cbv zeta in Hk0, Hk1.
  set (k0 := _ / _) in *.
  set (pred := ExtendedKalman.speed k + ExtendedKalman.accel k * dt) in *.
  assert (E : pred + k0 * (measurement - pred)
              == (1 - k0) * pred + k0 * measurement) by ring.
  rewrite E.
  assert (0 <= (1 - k0) * (pred - lo)) by (apply Qmult_le_0_compat; lra).
  assert (0 <= k0 * (measurement - lo)) by (apply Qmult_le_0_compat; lra).
  assert (0 <= (1 - k0) * (hi - pred)) by (apply Qmult_le_0_compat; lra).
  assert (0 <= k0 * (hi - measurement)) by (apply Qmult_le_0_compat; lra).
  split; lra.
Qed.

Lemma kalman_speed_within_range_witness :
  900000 <= ExtendedKalman.speed
              (fst (ExtendedKalman.update
                      (kalman_run kalman_engine [(1000000, 1); (1000000, 2)])
                      900000 3))
         <= 1000000.
Proof.
  apply (kalman_speed_within_range 0.1 0.05 0.5
           [(1000000, 1); (1000000, 2)] 900000 3 900000 1000000);
    vm_compute; first [reflexivity | split; discriminate | discriminate].
Defined.

Lemma kalman_const_step (m : Q) k z now :
  z == m ->
  ExtendedKalman.accel k == 0 ->
  (ExtendedKalman._initialized k = true -> ExtendedKalman.speed k == m) ->
  let k' := fst (ExtendedKalman.update k z now) in
  ExtendedKalman._initialized k' = true
  /\ ExtendedKalman.accel k' == 0
  /\ ExtendedKalman.speed k' == m.
Proof.
  intros Hz Ha Hs. cbv zeta. unfold ExtendedKalman.update. cbv zeta.
  destruct (ExtendedKalman._initialized k) eqn:Hinit; cbn [negb].
  - specialize (Hs eq_refl).
    destruct (Py.leb _ _); [cbn [fst]; auto|].
    destruct (Py.ltb _ _);
      cbn [fst ExtendedKalman._initialized ExtendedKalman.accel
           ExtendedKalman.speed]; [auto|].
    split; [reflexivity|]. rewrite Hz, Hs, Ha. split; ring.
  - cbn [fst ExtendedKalman._initialized ExtendedKalman.accel
         ExtendedKalman.speed]. auto.
Qed.

(** X10. A speed that does not change is tracked exactly: after one or more
    updates of a fresh filter that all measured [m], the estimate is [m]
    and the acceleration 0, whatever the times of the updates. *)
Theorem kalman_tracks_constant_speed :
  forall (q_speed q_accel r m : Q) (ms : list (Q * Q)),
    ms <> [] ->
    Forall (fun mn : Q * Q => fst mn == m) ms ->
    let k := kalman_run (ExtendedKalman.__init__ q_speed q_accel r) ms in
    ExtendedKalman.speed k == m /\ ExtendedKalman.accel k == 0.
Proof.
  intros q_speed q_accel r m ms Hne Hall. cbv zeta.
  assert (Hgen : forall k,
             ExtendedKalman.accel k == 0 ->
             (ExtendedKalman._initialized k = true ->
              ExtendedKalman.speed k == m) ->
             ms <> [] ->
             ExtendedKalman.speed (kalman_run k ms) == m
             /\ ExtendedKalman.accel (kalman_run k ms) == 0).
  { clear Hne. induction Hall as [|[z now] ms Hz _ IH]; intros k Ha Hs Hne;
      [congruence|].
    cbn [fst] in Hz. cbn [kalman_run fold_left fst snd].
    destruct (kalman_const_step m k z now Hz Ha Hs) as (Hi' & Ha' & Hs').
    destruct ms as [|mn ms'].
    - cbn [fold_left]. auto.
    - apply IH; [exact Ha' | intros _; exact Hs' | discriminate]. }
  apply Hgen; [reflexivity | discriminate | exact Hne].
Qed.

Lemma kalman_tracks_constant_witness :
  ExtendedKalman.speed
    (kalman_run kalman_engine [(5000, 1); (5000, 2); (5000, 7)]) == 5000
  /\ ExtendedKalman.accel
       (kalman_run kalman_engine [(5000, 1); (5000, 2); (5000, 7)]) == 0.
Proof.
  apply (kalman_tracks_constant_speed 0.1 0.05 0.5 5000
           [(5000, 1); (5000, 2); (5000, 7)]).
  - discriminate.
  - repeat constructor.
Defined.

(** ** More on the quantiser *)

(** With the engine's tuning the quantiser rounds with one of the steps
    256, 512, ..., 8192. *)
Lemma quantize_step_form (x : Z) (p : Phase) (current target trend : Q) :
  (0 < x)%Z ->
  exists step : Z,
    (256 | step)%Z /\ (256 <= step <= 8192)%Z
    /\ AdaptiveQuantizer.quantize x (phase_str p) current target
         PrecisionLimitEngine.the_tuning trend
       = Z.max 4096 ((x + step / 2) / step * step)%Z.
Proof.
  intros Hx. unfold AdaptiveQuantizer.quantize. cbv zeta.
  destruct (x <=? 0)%Z eqn:E; [apply Z.leb_le in E; lia|].
  rewrite the_tuning_quant_step. cbn [default].
  change (min_limit PrecisionLimitEngine.the_tuning) with 4096%Z.
  eexists. split; [|split; [|reflexivity]].
  - destruct p; cbn [phase_str spec_base_step];
      repeat match goal with
             | |- context [if ?c then _ else _] => destruct c
             end;
      (apply Z.mod_divide; [lia | vm_compute; reflexivity]).
  - unfold clampZ. lia.
Qed.

(** X11. With the engine's tuning every quantised cap is a multiple of 256,
    and a command of at least 4096 is moved by at most 4096, half the
    largest step. *)
Theorem quantize_on_grid_and_close :
  forall (x : Z) (p : Phase) (current target trend : Q),
    (0 < x)%Z ->
    let q := AdaptiveQuantizer.quantize x (phase_str p) current target
               PrecisionLimitEngine.the_tuning trend in
    (256 | q)%Z /\ ((4096 <= x)%Z -> (Z.abs (q - x) <= 4096)%Z).
Proof.
  intros x p current target trend Hx. cbv zeta.
  destruct (quantize_step_form x p current target trend Hx)
    as (step & [m Hm] & Hrange & ->).
  assert (Hs : (0 < step)%Z) by lia.
  set (r := ((x + step / 2) / step * step)%Z).
  assert (Hr256 : (256 | r)%Z).
  { exists ((x + step / 2) / step * m)%Z. unfold r. rewrite Hm. ring. }
  split.
  - destruct (Z.max_spec 4096 r) as [[_ ->]|[_ ->]];
      [exact Hr256 | exists 16%Z; reflexivity].
  - intros Hx4096.
    assert (Hhalf : (2 * (step / 2) = step)%Z).
    { rewrite Hm. replace (m * 256)%Z with (m * 128 * 2)%Z by ring.
      rewrite Z.div_mul by lia. ring. }
    pose proof (Z.mul_div_le (x + step / 2) step Hs) as Hle.
    pose proof (Z.mul_succ_div_gt (x + step / 2) step Hs) as Hgt.
    assert (Er : r = (step * ((x + step / 2) / step))%Z) by (unfold r; ring).
    lia.
Qed.

Lemma quantize_on_grid_witness :
  AdaptiveQuantizer.quantize 5000 (phase_str STEADY) 100 100
    PrecisionLimitEngine.the_tuning 0 = 5120%Z
  /\ (256 | AdaptiveQuantizer.quantize 5000 (phase_str STEADY) 100 100
              PrecisionLimitEngine.the_tuning 0)%Z.
Proof.
  split; [vm_compute; reflexivity|].
  apply (quantize_on_grid_and_close 5000 STEADY 100 100 0). reflexivity.
Defined.

(** X12. For any tuning and any phase: a command that is not positive comes
    back unchanged, and among positive commands a larger one never gets
    a smaller cap. *)
Theorem quantize_monotone :
  forall (x y : Z) (phase : string) (current target : Q)
         (tuning : EngineTuning) (trend : Q),
    ((x <= 0)%Z ->
     AdaptiveQuantizer.quantize x phase current target tuning trend = x)
    /\ ((0 < x <= y)%Z ->
        (AdaptiveQuantizer.quantize x phase current target tuning trend
         <= AdaptiveQuantizer.quantize y phase current target tuning trend)%Z).
Proof.
  intros x y phase current target tuning trend.
  unfold AdaptiveQuantizer.quantize. cbv zeta. split.
  - intros Hx. apply Z.leb_le in Hx. rewrite Hx. reflexivity.
  - intros [Hx Hxy].
    destruct (x <=? 0)%Z eqn:Ex; [apply Z.leb_le in Ex; lia|].
    destruct (y <=? 0)%Z eqn:Ey; [apply Z.leb_le in Ey; lia|].
    set (step := clampZ _ 256 8192).
    assert (Hs : (0 < step)%Z) by (unfold step, clampZ; lia).
    assert (((x + step / 2) / step <= (y + step / 2) / step)%Z)
      by (apply Z.div_le_mono; lia).
    nia.
Qed.

Lemma quantize_monotone_witness :
  (AdaptiveQuantizer.quantize 5000 "catch" 100 100
     PrecisionLimitEngine.the_tuning 0
   <= AdaptiveQuantizer.quantize 9000 "catch" 100 100
        PrecisionLimitEngine.the_tuning 0)%Z.
Proof.
  apply (quantize_monotone 5000 9000 "catch" 100 100
           PrecisionLimitEngine.the_tuning 0).
  split; [reflexivity | discriminate].
Defined.

(** ** Announce interval, time left and cycles *)

(** X13. The estimated announce interval is 1800, 2700 or 3600 s, and for a
    given reference time it never gets shorter as the clock advances. *)
Theorem announce_interval_buckets :
  forall (time_ref : option Q) (now now' : Q),
    (estimate_announce_interval time_ref now = 1800%Z
     \/ estimate_announce_interval time_ref now = 2700%Z
     \/ estimate_announce_interval time_ref now = 3600%Z)
    /\ (now <= now' ->
        (estimate_announce_interval time_ref now
         <= estimate_announce_interval time_ref now')%Z).
Proof.
  intros time_ref now now'. unfold estimate_announce_interval.
  destruct time_ref as [ref|]; [|split; [auto | intros _; lia]].
  destruct (Py.eqb ref 0); [split; [auto | intros _; lia]|].
  unfold LimitConfig.ANNOUNCE_INTERVAL_NEW, LimitConfig.ANNOUNCE_INTERVAL_WEEK,
    LimitConfig.ANNOUNCE_INTERVAL_OLD.
  split.
  - repeat match goal with
           | |- context [if ?c then _ else _] => destruct c
           end; auto.
  - intros Hnow.
    assert (Hage : Py.max 0 (now - ref) <= Py.max 0 (now' - ref)).
    { destruct (max_cases 0 (now - ref)) as [[? ->]|[? ->]];
        destruct (max_cases 0 (now' - ref)) as [[? ->]|[? ->]]; lra. }
    set (age := Py.max 0 (now - ref)) in *.
    set (age' := Py.max 0 (now' - ref)) in *.
    let H := fresh in cmp_case (Py.ltb age (inject_Z (7 * 86400))) H;
    let H := fresh in cmp_case (Py.ltb age' (inject_Z (7 * 86400))) H;
    let H := fresh in cmp_case (Py.ltb age (inject_Z (30 * 86400))) H;
    let H := fresh in cmp_case (Py.ltb age' (inject_Z (30 * 86400))) H;
      try lia;
      try (exfalso;
           change (inject_Z (7 * 86400)) with 604800 in *;
           change (inject_Z (30 * 86400)) with 2592000 in *; lra).
Qed.

Lemma announce_interval_witness :
  (estimate_announce_interval (Some 1000%Q) 2000%Q
   <= estimate_announce_interval (Some 1000%Q) 700000%Q)%Z.
Proof.
  apply (announce_interval_buckets (Some 1000) 2000 700000).
  vm_compute. discriminate.
Defined.

(** X14. Without an announce time from the site, the time left is
    never negative and never grows as the clock advances. *)
Theorem get_tl_never_increases :
  forall (state : TorrentLimitState.t) (now now' : Q),
    TorrentLimitState.last_announce_time state = None ->
    now <= now' ->
    0 <= TorrentLimitState.get_tl state now'
    /\ TorrentLimitState.get_tl state now'
       <= TorrentLimitState.get_tl state now.
Proof.
  intros state now now' Hnone Hle. unfold TorrentLimitState.get_tl.
  rewrite Hnone. cbv zeta.
  destruct (Py.leb (TorrentLimitState.cache_ts state) 0); [split; lra|].
  set (c := TorrentLimitState.cached_time_left state).
  set (ts := TorrentLimitState.cache_ts state).
  destruct (max_cases 0 (c - (now' - ts))) as [[? ->]|[? ->]];
    destruct (max_cases 0 (c - (now - ts))) as [[? ->]|[? ->]];
    split; lra.
Qed.

Lemma get_tl_never_increases_witness :
  0 <= TorrentLimitState.get_tl state_session 1150
  /\ TorrentLimitState.get_tl state_session 1150
     <= TorrentLimitState.get_tl state_session 1100.
Proof.
  apply (get_tl_never_increases state_session 1100 1150).
  - reflexivity.
  - vm_compute. discriminate.
Defined.

Lemma py_int_nonpos (q : Q) : q <= 0 -> (Py.int q <= 0)%Z.
Proof.
  intros Hq. destruct q as [n d]. unfold Py.int. cbn [Qnum Qden].
  unfold Qle in Hq. cbn in Hq.
  assert (Hn : (n <= 0)%Z) by lia.
  replace n with (- (- n))%Z by lia.
  rewrite Z.quot_opp_l by lia.
  pose proof (Z.quot_pos (- n) (Z.pos d) ltac:(lia) ltac:(lia)). lia.
Qed.

Lemma py_int_le (q : Q) (hi : Z) :
  (0 <= hi)%Z -> q <= inject_Z hi -> (Py.int q <= hi)%Z.
Proof.
  intros Hhi Hq. destruct (Qlt_le_dec q 0) as [Hneg|Hpos].
  - pose proof (py_int_nonpos q ltac:(lra)). lia.
  - rewrite py_int_floor by exact Hpos.
    rewrite <- (Qfloor_Z hi). apply Qfloor_resp_le. exact Hq.
Qed.

(** X15. [new_cycle] advances the cycle index by one, starts the cycle at
    [now], and sets a baseline between 0 and the upload counter, so the
    upload of the new cycle is not negative and not more than the
    counter; a jump sets the baseline to the counter itself. The caps
    and flags of the old cycle are cleared. *)
Theorem new_cycle_baseline :
  forall (state : TorrentLimitState.t) (now : Q) (uploaded : Z) (tl : Q)
         (is_jump : bool),
    (0 <= uploaded)%Z ->
    let s := TorrentLimitState.new_cycle state now uploaded tl is_jump in
    TorrentLimitState.cycle_index s
    = (TorrentLimitState.cycle_index state + 1)%Z
    /\ TorrentLimitState.cycle_start s = now
    /\ (0 <= TorrentLimitState.cycle_uploaded_start s <= uploaded)%Z
    /\ (is_jump = true -> TorrentLimitState.cycle_uploaded_start s = uploaded)
    /\ TorrentLimitState.last_dl_limit s = (-1)%Z
    /\ TorrentLimitState.dl_limited_this_cycle s = false
    /\ TorrentLimitState.reannounced_this_cycle s = false
    /\ TorrentLimitState.speed_tracker s = SpeedTracker.__init__.
Proof.
  intros state now uploaded tl is_jump Hup. cbv zeta.
  unfold TorrentLimitState.new_cycle. cbv zeta.
  cbn [TorrentLimitState.cycle_index TorrentLimitState.cycle_start
       TorrentLimitState.cycle_uploaded_start TorrentLimitState.last_dl_limit
       TorrentLimitState.dl_limited_this_cycle
       TorrentLimitState.reannounced_this_cycle
       TorrentLimitState.speed_tracker].
  split; [reflexivity|]. split; [reflexivity|]. split; [|split].
  - destruct is_jump; [lia|].
    set (elapsed := if Py.ltb 0 tl && _ then _ else 0).
    set (avg := match TorrentLimitState.limit_controller state with
                | Some c => _
                | None => 0
                end).
    destruct (negb _ && _); [lia|].
    destruct (Py.ltb 60 elapsed) eqn:Helapsed; [|lia].
    apply ltb_true in Helapsed.
    destruct (Py.ltb 0 avg) eqn:Havg; [|lia].
    apply ltb_true in Havg.
    split; [lia|]. apply Z.max_lub; [exact Hup|].
    apply py_int_le; [exact Hup|].
    assert (0 <= avg * elapsed) by (apply Qmult_le_0_compat; lra). lra.
  - intros ->. reflexivity.
  - repeat split.
Qed.

Lemma new_cycle_baseline_witness :
  let s := TorrentLimitState.new_cycle state_session 2800 5000000 1800 true in
  TorrentLimitState.cycle_index s = 2%Z
  /\ TorrentLimitState.cycle_uploaded_start s = 5000000%Z.
Proof.
  cbv zeta.
  pose proof (new_cycle_baseline state_session 2800 5000000 1800 true
                ltac:(discriminate)) as H.
  cbv zeta in H. destruct H as (Hi & _ & _ & Hj & _).
  split; [exact Hi | exact (Hj eq_refl)].
Defined.

Lemma cycle_run_step s now uploaded tl is_jump (n j : nat) :
  (TorrentLimitState.cycle_index s = Z.of_nat n
   /\ TorrentLimitState.jump_count s = Z.of_nat j
   /\ (TorrentLimitState.cycle_synced s = true ->
       (2 <= TorrentLimitState.jump_count s)%Z
       /\ 60 < TorrentLimitState.cycle_interval s)) ->
  let s' := TorrentLimitState.new_cycle s now uploaded tl is_jump in
  TorrentLimitState.cycle_index s' = Z.of_nat (S n)
  /\ TorrentLimitState.jump_count s'
     = Z.of_nat (if is_jump then S j else j)
  /\ (TorrentLimitState.cycle_synced s' = true ->
      (2 <= TorrentLimitState.jump_count s')%Z
      /\ 60 < TorrentLimitState.cycle_interval s').
Proof.
  intros (Hn & Hj & Hsync). cbv zeta. unfold TorrentLimitState.new_cycle.
  cbv zeta.
  cbn [TorrentLimitState.cycle_index TorrentLimitState.jump_count
       TorrentLimitState.cycle_synced TorrentLimitState.cycle_interval].
  split; [lia|]. split; [destruct is_jump; lia|].
  destruct is_jump; cbn [andb].
  - destruct (Py.ltb 0 (TorrentLimitState.last_jump s)); cbn [andb].
    + destruct (Py.ltb 60 _) eqn:Hint; cbn [andb].
      * apply ltb_true in Hint.
        destruct (2 <=? _)%Z eqn:H2.
        -- intros _. apply Z.leb_le in H2. split; [exact H2 | exact Hint].
        -- intros Hs. destruct (Hsync Hs). split; [lia | exact Hint].
      * intros Hs. destruct (Hsync Hs). split; [lia | assumption].
    + intros Hs. destruct (Hsync Hs). split; [lia | assumption].
  - exact Hsync.
Qed.

(** X16. Over any run of [new_cycle] calls on a state as the dataclass makes
    it: the cycle index counts the calls, the jump count counts the
    jumps, and the state is marked synced only after at least two jumps,
    with a measured interval of more than 60 s. *)
Theorem cycle_run_counts_and_sync :
  forall (h : string) (cycles : list (Q * Z * Q * bool)),
    let s := cycle_run (TorrentLimitState.__init__ h) cycles in
    TorrentLimitState.cycle_index s = Z.of_nat (length cycles)
    /\ TorrentLimitState.jump_count s
       = Z.of_nat (length (filter (fun c : Q * Z * Q * bool => snd c = true)
                                  cycles))
    /\ (TorrentLimitState.cycle_synced s = true ->
        (2 <= TorrentLimitState.jump_count s)%Z
        /\ 60 < TorrentLimitState.cycle_interval s).
Proof.
  intros h cycles. cbv zeta. unfold cycle_run.
  assert (Hgen : forall (cs : list (Q * Z * Q * bool)) s (n j : nat),
             (TorrentLimitState.cycle_index s = Z.of_nat n
              /\ TorrentLimitState.jump_count s = Z.of_nat j
              /\ (TorrentLimitState.cycle_synced s = true ->
                  (2 <= TorrentLimitState.jump_count s)%Z
                  /\ 60 < TorrentLimitState.cycle_interval s)) ->
             let s' := fold_left
                         (fun s (c : Q * Z * Q * bool) =>
                            TorrentLimitState.new_cycle s (fst (fst (fst c)))
                              (snd (fst (fst c))) (snd (fst c)) (snd c))
                         cs s in
             TorrentLimitState.cycle_index s' = Z.of_nat (n + length cs)
             /\ TorrentLimitState.jump_count s'
                = Z.of_nat (j + length (filter
                                          (fun c : Q * Z * Q * bool =>
                                             snd c = true) cs))
             /\ (TorrentLimitState.cycle_synced s' = true ->
                 (2 <= TorrentLimitState.jump_count s')%Z
                 /\ 60 < TorrentLimitState.cycle_interval s')).
  { induction cs as [|[[[now uploaded] tl] is_jump] cs IH]; intros s n j H.
    - cbn [fold_left length filter]. rewrite !Nat.add_0_r. exact H.
    - cbn [fold_left fst snd].
      pose proof (cycle_run_step s now uploaded tl is_jump n j H) as H'.
      cbv zeta in H'. specialize (IH _ _ _ H'). cbv zeta in IH.
      destruct IH as (I1 & I2 & I3). split; [|split; [|exact I3]].
      + rewrite I1. cbn [length]. f_equal. lia.
      + rewrite I2. destruct is_jump.
        * rewrite filter_cons_True by reflexivity. cbn [length]. f_equal. lia.
        * rewrite filter_cons_False by discriminate. reflexivity. }
  apply (Hgen cycles (TorrentLimitState.__init__ h) 0%nat 0%nat).
  cbn. repeat split; discriminate.
Qed.

(** ** More on the download limiter *)

(** X17. A download cap is imposed or kept only while the download is
    incomplete, the cycle is at least 2 s old and its average upload
    speed is above the ceiling. *)
Theorem dl_limit_only_when_over_ceiling :
  forall (state : TorrentLimitState.t) (total_done total_uploaded total_size : Z)
         (dl_speed now : Q),
    (0 < fst (DownloadLimiter.calc_dl_limit state total_done total_uploaded
                total_size dl_speed now))%Z ->
    2 <= TorrentLimitState.this_time state now
    /\ inject_Z LimitConfig.SPEED_LIMIT
       < inject_Z (TorrentLimitState.this_up state total_uploaded)
         / TorrentLimitState.this_time state now
    /\ (total_done < total_size)%Z.
Proof.
  intros state total_done total_uploaded total_size dl_speed now.
  unfold DownloadLimiter.calc_dl_limit. cbv zeta.
  destruct (Py.ltb _ 2) eqn:Htime; [cbn [fst]; lia|].
  apply ltb_false in Htime.
  destruct (Py.leb _ _) eqn:Havg.
  { destruct (0 <? _)%Z; cbn [fst]; lia. }
  apply leb_false in Havg.
  destruct (_ <=? 0)%Z eqn:Hrem; [cbn [fst]; lia|].
  apply Z.leb_gt in Hrem.
  intros _. split; [exact Htime|]. split; [exact Havg | lia].
Qed.

Lemma dl_limit_only_when_over_witness :
  2 <= TorrentLimitState.this_time state_fresh 10
  /\ inject_Z LimitConfig.SPEED_LIMIT
     < inject_Z (TorrentLimitState.this_up state_fresh 629145600)
       / TorrentLimitState.this_time state_fresh 10
  /\ (0 < 104857600)%Z.
Proof.
  apply (dl_limit_only_when_over_ceiling state_fresh 0 629145600 104857600
           10485760 10).
  vm_compute. reflexivity.
Defined.

(** X18. While a download cap of at least 512 KiB/s is in force, the limiter
    never raises it: the caps it returns are at most the current one
    (and otherwise it answers -1, the release or no change). *)
Theorem dl_limit_never_loosens :
  forall (state : TorrentLimitState.t) (total_done total_uploaded total_size : Z)
         (dl_speed now : Q),
    (512 <= TorrentLimitState.last_dl_limit state)%Z ->
    (0 < fst (DownloadLimiter.calc_dl_limit state total_done total_uploaded
                total_size dl_speed now))%Z ->
    (fst (DownloadLimiter.calc_dl_limit state total_done total_uploaded
            total_size dl_speed now)
     <= TorrentLimitState.last_dl_limit state)%Z.
Proof.
  intros state total_done total_uploaded total_size dl_speed now Hlast.
  unfold DownloadLimiter.calc_dl_limit. cbv zeta.
  destruct (Py.ltb _ 2); [cbn [fst]; lia|].
  destruct (Py.leb _ _).
  { destruct (0 <? _)%Z; cbn [fst]; lia. }
  destruct (_ <=? 0)%Z; [cbn [fst]; lia|].
  destruct (TorrentLimitState.last_dl_limit state <=? 0)%Z eqn:E;
    [apply Z.leb_le in E; lia|].
  destruct (Py.leb _ _); [|cbn [fst]; lia].
  destruct (Py.ltb _ _); [|cbn [fst]; lia].
  destruct (Py.leb _ 0); [cbn [fst]; unfold LimitConfig.DL_LIMIT_MIN; lia|].
  match goal with
  | |- context [if Py.ltb ?a ?b then _ else _] =>
      destruct (Py.ltb a b) eqn:Htight
  end; [|cbn [fst]; lia].
  cbn [fst]. intros _. apply ltb_true in Htight.
  set (new_limit := Z.max LimitConfig.DL_LIMIT_MIN _) in *.
  assert (Hq : inject_Z new_limit
               <= inject_Z (TorrentLimitState.last_dl_limit state)).
  { assert (0 <= inject_Z (TorrentLimitState.last_dl_limit state))
      by (change 0 with (inject_Z 0); rewrite <- Zle_Qle; lia).
    lra. }
  rewrite <- Zle_Qle in Hq. exact Hq.
Qed.

Lemma dl_limit_never_loosens_witness :
  (512 <= TorrentLimitState.last_dl_limit state_dl_capped)%Z
  /\ (fst (DownloadLimiter.calc_dl_limit state_dl_capped 0 629145600 10485760
             1000000 10)
      <= TorrentLimitState.last_dl_limit state_dl_capped)%Z.
Proof.
  split; [vm_compute; discriminate|].
  apply (dl_limit_never_loosens state_dl_capped 0 629145600 10485760
           1000000 10).
  - vm_compute. discriminate.
  - vm_compute. reflexivity.
Defined.

(** The answers of the limiter while a cap is recorded. *)
Lemma calc_dl_limit_capped_cases :
  forall (state : TorrentLimitState.t) (total_done total_uploaded total_size : Z)
         (dl_speed now : Q),
    (0 < TorrentLimitState.last_dl_limit state)%Z ->
    let k := fst (DownloadLimiter.calc_dl_limit state total_done total_uploaded
                    total_size dl_speed now) in
    k = (-1)%Z \/ k = 512%Z
    \/ ((512 <= k)%Z /\ (k < TorrentLimitState.last_dl_limit state)%Z).
Proof.
  intros state total_done total_uploaded total_size dl_speed now Hlast.
  unfold DownloadLimiter.calc_dl_limit. cbv zeta.
  destruct (Py.ltb _ 2); [cbn [fst]; auto|].
  destruct (Py.leb _ _).
  { destruct (0 <? _)%Z; cbn [fst]; auto. }
  destruct (_ <=? 0)%Z; [cbn [fst]; auto|].
  destruct (TorrentLimitState.last_dl_limit state <=? 0)%Z eqn:E;
    [apply Z.leb_le in E; lia|].
  destruct (Py.leb _ _); [|cbn [fst]; auto].
  destruct (Py.ltb _ _); [|cbn [fst]; auto].
  destruct (Py.leb _ 0); [cbn [fst]; auto|].
  match goal with
  | |- context [if Py.ltb ?a ?b then _ else _] =>
      destruct (Py.ltb a b) eqn:Htight
  end; [|cbn [fst]; auto].
  cbn [fst]. apply ltb_true in Htight.
  set (new_limit := Z.max LimitConfig.DL_LIMIT_MIN _) in *.
  right. right. split.
  - subst new_limit. unfold LimitConfig.DL_LIMIT_MIN. lia.
  - assert (Hq : inject_Z new_limit
                 < inject_Z (TorrentLimitState.last_dl_limit state)).
    { assert (0 < inject_Z (TorrentLimitState.last_dl_limit state))
        by (change 0 with (inject_Z 0); rewrite <- Zlt_Qlt; lia).
      lra. }
    rewrite <- Zlt_Qlt in Hq. exact Hq.
Qed.

(** X19. A recorded download cap above the minimum of 512 KiB/s does not
    survive a pass unchanged: the pass either sends a strictly lower cap
    of at least 512 KiB/s and records it, or sends -1 (no cap) and
    records -1. *)
Theorem dl_cap_tightens_or_is_released :
  forall (state : TorrentLimitState.t) (total_done total_uploaded total_size : Z)
         (dl_speed now : Q),
    (512 < TorrentLimitState.last_dl_limit state)%Z ->
    let r := apply_dl_limit state total_done total_uploaded total_size
               dl_speed now in
    (snd r = Some (-1)%Z /\ TorrentLimitState.last_dl_limit (fst r) = (-1)%Z)
    \/ (exists k : Z,
          snd r = Some (k * 1024)%Z
          /\ TorrentLimitState.last_dl_limit (fst r) = k
          /\ (512 <= k)%Z
          /\ (k < TorrentLimitState.last_dl_limit state)%Z).
Proof.
  intros state total_done total_uploaded total_size dl_speed now Hlast.
  assert (Hpos : (0 < TorrentLimitState.last_dl_limit state)%Z) by lia.
  pose proof (calc_dl_limit_capped_cases state total_done total_uploaded
                total_size dl_speed now Hpos) as Hk.
  cbv zeta in Hk. unfold apply_dl_limit. cbv zeta.
  set (k := fst (DownloadLimiter.calc_dl_limit _ _ _ _ _ _)) in *.
  set (state1 := if (0 <? k)%Z && _ then _ else state).
  assert (Hsame : TorrentLimitState.last_dl_limit state1
                  = TorrentLimitState.last_dl_limit state).
  { subst state1. destruct (_ && _); reflexivity. }
  rewrite Hsame.
  destruct (k =? TorrentLimitState.last_dl_limit state)%Z eqn:Heq.
  { apply Z.eqb_eq in Heq. lia. }
  cbn [negb fst snd]. cbn [set_last_dl_limit TorrentLimitState.last_dl_limit].
  destruct Hk as [Hk | Hk].
  - left. rewrite Hk. split; reflexivity.
  - right. exists k.
    assert (Hge : (512 <= k)%Z) by lia.
    destruct (k <? 0)%Z eqn:Hneg; [apply Z.ltb_lt in Hneg; lia|].
    repeat split; try reflexivity; lia.
Qed.

Lemma dl_cap_tightens_witness :
  (snd (apply_dl_limit state_dl_capped 0 629145600 104857600 1000000 10)
   = Some (-1)%Z
   /\ TorrentLimitState.last_dl_limit
        (fst (apply_dl_limit state_dl_capped 0 629145600 104857600 1000000 10))
      = (-1)%Z)
  \/ (exists k : Z,
        snd (apply_dl_limit state_dl_capped 0 629145600 104857600 1000000 10)
        = Some (k * 1024)%Z
        /\ TorrentLimitState.last_dl_limit
             (fst (apply_dl_limit state_dl_capped 0 629145600 104857600
                     1000000 10)) = k
        /\ (512 <= k)%Z
        /\ (k < TorrentLimitState.last_dl_limit state_dl_capped)%Z).
Proof.
  apply (dl_cap_tightens_or_is_released state_dl_capped 0 629145600 104857600
           1000000 10).
  vm_compute. reflexivity.
Defined.

(** ** More on the reannounce optimiser *)

(** X20. The three answers of [should_reannounce]. It answers no and
    leaves the state alone; or no with the reason of waiting, setting
    the waiting flag; or yes with the reason of the optimised
    reannounce, leaving the state alone. The last two come only when no
    reannounce is recorded or the recorded one is at least 900 s back,
    for an incomplete download whose cycle is at least 30 s old and
    whose cycle average is above the ceiling; and yes only in a cycle
    that is at least 900 s old. *)
Theorem reannounce_decision_guards :
  forall (state : TorrentLimitState.t) (total_done total_uploaded total_size : Z)
         (now clock : Q),
    let r := ReannounceOptimizer.should_reannounce state total_done
               total_uploaded total_size now clock in
    r = (state, (false, ""%string))
    \/ ((TorrentLimitState.last_reannounce state <= 0
         \/ inject_Z LimitConfig.REANNOUNCE_MIN_INTERVAL
            <= now - TorrentLimitState.last_reannounce state)
        /\ 30 <= TorrentLimitState.this_time state now
        /\ inject_Z LimitConfig.SPEED_LIMIT
           < inject_Z (TorrentLimitState.this_up state total_uploaded)
             / TorrentLimitState.this_time state now
        /\ (total_done < total_size)%Z
        /\ (r = (TorrentLimitState.set_waiting_reannounce state true,
                 (false, "等待汇报"%string))
            \/ (r = (state, (true, "优化汇报"%string))
                /\ inject_Z LimitConfig.REANNOUNCE_MIN_INTERVAL
                   <= TorrentLimitState.this_time state now))).
Proof.
  intros state total_done total_uploaded total_size now clock. cbv zeta.
  unfold ReannounceOptimizer.should_reannounce. cbv zeta.
  match goal with
  | |- context [if ?c then _ else _] => destruct c eqn:Hguard
  end; [left; reflexivity|].
  assert (Hclear : TorrentLimitState.last_reannounce state <= 0
                   \/ inject_Z LimitConfig.REANNOUNCE_MIN_INTERVAL
                      <= now - TorrentLimitState.last_reannounce state).
  { apply andb_false_iff in Hguard as [H|H]; apply ltb_false in H; auto. }
  clear Hguard.
  destruct (Py.ltb (TorrentLimitState.this_time state now) 30) eqn:Htime;
    [left; reflexivity|].
  apply ltb_false in Htime.
  destruct (SpeedTracker.get_avg_speeds _ _ _) as [avg_up avg_dl].
  destruct (_ || _); [left; reflexivity|].
  destruct (_ <=? 0)%Z eqn:Hrem; [left; reflexivity|].
  apply Z.leb_gt in Hrem.
  destruct (Py.ltb (inject_Z LimitConfig.SPEED_LIMIT)
              (inject_Z (TorrentLimitState.this_up state total_uploaded)
               / TorrentLimitState.this_time state now)) eqn:Hover.
  - apply ltb_true in Hover.
    set (earliest := Py.fadd _ now).
    destruct (Py.ltb (earliest - _) _) eqn:Hmin; [left; reflexivity|].
    apply ltb_false in Hmin.
    destruct (Py.ltb _ earliest); [|left; reflexivity].
    destruct (Py.leb earliest now) eqn:Hnow.
    + apply leb_true in Hnow. right.
      split; [exact Hclear|]. split; [exact Htime|].
      split; [exact Hover|]. split; [lia|].
      right. split; [reflexivity | lra].
    + destruct (Py.ltb earliest _); [|left; reflexivity].
      right. split; [exact Hclear|]. split; [exact Htime|].
      split; [exact Hover|]. split; [lia|]. left. reflexivity.
  - destruct (Py.ltb (now - _) _); [left; reflexivity|].
    destruct (Py.ltb _ now); [|left; reflexivity].
    destruct (Py.leb now now) eqn:Hnow; [left; reflexivity|].
    exfalso. apply leb_false in Hnow. lra.
Qed.

(** X21. The waiting check fires once: when it says yes, the state waited,
    the cycle is at least 900 s old and its average is below the
    ceiling, and any later check on the state it returns says no and
    changes nothing. *)
Theorem waiting_check_fires_once :
  forall (state : TorrentLimitState.t) (total_uploaded total_uploaded' : Z)
         (now now' : Q),
    fst (snd (ReannounceOptimizer.check_waiting_reannounce state
                total_uploaded now)) = true ->
    let state' := fst (ReannounceOptimizer.check_waiting_reannounce state
                         total_uploaded now) in
    TorrentLimitState.waiting_reannounce state = true
    /\ inject_Z LimitConfig.REANNOUNCE_MIN_INTERVAL
       <= TorrentLimitState.this_time state now
    /\ inject_Z (TorrentLimitState.this_up state total_uploaded)
       < inject_Z LimitConfig.SPEED_LIMIT * TorrentLimitState.this_time state now
    /\ ReannounceOptimizer.check_waiting_reannounce state' total_uploaded' now'
       = (state', (false, ""%string)).
Proof.
  intros state total_uploaded total_uploaded' now now' Hyes. cbv zeta.
  assert (Hr : TorrentLimitState.waiting_reannounce state = true
               /\ inject_Z LimitConfig.REANNOUNCE_MIN_INTERVAL
                  <= TorrentLimitState.this_time state now
               /\ inject_Z (TorrentLimitState.this_up state total_uploaded)
                  < inject_Z LimitConfig.SPEED_LIMIT
                    * TorrentLimitState.this_time state now
               /\ ReannounceOptimizer.check_waiting_reannounce state
                    total_uploaded now
                  = (TorrentLimitState.set_waiting_reannounce state false,
                     (true, "均值恢复"%string))).
  { revert Hyes.
    unfold ReannounceOptimizer.check_waiting_reannounce. cbv zeta.
    destruct (TorrentLimitState.waiting_reannounce state) eqn:Hw;
      cbn [negb]; [|cbn; discriminate].
    destruct (Py.ltb (TorrentLimitState.this_time state now) _) eqn:Htime;
      [cbn; discriminate|].
    apply ltb_false in Htime.
    destruct (Py.ltb (safe_div _ _ _) _) eqn:Havg; [|cbn; discriminate].
    intros _. apply ltb_true in Havg.
    split; [reflexivity|]. split; [exact Htime|]. split; [|reflexivity].
    assert (H900 : 900 <= TorrentLimitState.this_time state now).
    { unfold LimitConfig.REANNOUNCE_MIN_INTERVAL in Htime.
      assert (inject_Z 900 == 900) by reflexivity. lra. }
    unfold safe_div in Havg.
    destruct (Py.eqb (TorrentLimitState.this_time state now) 0) eqn:Hz.
    { unfold Py.eqb in Hz. apply Qeq_bool_eq in Hz. lra. }
    destruct (Py.ltb (Qabs (TorrentLimitState.this_time state now)) EPS)
      eqn:Heps.
    { apply ltb_true in Heps. rewrite Qabs_pos in Heps by lra.
      unfold EPS in Heps. lra. }
    cbn [orb] in Havg.
    assert (Hpos : 0 < TorrentLimitState.this_time state now) by lra.
    apply (Qmult_lt_r _ _ _ Hpos) in Havg.
    assert (E : inject_Z (TorrentLimitState.this_up state total_uploaded)
                / TorrentLimitState.this_time state now
                * TorrentLimitState.this_time state now
                == inject_Z (TorrentLimitState.this_up state total_uploaded))
      by (field; lra).
    rewrite E in Havg. exact Havg. }
  destruct Hr as (Hw & Htime & Havg & Er). rewrite Er. cbn [fst].
  split; [exact Hw|]. split; [exact Htime|]. split; [exact Havg|].
  reflexivity.
Qed.

Lemma waiting_check_fires_once_witness :
  TorrentLimitState.waiting_reannounce state_waiting = true
  /\ inject_Z LimitConfig.REANNOUNCE_MIN_INTERVAL
     <= TorrentLimitState.this_time state_waiting 2000
  /\ inject_Z (TorrentLimitState.this_up state_waiting 1000)
     < inject_Z LimitConfig.SPEED_LIMIT
       * TorrentLimitState.this_time state_waiting 2000
  /\ ReannounceOptimizer.check_waiting_reannounce
       (fst (ReannounceOptimizer.check_waiting_reannounce state_waiting
               1000 2000)) 5000 2001
     = (fst (ReannounceOptimizer.check_waiting_reannounce state_waiting
               1000 2000), (false, ""%string)).
Proof.
  apply (waiting_check_fires_once state_waiting 1000 5000 2000 2001).
  vm_compute. reflexivity.
Defined.

(** ** More on the eviction of states *)

(** X23. The clean-up keeps, unchanged, every state whose hash is active in
    this pass, or whose session never began, or began at most 7200 s
    before [now]. *)
Theorem cleanup_keeps_active_and_recent :
  forall (states : gmap string TorrentLimitState.t) (active_hashes : gset string)
         (now : Q) (h : string) (st : TorrentLimitState.t),
    states !! h = Some st ->
    h ∈ active_hashes
    \/ TorrentLimitState.session_start_time st <= 0
    \/ now - TorrentLimitState.session_start_time st <= 7200 ->
    PrecisionLimitEngine._cleanup_states states active_hashes now !! h
    = Some st.
Proof.
  intros states active_hashes now h st Hst Hkeep.
  apply cleanup_states_lookup. split; [exact Hst|].
  unfold PrecisionLimitEngine.stale.
  destruct Hkeep as [Hin | [Hnone | Hrecent]].
  - rewrite (bool_decide_eq_true_2 _ Hin). reflexivity.
  - apply andb_false_iff. left. apply andb_false_iff. right.
    apply ltb_false. exact Hnone.
  - apply andb_false_iff. right. apply ltb_false. exact Hrecent.
Qed.

Lemma cleanup_keeps_witness :
  PrecisionLimitEngine._cleanup_states states_sample ∅ 8200 !! "aa"%string
  = Some state_session.
Proof.
  apply (cleanup_keeps_active_and_recent states_sample ∅ 8200 "aa"%string
           state_session).
  - vm_compute. reflexivity.
  - right. right. vm_compute. discriminate.
Defined.

(** The clean-up only removes entries, and running it again with the
    same active hashes at the same time removes nothing more. *)
Lemma cleanup_shrinks_and_is_idempotent :
  forall (states : gmap string TorrentLimitState.t) (active_hashes : gset string)
         (now : Q),
    PrecisionLimitEngine._cleanup_states states active_hashes now ⊆ states
    /\ PrecisionLimitEngine._cleanup_states
         (PrecisionLimitEngine._cleanup_states states active_hashes now)
         active_hashes now
       = PrecisionLimitEngine._cleanup_states states active_hashes now.
Proof.
  intros states active_hashes now. split.
  - unfold PrecisionLimitEngine._cleanup_states. apply map_filter_subseteq.
  - apply map_eq. intros h. apply option_eq. intros st.
    rewrite !cleanup_states_lookup. tauto.
Qed.

(** ** More on persistence *)

(** X24. With the [Database] of database.py as the engine's store
    nothing is ever restored and nothing is ever saved:
    [_restore_states_from_db] leaves the engine as it is, whatever the
    table holds, and [_save_states_to_db] leaves the table as it is,
    whatever states the engine holds. The engine asks for a method that
    the class does not have, and passes keywords to one that takes a
    dict; both exceptions are swallowed. *)
Theorem persistence_calls_are_swallowed :
  forall (self : PrecisionLimitEngine.t) (db : Database.t) (now clock : Q),
    PrecisionLimitEngine._restore_states_from_db self db now = self
    /\ PrecisionLimitEngine._save_states_to_db self db clock = db.
Proof.
  intros self db now clock. split.
  - apply restore_is_swallowed.
  - apply save_is_swallowed.
Qed.

(** ** The budget of property requests *)

Lemma nondecreasing_from_lower (t : Q) (q : list Q) :
  nondecreasing_from t q -> Forall (fun g => t <= g) q.
Proof.
  revert t. induction q as [|h r IH]; intros t Hq; [constructor|].
  destruct Hq as [Hth Hr]. constructor; [exact Hth|].
  apply (Forall_impl _ _ _ (IH h Hr)). intros g Hg. cbn beta in Hg. lra.
Qed.

Lemma nondecreasing_from_tail (t : Q) (q : list Q) :
  nondecreasing_from t q -> nondecreasing q.
Proof. destruct q as [|h r]; [trivial|]. intros [_ Hr]. exact Hr. Qed.

Lemma nondecreasing_from_snoc (t now : Q) (q : list Q) :
  nondecreasing_from t q -> t <= now -> Forall (fun g => g <= now) q ->
  nondecreasing_from t (q ++ [now]).
Proof.
  revert t. induction q as [|h r IH]; intros t Hq Ht Hall; cbn [app].
  - split; [exact Ht | exact I].
  - destruct Hq as [Hth Hr]. split; [exact Hth|].
    apply IH; [exact Hr | | ].
    + apply Forall_inv in Hall. exact Hall.
    + apply Forall_inv_tail in Hall. exact Hall.
Qed.

Lemma nondecreasing_snoc (now : Q) (q : list Q) :
  nondecreasing q -> Forall (fun g => g <= now) q -> nondecreasing (q ++ [now]).
Proof.
  destruct q as [|h r]; intros Hq Hall; [exact I|].
  cbn [app nondecreasing]. apply nondecreasing_from_snoc.
  - exact Hq.
  - apply Forall_inv in Hall. exact Hall.
  - apply Forall_inv_tail in Hall. exact Hall.
Qed.

Lemma drop_old_split (now : Q) (q : list Q) :
  nondecreasing q ->
  exists q1,
    q = q1 ++ drop_old now q
    /\ Forall (fun g => 1 < now - g) q1
    /\ Forall (fun g => now - g <= 1) (drop_old now q)
    /\ nondecreasing (drop_old now q).
Proof.
  induction q as [|h r IH]; intros Hq.
  - exists []. repeat split; constructor.
  - cbn [drop_old]. destruct (Py.ltb 1 (now - h)) eqn:Hold.
    + apply ltb_true in Hold.
      destruct (IH (nondecreasing_from_tail h r Hq)) as (q1 & E & H1 & H2 & H3).
      exists (h :: q1). cbn [app]. rewrite <- E.
      repeat split; [constructor; assumption | exact H2 | exact H3].
    + apply ltb_false in Hold. exists []. cbn [app].
      repeat split; [constructor | | exact Hq].
      constructor; [exact Hold|].
      apply (Forall_impl _ _ _ (nondecreasing_from_lower h r Hq)).
      intros g Hg. cbn beta in Hg. lra.
Qed.

Lemma api_ok_inv (api_rate_limit : Z) (t now : Q) (q granted : list Q) :
  api_inv api_rate_limit t (q, granted) ->
  t <= now ->
  api_inv api_rate_limit now
    (fst (_api_ok q api_rate_limit now),
     if snd (_api_ok q api_rate_limit now) then granted ++ [now] else granted).
Proof.
  intros (old & Eg & Hold & Hq & Hsorted & Hlen) Htn.
  cbn [fst snd] in Eg, Hq, Hsorted, Hlen.
  destruct (drop_old_split now q Hsorted) as (q1 & Eq & H1 & H2 & H3).
  assert (Hle : Forall (fun g => g <= now) (drop_old now q)).
  { assert (Hq' : Forall (fun g => g <= now) q).
    { apply (Forall_impl _ _ _ Hq). intros g [Hg _]. lra. }
    rewrite Eq in Hq'. apply Forall_app in Hq'. apply Hq'. }
  assert (Hlen' : (length (drop_old now q) <= length q)%nat).
  { rewrite Eq at 2. rewrite length_app. lia. }
  assert (Hold' : Forall (fun g => 1 < now - g) (old ++ q1)).
  { apply Forall_app. split; [|exact H1].
    apply (Forall_impl _ _ _ Hold). intros g Hg. cbn beta in Hg. lra. }
  unfold _api_ok. cbv zeta.
  destruct (api_rate_limit <=? Z.of_nat (length (drop_old now q)))%Z eqn:Hfull;
    cbn [fst snd].
  - exists (old ++ q1). cbn [fst snd].
    split; [rewrite Eg, Eq at 1; rewrite app_assoc; reflexivity|].
    split; [exact Hold'|]. split; [|split; [exact H3 | lia]].
    apply Forall_forall. intros g Hin. split.
    + exact (proj1 (Forall_forall _ _) Hle g Hin).
    + exact (proj1 (Forall_forall _ _) H2 g Hin).
  - apply Z.leb_gt in Hfull.
    exists (old ++ q1). cbn [fst snd].
    split; [rewrite Eg, Eq at 1; rewrite !app_assoc; reflexivity|].
    split; [exact Hold'|]. split; [|split].
    + apply Forall_app. split.
      * apply Forall_forall. intros g Hin. split.
        -- exact (proj1 (Forall_forall _ _) Hle g Hin).
        -- exact (proj1 (Forall_forall _ _) H2 g Hin).
      * constructor; [|constructor]. split; lra.
    + apply nondecreasing_snoc; assumption.
    + rewrite length_app. cbn [length]. lia.
Qed.

Lemma api_fold_inv (api_rate_limit : Z) (nows : list Q) :
  forall (t : Q) (qg : list Q * list Q),
    api_inv api_rate_limit t qg ->
    nondecreasing_from t nows ->
    api_inv api_rate_limit (List.last nows t)
      (fold_left (fun (qg : list Q * list Q) (now : Q) =>
                    let '(api_times, granted) := qg in
                    let '(api_times', ok) :=
                      _api_ok api_times api_rate_limit now in
                    (api_times', if ok then granted ++ [now] else granted))
                 nows qg).
Proof.
  induction nows as [|now rest IH]; intros t qg Hinv Ht; [exact Hinv|].
  destruct Ht as [Htn Hrest]. cbn [fold_left].
  assert (E : List.last (now :: rest) t = List.last rest now).
  { clear. revert t now. induction rest as [|x r IHr]; intros t now;
      [reflexivity|].
    change (List.last (now :: x :: r) t) with (List.last (x :: r) t).
    rewrite (IHr t x). symmetry. apply (IHr now x). }
  rewrite E. apply IH; [|exact Hrest].
  destruct qg as [q granted].
  pose proof (api_ok_inv api_rate_limit t now q granted Hinv Htn) as Hstep.
  destruct (_api_ok q api_rate_limit now) as [q' ok]. exact Hstep.
Qed.

Lemma filter_recent_none (now : Q) (l : list Q) :
  Forall (fun g => 1 < now - g) l ->
  List.filter (fun g => Py.leb (now - g) 1) l = [].
Proof.
  induction 1 as [|g l Hg _ IH]; [reflexivity|].
  cbn [List.filter].
  destruct (Py.leb (now - g) 1) eqn:E; [apply leb_true in E; lra | exact IH].
Qed.

Lemma filter_recent_all (now : Q) (l : list Q) :
  Forall (fun g => g <= now /\ now - g <= 1) l ->
  List.filter (fun g => Py.leb (now - g) 1) l = l.
Proof.
  induction 1 as [|g l [_ Hg] _ IH]; [reflexivity|].
  cbn [List.filter].
  destruct (Py.leb (now - g) 1) eqn:E; [rewrite IH; reflexivity|].
  apply leb_false in E. lra.
Qed.

(** X25. The budget holds: when the calls come at times that do not go back,
    the requests granted within the second before any call, that call's
    included, number at most the rate limit. *)
Theorem api_budget_per_second :
  forall (api_rate_limit : Z) (nows : list Q) (now : Q),
    nondecreasing (nows ++ [now]) ->
    (Z.of_nat
       (length (List.filter (fun g => Py.leb (now - g) 1)
                  (snd (api_run api_rate_limit (nows ++ [now])))))
     <= Z.max 0 api_rate_limit)%Z.
Proof.
  intros api_rate_limit nows now Hsorted.
  assert (Hinv : api_inv api_rate_limit now
                   (api_run api_rate_limit (nows ++ [now]))).
  { unfold api_run.
    assert (Hlast : forall t, List.last (nows ++ [now]) t = now).
    { intros t. apply last_last. }
    destruct (nows ++ [now]) as [|first rest] eqn:E.
    { destruct nows; discriminate. }
    rewrite <- (Hlast first). apply api_fold_inv.
    - exists []. cbn [fst snd length app]. repeat split; try constructor. lia.
    - split; [lra | exact Hsorted]. }
  destruct Hinv as (old & Eg & Hold & Hq & _ & Hlen).
  rewrite Eg, List.filter_app, filter_recent_none by exact Hold.
  rewrite filter_recent_all by exact Hq. cbn [app]. exact Hlen.
Qed.

Lemma api_budget_witness :
  (Z.of_nat
     (length (List.filter (fun g : Q => Py.leb (2 - g) 1)
                (snd (api_run 2 (([0; 0.5; 0.75; 1.25] ++ [2])%Q)))))
   <= Z.max 0 2)%Z.
Proof.
  apply (api_budget_per_second 2 [0; 0.5; 0.75; 1.25] 2).
  cbn. repeat split; vm_compute; discriminate.
Defined.

(** ** The pause between passes *)

(** X26. The loop sleeps at least 0.1 s and at most 5 s after a pass, and
    not longer for a torrent nearer to its announce than for one further
    from it. *)
Theorem loop_sleep_bounded_and_monotone :
  forall (min_tl min_tl' elapsed : Q),
    0 <= elapsed ->
    min_tl <= min_tl' ->
    0.1 <= loop_sleep_time min_tl elapsed
    /\ loop_sleep_time min_tl elapsed <= 5
    /\ loop_sleep_time min_tl elapsed <= loop_sleep_time min_tl' elapsed.
Proof.
  intros min_tl min_tl' elapsed Hel Hle. unfold loop_sleep_time. cbv zeta.
  repeat match goal with
         | |- context [if Py.ltb ?a ?b then _ else _] =>
             let H := fresh "H" in
             destruct (Py.ltb a b) eqn:H;
             [apply ltb_true in H | apply ltb_false in H]
         end;
    try lra;
    repeat match goal with
           | |- context [Py.max ?a ?b] =>
               let Hm := fresh "Hm" in
               destruct (max_cases a b) as [[? Hm]|[? Hm]]; rewrite Hm
           end;
    repeat split; lra.
Qed.

Lemma loop_sleep_witness :
  0.1 <= loop_sleep_time 8 0.25
  /\ loop_sleep_time 8 0.25 <= 5
  /\ loop_sleep_time 8 0.25 <= loop_sleep_time 700 0.25.
Proof.
  apply (loop_sleep_bounded_and_monotone 8 700 0.25);
    vm_compute; discriminate.
Defined.

(** ** More on the precision tracker *)

Lemma tracker_run_snoc records x :
  tracker_run (records ++ [x])
  = fst (PrecisionTracker.record (tracker_run records) (fst (fst x))
           (snd (fst x)) (snd x)).
Proof. unfold tracker_run. rewrite fold_left_app. reflexivity. Qed.

Lemma tracker_run_short records :
  (length records < 5)%nat ->
  tracker_run records
  = {| PrecisionTracker._history := records;
       PrecisionTracker._phase_adj :=
         PrecisionTracker._phase_adj PrecisionTracker.__init__;
       PrecisionTracker._global_adj := 1 |}.
Proof.
  induction records as [|x records IH] using rev_ind; intros Hlen;
    [reflexivity|].
  rewrite length_app in Hlen. cbn [length] in Hlen.
  rewrite tracker_run_snoc, IH by lia.
  unfold PrecisionTracker.record, PrecisionTracker._update.
  cbn [PrecisionTracker._history PrecisionTracker._phase_adj
       PrecisionTracker._global_adj].
  unfold Py.deque_append.
  destruct (30 <=? length records)%nat eqn:E30;
    [apply Nat.leb_le in E30; lia|].
  destruct x as [[ratio phase] now]. cbn [fst snd].
  destruct (length (records ++ [(ratio, phase, now)]) <? 5)%nat eqn:E5;
    [reflexivity|].
  apply Nat.ltb_ge in E5. rewrite length_app in E5. cbn [length] in E5. lia.
Qed.

(** X27. The tracker corrects nothing before it has five cycles on record:
    after fewer than five [record] calls it holds these records and the
    adjustment of every phase is still 1. *)
Theorem tracker_needs_five_records :
  forall (records : list (Q * string * Q)) (phase : string),
    (length records < 5)%nat ->
    PrecisionTracker._history (tracker_run records) = records
    /\ PrecisionTracker.get_adjustment (tracker_run records) phase == 1.
Proof.
  intros records phase Hlen. rewrite tracker_run_short by exact Hlen.
  split; [reflexivity|].
  unfold PrecisionTracker.get_adjustment.
  cbn [PrecisionTracker._phase_adj PrecisionTracker._global_adj
       PrecisionTracker.__init__].
  rewrite !lookup_insert.
  repeat case_decide; rewrite ?lookup_empty; cbn [from_option id]; reflexivity.
Qed.

Lemma tracker_needs_five_witness :
  PrecisionTracker._history
    (tracker_run [(1.1, "steady"%string, 1); (1.2, "steady"%string, 2);
                  (0.9, "catch"%string, 3); (1.3, "steady"%string, 4)])
  = [(1.1, "steady"%string, 1); (1.2, "steady"%string, 2);
     (0.9, "catch"%string, 3); (1.3, "steady"%string, 4)]
  /\ PrecisionTracker.get_adjustment
       (tracker_run [(1.1, "steady"%string, 1); (1.2, "steady"%string, 2);
                     (0.9, "catch"%string, 3); (1.3, "steady"%string, 4)])
       "steady" == 1.
Proof.
  apply (tracker_needs_five_records
           [(1.1, "steady"%string, 1); (1.2, "steady"%string, 2);
            (0.9, "catch"%string, 3); (1.3, "steady"%string, 4)] "steady").
  cbn. lia.
Defined.

Lemma phase_factor_on_target avg :
  0.995 <= avg <= 1.001 -> PrecisionTracker.phase_factor avg = 1.
Proof.
  intros [Hlo Hhi]. unfold PrecisionTracker.phase_factor.
  repeat match goal with
         | |- context [if Py.ltb ?a ?b then _ else _] =>
             let H := fresh "H" in
             destruct (Py.ltb a b) eqn:H;
             [apply ltb_true in H; lra | clear H]
         end.
  reflexivity.
Qed.

Lemma setdefault_append_on_target phase_data phase ratio :
  Forall (fun g : string * list Q =>
            Forall (fun r => 0.995 <= r <= 1.001) (snd g)) phase_data ->
  0.995 <= ratio <= 1.001 ->
  Forall (fun g : string * list Q =>
            Forall (fun r => 0.995 <= r <= 1.001) (snd g))
         (PrecisionTracker.setdefault_append phase_data phase ratio).
Proof.
  intros Hall Hr. induction Hall as [|[p rs] rest Hrs Hrest IH];
    cbn [PrecisionTracker.setdefault_append].
  - constructor; [|constructor]. cbn [snd]. constructor; [exact Hr|constructor].
  - destruct (String.eqb p phase).
    + constructor; [|exact Hrest]. cbn [snd] in *.
      apply Forall_app. split; [exact Hrs|]. constructor; [exact Hr|constructor].
    + constructor; [exact Hrs | exact IH].
Qed.

Lemma group_by_phase_on_target history :
  Forall (fun h : Q * string * Q => 0.995 <= fst (fst h) <= 1.001) history ->
  Forall (fun g : string * list Q =>
            Forall (fun r => 0.995 <= r <= 1.001) (snd g))
         (PrecisionTracker.group_by_phase history).
Proof.
  unfold PrecisionTracker.group_by_phase.
  assert (Hgen : forall pd,
             Forall (fun g : string * list Q =>
                       Forall (fun r => 0.995 <= r <= 1.001) (snd g)) pd ->
             Forall (fun h : Q * string * Q => 0.995 <= fst (fst h) <= 1.001)
                    history ->
             Forall (fun g : string * list Q =>
                       Forall (fun r => 0.995 <= r <= 1.001) (snd g))
                    (fold_left (fun pd (h : Q * string * Q) =>
                                  PrecisionTracker.setdefault_append pd
                                    (snd (fst h)) (fst (fst h)))
                               history pd)).
  { induction history as [|h history IH]; intros pd Hpd Hh; [exact Hpd|].
    cbn [fold_left]. apply IH.
    - apply setdefault_append_on_target; [exact Hpd|].
      apply Forall_inv in Hh. exact Hh.
    - apply Forall_inv_tail in Hh. exact Hh. }
  apply Hgen. constructor.
Qed.

Lemma update_phases_on_target phase_data : forall phase_adj,
  Forall (fun g : string * list Q =>
            Forall (fun r => 0.995 <= r <= 1.001) (snd g)) phase_data ->
  (forall p a, phase_adj !! p = Some a -> a == 1) ->
  forall p a,
    fst (PrecisionTracker.update_phases phase_data phase_adj) !! p = Some a ->
    a == 1.
Proof.
  induction phase_data as [|[phase ratios] rest IH]; intros phase_adj Hall Hadj;
    cbn [PrecisionTracker.update_phases fst]; [exact Hadj|].
  pose proof (Forall_inv Hall) as Hrs. cbn [snd] in Hrs.
  pose proof (Forall_inv_tail Hall) as Hrest.
  destruct (length ratios <? 3)%nat eqn:Hlen; [apply IH; assumption|].
  cbv zeta.
  destruct (phase_adj !! phase) as [cur|] eqn:Hcur; [|exact Hadj].
  apply IH; [exact Hrest|].
  intros p a. rewrite lookup_insert. case_decide; [|apply Hadj].
  intros [= <-].
  assert (Hne : ratios <> []).
  { destruct ratios; [cbn in Hlen; discriminate | discriminate]. }
  rewrite (phase_factor_on_target _ (mean_bounds _ _ _ Hne Hrs)).
  pose proof (Hadj _ _ Hcur) as Hone.
  unfold clamp.
  destruct (min_cases 1.08 (cur * 1)) as [[? ->]|[? ->]];
    destruct (max_cases 0.92 (cur * 1)) as [[? E]|[? E]];
    try destruct (max_cases 0.92 1.08) as [[? E']|[? E']];
    rewrite ?E, ?E'; lra.
Qed.

Lemma tracker_update_on_target tr :
  tracker_on_target tr ->
  tracker_on_target (fst (PrecisionTracker._update tr)).
Proof.
  intros (Hhist & Hadj & Hglobal). unfold PrecisionTracker._update.
  destruct (length (PrecisionTracker._history tr) <? 5)%nat eqn:Hlen;
    [repeat split; assumption|].
  pose proof (update_phases_on_target
                (PrecisionTracker.group_by_phase (PrecisionTracker._history tr))
                _ (group_by_phase_on_target _ Hhist) Hadj) as Hadj'.
  destruct (PrecisionTracker.update_phases _ _) as [phase_adj raised].
  cbn [fst] in Hadj'. cbv zeta.
  destruct raised; [repeat split; assumption|].
  assert (Hne : map (fun h : Q * string * Q => fst (fst h))
                    (PrecisionTracker._history tr) <> []).
  { destruct (PrecisionTracker._history tr); [cbn in Hlen|]; discriminate. }
  assert (Hall : Forall (fun r => 0.995 <= r <= 1.001)
                   (map (fun h : Q * string * Q => fst (fst h))
                        (PrecisionTracker._history tr))).
  { apply Forall_map. exact Hhist. }
  pose proof (mean_bounds _ _ _ Hne Hall) as [Hlo Hhi].
  destruct (Py.ltb 1.002 _) eqn:H1; [apply ltb_true in H1; lra|].
  destruct (Py.ltb _ 0.995) eqn:H2; [apply ltb_true in H2; lra|].
  repeat split; assumption.
Qed.

Lemma tracker_run_on_target records :
  Forall (fun h : Q * string * Q => 0.995 <= fst (fst h) <= 1.001) records ->
  tracker_on_target (tracker_run records).
Proof.
  induction records as [|x records IH] using rev_ind; intros Hall.
  - split; [constructor|]. split; [|reflexivity].
    intros p a. cbn [tracker_run fold_left PrecisionTracker.__init__
                     PrecisionTracker._phase_adj].
    rewrite !lookup_insert.
    repeat case_decide; rewrite ?lookup_empty; intros [= <-]; reflexivity.
  - apply Forall_app in Hall as [Hrecords Hx]. apply Forall_inv in Hx.
    rewrite tracker_run_snoc. unfold PrecisionTracker.record.
    apply tracker_update_on_target.
    destruct (IH Hrecords) as (Hhist & Hadj & Hglobal).
    split; [|split; assumption].
    cbn [PrecisionTracker._history]. unfold Py.deque_append.
    destruct x as [[ratio phase] now]. cbn [fst snd] in *.
    destruct (30 <=? _)%nat; apply Forall_app; split;
      try (constructor; [exact Hx | constructor]); [|exact Hhist].
    destruct (PrecisionTracker._history (tracker_run records));
      [constructor|]. apply Forall_inv_tail in Hhist. exact Hhist.
Qed.

(** X28. Cycles that end on target never move the correction: when
    every recorded ratio is within [0.996, 1.0005], well inside the
    band in which the tracker corrects nothing, the adjustment of every
    phase stays 1, however many cycles are recorded. *)
Theorem on_target_cycles_keep_adjustment :
  forall (records : list (Q * string * Q)) (phase : string),
    Forall (fun h : Q * string * Q => 0.996 <= fst (fst h) <= 1.0005) records ->
    PrecisionTracker.get_adjustment (tracker_run records) phase == 1.
Proof.
  intros records phase Hall.
  assert (Hband : Forall (fun h : Q * string * Q =>
                            0.995 <= fst (fst h) <= 1.001) records).
  { eapply Forall_impl; [exact Hall|]. intros h Hh. cbn beta in Hh. lra. }
  destruct (tracker_run_on_target records Hband) as (_ & Hadj & Hglobal).
  unfold PrecisionTracker.get_adjustment. rewrite Hglobal.
  destruct (PrecisionTracker._phase_adj (tracker_run records) !! phase)
    as [a|] eqn:Ha; cbn [from_option id].
  - rewrite (Hadj _ _ Ha). reflexivity.
  - reflexivity.
Qed.

Lemma on_target_cycles_witness :
  PrecisionTracker.get_adjustment
    (tracker_run [(1, "steady"%string, 1); (0.999, "steady"%string, 2);
                  (1.0005, "steady"%string, 3); (0.996, "finish"%string, 4);
                  (1, "steady"%string, 5); (0.997, "steady"%string, 6)])
    "steady" == 1.
Proof.
  apply (on_target_cycles_keep_adjustment
           [(1, "steady"%string, 1); (0.999, "steady"%string, 2);
            (1.0005, "steady"%string, 3); (0.996, "finish"%string, 4);
            (1, "steady"%string, 5); (0.997, "steady"%string, 6)] "steady").
  repeat (constructor; [split; vm_compute; discriminate|]). constructor.
Defined.

(** ** The cycle counters *)

Lemma report_cycle_counters stats tracker state total_uploaded now :
  let stats' := fst (fst (_report_cycle stats tracker state total_uploaded
                            now)) in
  total_cycles stats' = (total_cycles stats + 1)%Z
  /\ (success_cycles stats <= success_cycles stats'
      <= success_cycles stats + 1)%Z
  /\ (precision_cycles stats <= precision_cycles stats'
      <= precision_cycles stats + 1)%Z
  /\ (precision_cycles stats' - precision_cycles stats
      <= success_cycles stats' - success_cycles stats)%Z.
Proof.
  cbv zeta. unfold _report_cycle. cbv zeta.
  cbn [fst total_cycles success_cycles precision_cycles].
  set (ratio := if (0 <? TorrentLimitState.target_speed state)%Z
                then _ else 0).
  split; [reflexivity|].
  destruct (Py.leb (Qabs (ratio - 1)) 0.03) eqn:Hs;
    destruct (Py.leb (Qabs (ratio - 1)) 0.01) eqn:Hp;
    try (repeat split; lia).
  exfalso. apply leb_false in Hs. apply leb_true in Hp. lra.
Qed.

(** X29. The counters stay consistent: starting from counters with
    precise <= successful <= total, after any number of cycle reports
    the total has grown by the number of reports, and still
    precise <= successful <= total, since a cycle within 1 % of its
    target is also within 3 %. *)
Theorem report_run_counters_consistent :
  forall (stats : Stats) (tracker : PrecisionTracker.t)
         (cycles : list (TorrentLimitState.t * Z * Q)),
    (0 <= precision_cycles stats <= success_cycles stats)%Z ->
    (success_cycles stats <= total_cycles stats)%Z ->
    let stats' := fst (report_run stats tracker cycles) in
    total_cycles stats' = (total_cycles stats + Z.of_nat (length cycles))%Z
    /\ (0 <= precision_cycles stats' <= success_cycles stats')%Z
    /\ (success_cycles stats' <= total_cycles stats')%Z.
Proof.
  intros stats tracker cycles. cbv zeta. unfold report_run.
  revert stats tracker.
  induction cycles as [|c cycles IH]; intros stats tracker Hps Hst.
  - cbn [fold_left fst length]. repeat split; lia.
  - cbn [fold_left fst snd].
    pose proof (report_cycle_counters stats tracker (fst (fst c))
                  (snd (fst c)) (snd c)) as Hstep.
    cbv zeta in Hstep.
    destruct (_report_cycle stats tracker (fst (fst c)) (snd (fst c)) (snd c))
      as [[stats1 tracker1] ratio].
    cbn [fst snd] in *. destruct Hstep as (Ht & Hs & Hp & Hd).
    destruct (IH stats1 tracker1) as (Ht' & Hps' & Hst'); [lia | lia |].
    split; [|split; [exact Hps' | exact Hst']].
    rewrite Ht', Ht. cbn [length]. lia.
Qed.

Lemma report_run_counters_witness :
  total_cycles
    (fst (report_run stats_fresh PrecisionTracker.__init__
            [(state_session, 1000%Z, 2800%Q); (state_session, 5000%Z, 4600%Q)]))
  = (total_cycles stats_fresh
     + Z.of_nat (length [(state_session, 1000%Z, 2800%Q);
                         (state_session, 5000%Z, 4600%Q)]))%Z
  /\ (0 <= precision_cycles
             (fst (report_run stats_fresh PrecisionTracker.__init__
                     [(state_session, 1000%Z, 2800%Q);
                      (state_session, 5000%Z, 4600%Q)]))
      <= success_cycles
           (fst (report_run stats_fresh PrecisionTracker.__init__
                   [(state_session, 1000%Z, 2800%Q);
                    (state_session, 5000%Z, 4600%Q)])))%Z
  /\ (success_cycles
        (fst (report_run stats_fresh PrecisionTracker.__init__
                [(state_session, 1000%Z, 2800%Q); (state_session, 5000%Z, 4600%Q)]))
      <= total_cycles
           (fst (report_run stats_fresh PrecisionTracker.__init__
                   [(state_session, 1000%Z, 2800%Q);
                    (state_session, 5000%Z, 4600%Q)])))%Z.
Proof.
  apply (report_run_counters_consistent stats_fresh PrecisionTracker.__init__
           [(state_session, 1000%Z, 2800%Q); (state_session, 5000%Z, 4600%Q)]).
  - vm_compute. split; discriminate.
  - vm_compute. discriminate.
Defined.

(** ** The batches of a pass *)

Lemma batch_run_snoc adds x :
  batch_run (adds ++ [x])
  = batch_add (batch_run adds) (fst (fst x)) (snd (fst x)) (snd x).
Proof. unfold batch_run. rewrite fold_left_app. reflexivity. Qed.

Lemma hashes_of_snoc adds x inst_id limit :
  hashes_of (adds ++ [x]) inst_id limit
  = hashes_of adds inst_id limit
    ++ (if (fst (fst x) =? inst_id)%Z && (snd (fst x) =? limit)%Z
        then [snd x] else []).
Proof.
  unfold hashes_of. rewrite List.filter_app, map_app. cbn [List.filter].
  destruct (_ && _); reflexivity.
Qed.

Lemma batch_run_lookup adds : forall inst_id limit,
  default ∅ (batch_run adds !! inst_id) !! limit
  = match hashes_of adds inst_id limit with
    | [] => None
    | hashes => Some hashes
    end.
Proof.
  induction adds as [|[[i l] h] adds IH] using rev_ind; intros inst_id limit.
  - cbn. rewrite lookup_empty. reflexivity.
  - rewrite batch_run_snoc, hashes_of_snoc. cbn [fst snd].
    unfold batch_add. cbv zeta.
    destruct (Z.eqb_spec i inst_id) as [->|Hi].
    + rewrite lookup_insert_eq. cbn [from_option id andb].
      destruct (Z.eqb_spec l limit) as [->|Hl].
      * rewrite lookup_insert_eq, IH.
        destruct (hashes_of adds inst_id limit) as [|x xs]; reflexivity.
      * rewrite lookup_insert_ne by exact Hl. rewrite IH, app_nil_r.
        reflexivity.
    + rewrite lookup_insert_ne by exact Hi. cbn [andb].
      rewrite IH, app_nil_r. reflexivity.
Qed.

Lemma batch_calls_In actions inst_id hashes limit :
  In (inst_id, hashes, limit) (batch_calls actions)
  <-> exists by_limit,
        actions !! inst_id = Some by_limit /\ by_limit !! limit = Some hashes.
Proof.
  unfold batch_calls. rewrite in_concat. split.
  - intros (calls & Hcalls & Hin).
    apply in_map_iff in Hcalls as ([i by_limit] & <- & Hib).
    apply in_map_iff in Hin as ([l hs] & [= <- <- <-] & Hlh).
    cbn [fst snd] in *. exists by_limit.
    apply list_elem_of_In, elem_of_map_to_list in Hib.
    apply list_elem_of_In, elem_of_map_to_list in Hlh. split; assumption.
  - intros (by_limit & Hi & Hl).
    exists (map (fun lh : Z * list string => (inst_id, snd lh, fst lh))
                (map_to_list by_limit)).
    split.
    + apply in_map_iff. exists (inst_id, by_limit). split; [reflexivity|].
      apply list_elem_of_In, elem_of_map_to_list. exact Hi.
    + apply in_map_iff. exists (limit, hashes). split; [reflexivity|].
      apply list_elem_of_In, elem_of_map_to_list. exact Hl.
Qed.

(** X30. A pass makes one call of the manager per instance and cap: the call
    for an instance and a cap carries exactly the hashes that were to
    get this cap on this instance, in the order met, and there is no
    call without hashes. *)
Theorem batch_calls_group_by_instance_and_cap :
  forall (adds : list (Z * Z * string)) (inst_id limit : Z)
         (hashes : list string),
    In (inst_id, hashes, limit) (batch_calls (batch_run adds))
    <-> hashes = hashes_of adds inst_id limit /\ hashes <> [].
Proof.
  intros adds inst_id limit hashes. rewrite batch_calls_In.
  pose proof (batch_run_lookup adds inst_id limit) as Hlook. split.
  - intros (by_limit & Hi & Hl). rewrite Hi in Hlook.
    cbn [from_option id] in Hlook. rewrite Hl in Hlook.
    destruct (hashes_of adds inst_id limit) as [|x xs]; [discriminate|].
    injection Hlook as ->. split; [reflexivity | discriminate].
  - intros [-> Hne].
    destruct (batch_run adds !! inst_id) as [by_limit|] eqn:Hi;
      cbn [from_option id] in Hlook.
    + exists by_limit. split; [reflexivity|]. rewrite Hlook.
      destruct (hashes_of adds inst_id limit); [congruence | reflexivity].
    + rewrite lookup_empty in Hlook.
      destruct (hashes_of adds inst_id limit); [congruence | discriminate].
Qed.

